(** * Movie recommendation microservice: the recommendation engine

    Shallow embedding of [Python-recommendation-microservice/main.py]
    (class [RecommendationEngine]) and the properties of its four
    recommenders: collaborative filtering, content-based filtering, the
    popularity fallback and the hybrid combiner.

    Numbers.  Python floats are modelled as exact rationals extended with
    one non-finite value [NaN], which is what a division by zero, the
    square root of a negative number or the logarithm of a non-positive
    number yields (numpy does not raise there).  Rounding is not
    modelled.  The library functions whose values are irrational or
    which are third-party code ([np.sqrt], [np.log], the TF-IDF
    vectorizer) are members of the interface [NumLib]; every theorem
    holds for every implementation of it. *)

From Stdlib Require Import String Ascii List Bool Arith ZArith QArith Qround Lia Lqa.
From Stdlib Require Import Permutation Sorted.
From Stdlib Require OrderedTypeEx.
Import ListNotations.
Local Open Scope string_scope.
Local Open Scope list_scope.
Local Open Scope Z_scope.

(* ================================================================== *)
(** * Numbers *)
(* ================================================================== *)

Inductive num : Type :=
| Fin (q : Q)
| NaN.

Definition is_finite (x : num) : bool :=
  match x with Fin _ => true | NaN => false end.

Definition nadd (a b : num) : num :=
  match a, b with
  | Fin x, Fin y => Fin (Qred (x + y))
  | _, _ => NaN
  end.

Definition nmul (a b : num) : num :=
  match a, b with
  | Fin x, Fin y => Fin (Qred (x * y))
  | _, _ => NaN
  end.

(** Division: a zero divisor gives a non-finite value. *)
Definition ndiv (a b : num) : num :=
  match a, b with
  | Fin x, Fin y => if Qeq_bool y 0 then NaN else Fin (Qred (x / y))
  | _, _ => NaN
  end.

(** [a < b]; every comparison with [NaN] is false. *)
Definition nltb (a b : num) : bool :=
  match a, b with
  | Fin x, Fin y => negb (Qle_bool y x)
  | _, _ => false
  end.

Definition Qltb (x y : Q) : bool := negb (Qle_bool y x).

Definition of_nat (n : nat) : num := Fin (inject_Z (Z.of_nat n)).

Definition nsum (l : list num) : num := fold_left nadd l (Fin 0).

(** [np.mean]: the sum divided by the number of elements. *)
Definition np_mean (l : list num) : num := ndiv (nsum l) (of_nat (length l)).

(** Weights and constants of the source. *)
Definition CF_WEIGHT : num := Fin (7 # 10).
Definition CONTENT_WEIGHT : num := Fin (3 # 10).
Definition DEFAULT_SCORE : num := Fin (5 # 2).
Definition MIN_RATINGS_FOR_CF : nat := 5.

(** Exceptions the engine can raise. *)
Inductive exn : Type :=
| AttributeError   (* attribute access on [None] *)
| TypeError        (* subscript of [None] *)
| IndexError       (* list or array index out of range *)
| ValueError.      (* raised by the vectorizer, e.g. on an empty vocabulary *)

Inductive result (A : Type) : Type :=
| Ok (a : A)
| Raise (e : exn).
Arguments Ok {A} a.
Arguments Raise {A} e.

(** The numeric library interface. *)
Class NumLib : Type := {
  np_sqrt : Q -> Q;                       (* on non-negative arguments *)
  np_log : Q -> Q;                        (* on positive arguments *)
  tfidf_fit_transform : list string -> result (list (list Q));
  (* the arrangement in which [np.argsort] leaves positions of equal
     value: its default sort is not stable *)
  argsort_tie_order : list num -> list nat
}.

Definition nsqrt `{NumLib} (x : Q) : num :=
  if Qltb x 0 then NaN else Fin (Qred (np_sqrt x)).

Definition nlog `{NumLib} (x : Q) : num :=
  if Qle_bool x 0 then NaN else Fin (Qred (np_log x)).

(* ================================================================== *)
(** * Python containers *)
(* ================================================================== *)

(** [x in l] for a list or set of strings. *)
Definition str_in (x : string) (l : list string) : bool :=
  existsb (String.eqb x) l.

(** [l.index(x)] *)
Fixpoint list_index (x : string) (l : list string) : option nat :=
  match l with
  | [] => None
  | y :: ys => if String.eqb y x then Some O
               else option_map S (list_index x ys)
  end.

(** [not l] *)
Definition is_empty {A} (l : list A) : bool :=
  match l with [] => true | _ :: _ => false end.

(** [l[:n]] with Python's reading of a negative bound. *)
Definition py_prefix {A} (n : Z) (l : list A) : list A :=
  if n <? 0 then firstn (length l - Z.to_nat (- n)) l
  else firstn (Z.to_nat n) l.

(** A [dict] keeps its keys in insertion order. *)
Definition dict (V : Type) : Type := list (string * V).

Fixpoint dict_get {V} (d : dict V) (k : string) : option V :=
  match d with
  | [] => None
  | (k', v) :: d' => if String.eqb k' k then Some v else dict_get d' k
  end.

(** [d[k] = v] *)
Fixpoint dict_set {V} (d : dict V) (k : string) (v : V) : dict V :=
  match d with
  | [] => [(k, v)]
  | (k', v') :: d' => if String.eqb k' k then (k', v) :: d'
                      else (k', v') :: dict_set d' k v
  end.

Definition dict_keys {V} (d : dict V) : list string := map fst d.

(** [if k not in d: d[k] = []] followed by [d[k].append(x)] *)
Definition dict_append {V} (d : dict (list V)) (k : string) (x : V)
  : dict (list V) :=
  match dict_get d k with
  | None => dict_set d k [x]
  | Some l => dict_set d k (l ++ [x])
  end.

(** Stable insertion; [before y x] says that [y] must stay in front of
    the element [x] that arrives from its left. *)
Fixpoint insert_by {A} (before : A -> A -> bool) (x : A) (l : list A)
  : list A :=
  match l with
  | [] => [x]
  | y :: ys => if before y x then y :: insert_by before x ys
               else x :: y :: ys
  end.

Definition sort_by {A} (before : A -> A -> bool) (l : list A) : list A :=
  fold_right (insert_by before) [] l.

(** [sorted(l, key=key, reverse=True)]: descending, equal keys keep
    their order. *)
Definition sorted_desc {A} (key : A -> num) (l : list A) : list A :=
  sort_by (fun y x => nltb (key x) (key y)) l.

(** The positions [0 .. n-1] in the order a list of positions names
    them: its entries below [n], each once, then the positions it does
    not name. *)
Definition index_order (n : nat) (named : list nat) : list nat :=
  let first := nodup Nat.eq_dec (filter (fun i => i <? n)%nat named) in
  first ++ filter (fun i => negb (existsb (Nat.eqb i) first)) (seq 0 n).

(** [np.argsort(v)]: the positions in ascending order of value.
    numpy's default sort is not stable, so the order of positions with
    equal values is the library's own: the positions are taken in the
    library's [argsort_tie_order] and sorted by value, keeping that
    order among equal values. *)
Definition argsort `{NumLib} (v : list num) : list nat :=
  sort_by (fun j i => nltb (nth j v NaN) (nth i v NaN))
          (index_order (length v) (argsort_tie_order v)).

(** Sorted list of the distinct strings of [l] (a pandas axis). *)
Fixpoint insert_uniq (x : string) (l : list string) : list string :=
  match l with
  | [] => [x]
  | y :: ys => if String.eqb x y then l
               else if String.ltb x y then x :: l
               else y :: insert_uniq x ys
  end.

Definition sort_uniq (l : list string) : list string :=
  fold_right insert_uniq [] l.

(* ================================================================== *)
(** * Data model *)
(* ================================================================== *)

(** An entry of [ratings_cache]. *)
Record Rating : Type := mkRating {
  userId : string;
  movieId : string;
  score : Q
}.

(** An entry of [movies_cache]. *)
Record Movie : Type := mkMovie {
  movie_id : string;          (* key ["id"] *)
  title : string;
  description : string;
  category : string;
  releaseDate : string
}.

(** An entry of a result: [{"movieId": ..., "score": ...}]. *)
Record RecommendationItem : Type := mkItem {
  item_movieId : string;
  item_score : num
}.

(** The pandas frame produced by [pivot_table(...).fillna(0)]. *)
Record DataFrame : Type := mkFrame {
  index : list string;        (* user ids *)
  columns : list string;      (* movie ids *)
  values : list (list Q)      (* one row per user *)
}.

(** The fields of [RecommendationEngine] that the recommenders read. *)
Record Engine : Type := mkEngine {
  user_item_matrix : option DataFrame;
  content_similarity_matrix : option (list (list num))
}.

(** [RecommendationEngine.__init__] *)
Definition new_engine : Engine := mkEngine None None.

(** State and exceptions: a method takes [self] and returns a value or a
    raised exception, together with the updated [self]. *)
Definition M (A : Type) : Type := Engine -> result A * Engine.

Definition ret {A} (a : A) : M A := fun self => (Ok a, self).

Definition bind {A B} (c : M A) (k : A -> M B) : M B :=
  fun self =>
    match c self with
    | (Ok a, self') => k a self'
    | (Raise e, self') => (Raise e, self')
    end.

Definition raise {A} (e : exn) : M A := fun self => (Raise e, self).

Definition get_self : M Engine := fun self => (Ok self, self).

Definition lift {A} (r : result A) : M A := fun self => (r, self).

(** A [for] loop whose body may raise: the first exception ends it. *)
Definition for_each {A B} (l : list B) (init : A)
    (body : A -> B -> result A) : result A :=
  fold_left (fun acc x => match acc with
                          | Ok a => body a x
                          | Raise e => Raise e
                          end)
            l (Ok init).

Declare Scope engine_scope.
Delimit Scope engine_scope with engine.
Notation "x <- c ;; k" := (bind c (fun x => k))
  (at level 61, c at next level, right associativity) : engine_scope.
Notation "c ;;; k" := (bind c (fun _ => k))
  (at level 61, right associativity) : engine_scope.

(* ================================================================== *)
(** * Cosine similarity (scikit-learn) *)
(* ================================================================== *)

Definition sum_sq (x : list Q) : Q :=
  fold_left Qplus (map (fun v => v * v)%Q x) 0%Q.

(** [row_norms]: the Euclidean norm of a row. *)
Definition row_norm `{NumLib} (x : list Q) : num := nsqrt (sum_sq x).

(** [_handle_zeros_in_scale]: a zero norm is replaced by 1 (recent
    releases also replace a norm below ten machine epsilons, a
    distinction that exact arithmetic does not have). *)
Definition handle_zeros_in_scale (n : num) : num :=
  match n with
  | Fin q => if Qeq_bool q 0 then Fin 1 else n
  | NaN => n
  end.

(** [normalize]: each row divided by its norm. *)
Definition normalize `{NumLib} (x : list Q) : list num :=
  let norm := handle_zeros_in_scale (row_norm x) in
  map (fun v => ndiv (Fin v) norm) x.

Definition dot (a b : list num) : num :=
  nsum (map (fun p => nmul (fst p) (snd p)) (combine a b)).

(** [cosine_similarity(X, Y)]: the products of the normalized rows. *)
Definition cosine_similarity `{NumLib} (X Y : list (list Q))
  : list (list num) :=
  map (fun x => map (fun y => dot (normalize x) (normalize y)) Y) X.

(* ================================================================== *)
(** * The recommendation engine *)
(* ================================================================== *)

Section RecommendationEngine.

Context `{NumLib}.

(** The module-level caches, read by every method. *)
Variable ratings_cache : list Rating.
Variable movies_cache : list Movie.

Local Open Scope engine_scope.

(** ** [build_user_item_matrix] *)

(** [.fillna(0)] *)
Definition fillna (x : num) : Q :=
  match x with Fin q => q | NaN => 0%Q end.

(** One cell of the pivot table: the mean of the scores the user gave
    the movie; no such rating leaves the cell empty, which [fillna]
    turns into 0. *)
Definition pivot_cell (rs : list Rating) (u m : string) : Q :=
  fillna (np_mean (map (fun r => Fin (score r))
    (filter (fun r => String.eqb (userId r) u && String.eqb (movieId r) m)
            rs))).

(** [df.pivot_table(index='user_id', columns='movie_id',
    values='rating').fillna(0)]: both axes sorted and without
    repetition. *)
Definition pivot_table (rs : list Rating) : DataFrame :=
  let idx := sort_uniq (map userId rs) in
  let cols := sort_uniq (map movieId rs) in
  mkFrame idx cols (map (fun u => map (pivot_cell rs u) cols) idx).

Definition build_user_item_matrix : M (option DataFrame) :=
  fun self =>
    match ratings_cache with
    | [] => (Ok None, self)
    | _ :: _ =>
        let m := pivot_table ratings_cache in
        (Ok (Some m), mkEngine (Some m) (content_similarity_matrix self))
    end.

(** ** [build_content_features] *)

Definition movie_text (movie : Movie) : string :=
  (title movie ++ " " ++ description movie ++ " " ++ category movie)%string.

Definition build_content_features : M (option (list (list num))) :=
  fun self =>
    match movies_cache with
    | [] => (Ok None, self)
    | _ :: _ =>
        match tfidf_fit_transform (map movie_text movies_cache) with
        | Raise e => (Raise e, self)
        | Ok tfidf_matrix =>
            let sim := cosine_similarity tfidf_matrix tfidf_matrix in
            (Ok (Some sim), mkEngine (user_item_matrix self) (Some sim))
        end
    end.

(** ** [collaborative_filtering_recommendations] *)

(** [frame.loc[label]]: the row of a user. *)
Definition loc (m : DataFrame) (label : string) : list Q :=
  match list_index label (index m) with
  | Some i => nth i (values m) []
  | None => []
  end.

(** [np.argsort(user_similarity)[::-1][1:11]] *)
Definition similar_users_idx (user_similarity : list num) : list nat :=
  firstn 10 (skipn 1 (rev (argsort user_similarity))).

(** The columns the target user has rated ([> 0]). *)
Definition rated_columns (m : DataFrame) (user_ratings : list Q)
  : list string :=
  map fst (filter (fun p => Qltb 0 (snd p)) (combine (columns m) user_ratings)).

(** The inner loop over one neighbour's row. *)
Definition cf_collect_user (m : DataFrame) (user_movies : list string)
    (user_similarity : list num)
    (recommendations : dict (list num)) (idx : nat) : dict (list num) :=
  let similar_user := nth idx (index m) "" in
  let similar_user_movies := loc m similar_user in
  fold_left
    (fun recs p =>
       let movie_id := fst p in
       let rating := snd p in
       if Qltb 0 rating && negb (str_in movie_id user_movies)
       then dict_append recs movie_id
              (nmul (Fin rating) (nth idx user_similarity NaN))
       else recs)
    (combine (columns m) similar_user_movies) recommendations.

(** [{movie_id: np.mean(scores)}] *)
Definition mean_scores (recommendations : dict (list num)) : dict num :=
  map (fun p => (fst p, np_mean (snd p))) recommendations.

(** Sort by score, keep the first [limit], build the result entries. *)
Definition top_items (limit : Z) (movie_scores : dict num)
  : list RecommendationItem :=
  map (fun p => mkItem (fst p) (snd p))
      (py_prefix limit (sorted_desc snd movie_scores)).

Definition cf_user_similarity (m : DataFrame) (user_id : string) : list num :=
  nth 0 (cosine_similarity [loc m user_id] (values m)) [].

Definition cf_neighbours (m : DataFrame) (user_id : string) : list string :=
  map (fun idx => nth idx (index m) "")
      (similar_users_idx (cf_user_similarity m user_id)).

Definition cf_recommendations (m : DataFrame) (user_id : string)
  : dict (list num) :=
  let user_ratings := loc m user_id in
  let user_similarity := cf_user_similarity m user_id in
  let user_movies := rated_columns m user_ratings in
  fold_left (cf_collect_user m user_movies user_similarity)
            (similar_users_idx user_similarity) [].

Definition collaborative_filtering_recommendations
    (user_id : string) (limit : Z) : M (list RecommendationItem) :=
  self <- get_self ;;
  matrix <- match user_item_matrix self with
            | None => build_user_item_matrix
            | Some m => ret (Some m)
            end ;;
  match matrix with
  | None => raise AttributeError      (* [None.index] *)
  | Some m =>
      if negb (str_in user_id (index m)) then ret []
      else ret (top_items limit (mean_scores (cf_recommendations m user_id)))
  end.

(** ** [content_based_recommendations] *)

Definition ratings_of (user_id : string) : list Rating :=
  filter (fun r => String.eqb (userId r) user_id) ratings_cache.

(** The loop over one similarity row: [movie_ids[i]] raises when the
    row is longer than the list of movies. *)
Definition content_collect_row (movie_ids rated : list string)
    (liked_movie : string) (similar_scores : list num)
    (recommendations : dict (list num)) : result (dict (list num)) :=
  for_each (combine (seq 0 (length similar_scores)) similar_scores)
    recommendations
    (fun recs p =>
       match nth_error movie_ids (fst p) with
       | None => Raise IndexError
       | Some movie_id =>
           if negb (String.eqb movie_id liked_movie)
              && negb (str_in movie_id rated)
           then Ok (dict_append recs movie_id (snd p))
           else Ok recs
       end).

(** The loop over the liked movies: [self.content_similarity_matrix[i]]
    raises when there is no matrix or the matrix is too small. *)
Definition content_collect (sim : option (list (list num)))
    (movie_ids rated liked_movies : list string)
  : result (dict (list num)) :=
  for_each liked_movies []
    (fun recs liked_movie =>
       if str_in liked_movie movie_ids then
         match list_index liked_movie movie_ids, sim with
         | None, _ => Raise ValueError
         | Some _, None => Raise TypeError
         | Some movie_idx, Some rows =>
             match nth_error rows movie_idx with
             | None => Raise IndexError
             | Some similar_scores =>
                 content_collect_row movie_ids rated liked_movie
                   similar_scores recs
             end
         end
       else Ok recs).

Definition content_based_recommendations
    (user_id : string) (limit : Z) : M (list RecommendationItem) :=
  self <- get_self ;;
  sim <- match content_similarity_matrix self with
         | None => build_content_features
         | Some s => ret (Some s)
         end ;;
  let user_ratings := ratings_of user_id in
  match user_ratings with
  | [] => ret []
  | _ :: _ =>
      let liked_movies :=
        map movieId (filter (fun r => Qle_bool 4 (score r)) user_ratings) in
      match liked_movies with
      | [] => ret []
      | _ :: _ =>
          let movie_ids := map movie_id movies_cache in
          recommendations <-
            lift (content_collect sim movie_ids (map movieId user_ratings)
                    liked_movies) ;;
          ret (top_items limit (mean_scores recommendations))
      end
  end.

(** ** [get_popular_movies_fallback] *)

(** [{movie_id: [score, ...]}] over all ratings. *)
Definition movie_popularity : dict (list num) :=
  fold_left (fun d r => dict_append d (movieId r) (Fin (score r)))
            ratings_cache [].

(** [avg_rating * np.log(rating_count + 1)] *)
Definition popularity_score (ratings : list num) : num :=
  nmul (np_mean ratings)
       (nlog (inject_Z (Z.of_nat (length ratings) + 1))).

Definition popular_movies : list RecommendationItem :=
  sorted_desc item_score
    (map (fun p => mkItem (fst p) (popularity_score (snd p)))
         movie_popularity).

Definition unrated_movies (rated_movie_ids : list string)
  : list RecommendationItem :=
  map (fun movie => mkItem (movie_id movie) DEFAULT_SCORE)
      (filter (fun movie => negb (str_in (movie_id movie) rated_movie_ids))
              movies_cache).

Definition get_popular_movies_fallback (limit : Z)
  : list RecommendationItem :=
  match movies_cache with
  | [] => []
  | _ :: _ =>
      let popular := popular_movies in
      let popular :=
        if Z.of_nat (length popular) <? limit
        then popular ++ unrated_movies (map item_movieId popular)
        else popular in
      py_prefix limit popular
  end.

(** ** [hybrid_recommendations] *)

(** [combined_dict[rec['movieId']] = rec['score'] * 0.7] *)
Definition add_cf (combined : dict num) (rec : RecommendationItem)
  : dict num :=
  dict_set combined (item_movieId rec) (nmul (item_score rec) CF_WEIGHT).

(** The content entry: a new key, or added to the key's value. *)
Definition add_content (combined : dict num) (rec : RecommendationItem)
  : dict num :=
  match dict_get combined (item_movieId rec) with
  | None =>
      dict_set combined (item_movieId rec)
        (nmul (item_score rec) CONTENT_WEIGHT)
  | Some v =>
      dict_set combined (item_movieId rec)
        (nadd v (nmul (item_score rec) CONTENT_WEIGHT))
  end.

Definition combined_dict (limit : Z)
    (cf_recs content_recs : list RecommendationItem) : dict num :=
  fold_left add_content content_recs
    (fold_left add_cf (py_prefix (limit / 2) cf_recs) []).

Definition user_rating_count (user_id : string) : nat :=
  length (ratings_of user_id).

(** The branch for a user with at least [MIN_RATINGS_FOR_CF] ratings. *)
Definition blended_branch (user_id : string) (limit : Z)
  : M (list RecommendationItem) :=
  cf_recs <- collaborative_filtering_recommendations user_id limit ;;
  content_recs <- content_based_recommendations user_id (limit / 2) ;;
  ret (top_items limit (combined_dict limit cf_recs content_recs)).

(** [if not recommendations: recommendations =
    self.get_popular_movies_fallback(limit)] *)
Definition or_popular (limit : Z) (recommendations : list RecommendationItem)
  : list RecommendationItem :=
  if is_empty recommendations then get_popular_movies_fallback limit
  else recommendations.

Definition hybrid_recommendations
    (user_id : string) (limit : Z) : M (list RecommendationItem) :=
  let n := user_rating_count user_id in
  recommendations <-
    (if (MIN_RATINGS_FOR_CF <=? n)%nat then blended_branch user_id limit
     else if (0 <? n)%nat then content_based_recommendations user_id limit
     else ret []) ;;
  ret (or_popular limit recommendations).

(** ** The dispatch of the [/recommend] endpoints *)

Definition recommend (type : string) (user_id : string) (limit : Z)
  : M (list RecommendationItem) :=
  if String.eqb type "collaborative" then
    collaborative_filtering_recommendations user_id limit
  else if String.eqb type "content" then
    content_based_recommendations user_id limit
  else hybrid_recommendations user_id limit.

(** ** What a method reads of the engine

    The matrix a recommender works with is the cached one or, without
    a cached one, the one it builds from the current caches. *)

Definition matrix_in_use (self : Engine) : option DataFrame :=
  match user_item_matrix self with
  | Some m => Some m
  | None =>
      match ratings_cache with
      | [] => None
      | _ :: _ => Some (pivot_table ratings_cache)
      end
  end.

Definition sim_in_use (self : Engine) : result (option (list (list num))) :=
  match content_similarity_matrix self with
  | Some s => Ok (Some s)
  | None =>
      match movies_cache with
      | [] => Ok None
      | _ :: _ =>
          match tfidf_fit_transform (map movie_text movies_cache) with
          | Raise e => Raise e
          | Ok tfidf_matrix =>
              Ok (Some (cosine_similarity tfidf_matrix tfidf_matrix))
          end
      end
  end.

(** The collaborative result for a given matrix. *)
Definition cf_result (matrix : option DataFrame) (user_id : string)
    (limit : Z) : result (list RecommendationItem) :=
  match matrix with
  | None => Raise AttributeError
  | Some m =>
      Ok (if negb (str_in user_id (index m)) then []
          else top_items limit (mean_scores (cf_recommendations m user_id)))
  end.

Definition liked_movies_of (user_id : string) : list string :=
  map movieId (filter (fun r => Qle_bool 4 (score r)) (ratings_of user_id)).

(** The content result for a given similarity matrix. *)
Definition content_result (sim : option (list (list num)))
    (user_id : string) (limit : Z) : result (list RecommendationItem) :=
  if is_empty (ratings_of user_id) then Ok []
  else if is_empty (liked_movies_of user_id) then Ok []
  else
    match content_collect sim (map movie_id movies_cache)
            (map movieId (ratings_of user_id)) (liked_movies_of user_id) with
    | Raise e => Raise e
    | Ok recommendations =>
        Ok (top_items limit (mean_scores recommendations))
    end.

(** The list the fallback truncates: the rated movies by score, then,
    when these are fewer than [limit], the unrated ones. *)
Definition popular_filled (limit : Z) : list RecommendationItem :=
  let popular := popular_movies in
  if Z.of_nat (length popular) <? limit
  then popular ++ unrated_movies (map item_movieId popular)
  else popular.

End RecommendationEngine.

(* ================================================================== *)
(** * A computable numeric library, for running the engine *)
(* ================================================================== *)

Module Approx.

(** Square root to 12 decimal places (rounded down). *)
Definition sqrt (x : Q) : Q :=
  Z.sqrt (Qfloor (x * inject_Z (10 ^ 24))%Q) # (10 ^ 12).

Definition LN2 : Q := 693147180559945 # 1000000000000000.

(** Scale [x] into [1, 2), counting the powers of 2 taken out. *)
Fixpoint scale (fuel : nat) (x : Q) (k : Z) : Q * Z :=
  match fuel with
  | O => (x, k)
  | S fuel' =>
      if Qle_bool 2 x then scale fuel' (Qred (x / 2)%Q) (k + 1)
      else if Qltb x 1 then scale fuel' (Qred (x * 2)%Q) (k - 1)
      else (x, k)
  end.

(** [z + z^3/3 + ... ] up to the given odd power. *)
Fixpoint atanh_series (terms : nat) (z zpow : Q) (n : positive) : Q :=
  match terms with
  | O => 0%Q
  | S terms' =>
      Qred (zpow / inject_Z (Zpos n)
            + atanh_series terms' z (Qred (zpow * z * z)%Q) (n + 2))%Q
  end.

(** Natural logarithm of a positive rational, to about 12 decimal
    places: [ln x = k ln 2 + 2 atanh ((m - 1) / (m + 1))] for
    [x = m 2^k]. *)
Definition log (x : Q) : Q :=
  let '(m, k) := scale 200 (Qred x) 0 in
  let z := Qred ((m - 1) / (m + 1))%Q in
  let v := (inject_Z k * LN2 + 2 * atanh_series 14 z z 1)%Q in
  Qfloor (v * inject_Z (10 ^ 12))%Q # (10 ^ 12).

Definition blank (doc : string) : bool :=
  forallb (Ascii.eqb " ") (list_ascii_of_string doc).

(** A stand-in for the vectorizer that gives every distinct non-blank
    document one feature of its own: documents with the same text get
    the same vector, documents with different texts get orthogonal
    vectors, a blank document gets the zero vector, and a corpus of
    blank documents has an empty vocabulary, on which the vectorizer
    raises. *)
Definition tfidf (docs : list string) : result (list (list Q)) :=
  let vocabulary := sort_uniq (filter (fun d => negb (blank d)) docs) in
  match vocabulary with
  | [] => Raise ValueError
  | _ :: _ =>
      Ok (map (fun d => map (fun w => if String.eqb d w then 1%Q else 0%Q)
                          vocabulary) docs)
  end.

#[global] Instance lib : NumLib := {
  np_sqrt := sqrt;
  np_log := log;
  tfidf_fit_transform := tfidf;
  argsort_tie_order := fun v => seq 0 (length v)
}.

End Approx.

(* ================================================================== *)
(** * Sample snapshots *)
(* ================================================================== *)

Module Sample.

Definition movie (id name : string) : Movie := mkMovie id name "" "" "".

(** Seven movies with one-word titles. *)
Definition seven_movies : list Movie :=
  [movie "m1" "Alien"; movie "m2" "Brazil"; movie "m3" "Casablanca";
   movie "m4" "Dune"; movie "m5" "Eraserhead"; movie "m6" "Fargo";
   movie "m7" "Gattaca"].

(** [u1] has rated five movies, none of them above 3; [u2] shares one
    of them and has rated two more. *)
Definition lukewarm_ratings : list Rating :=
  [mkRating "u1" "m1" 3; mkRating "u1" "m2" 3; mkRating "u1" "m3" 3;
   mkRating "u1" "m4" 3; mkRating "u1" "m5" 3;
   mkRating "u2" "m1" 5; mkRating "u2" "m6" 5; mkRating "u2" "m7" 4].

(** The same with [u1] liking what it has rated. *)
Definition keen_ratings : list Rating :=
  [mkRating "u1" "m1" 5; mkRating "u1" "m2" 5; mkRating "u1" "m3" 5;
   mkRating "u1" "m4" 5; mkRating "u1" "m5" 5;
   mkRating "u2" "m1" 5; mkRating "u2" "m6" 5; mkRating "u2" "m7" 4].

(** Two users with the same single rating. *)
Definition twin_ratings : list Rating :=
  [mkRating "u1" "m1" 5; mkRating "u2" "m1" 5].

(** One poor rating, and a second movie nobody has rated. *)
Definition one_poor_rating : list Rating := [mkRating "u1" "m1" 1].
Definition two_movies : list Movie := [movie "m1" "Alien"; movie "m2" "Brazil"].

(** A catalogue that lists the same id twice. *)
Definition repeated_movies : list Movie :=
  [movie "m1" "Alien"; movie "m1" "Alien"].

(** A user with two liked movies out of three. *)
Definition few_ratings : list Rating :=
  [mkRating "u3" "m1" 5; mkRating "u3" "m2" 4].

End Sample.

(* ================================================================== *)
(** * Predicates of the properties *)
(* ================================================================== *)

(** [a >= b] on finite scores. *)
Definition ngeb (a b : num) : bool :=
  match a, b with
  | Fin x, Fin y => Qle_bool y x
  | _, _ => false
  end.

(** Every entry is at least the next one. *)
Fixpoint non_increasingb (l : list num) : bool :=
  match l with
  | a :: t => match t with
              | b :: _ => ngeb a b && non_increasingb t
              | [] => true
              end
  | [] => true
  end.

Definition non_increasing (l : list num) : Prop := non_increasingb l = true.

(** Order and finiteness of the sort key of list entries. *)
Definition key_ge {A} (key : A -> num) (p q : A) : Prop :=
  ngeb (key p) (key q) = true.

Definition finite_key {A} (key : A -> num) (p : A) : Prop :=
  is_finite (key p) = true.

Definition scores (r : list RecommendationItem) : list num :=
  map item_score r.

Definition item_ids (r : list RecommendationItem) : list string :=
  map item_movieId r.

Definition finite_value (v : num) : Prop := is_finite v = true.

Definition all_finite (l : list num) : Prop :=
  Forall (fun x => is_finite x = true) l.

(** The lists a dictionary of contributions holds are never empty, and
    hold finite numbers when only finite numbers are appended. *)
Definition good_list (v : list num) : Prop := v <> [] /\ all_finite v.

Definition good_lists (d : dict (list num)) : Prop :=
  Forall (fun p => good_list (snd p)) d.

(** The cached similarity matrix, when there is one, holds finite
    numbers (as every matrix [build_content_features] stores does). *)
Definition sim_finite (self : Engine) : Prop :=
  match content_similarity_matrix self with
  | None => True
  | Some rows => Forall all_finite rows
  end.

(** The entry of a result for a movie, if any. *)
Definition item_lookup (r : list RecommendationItem) (movie : string)
  : option num :=
  option_map item_score
    (find (fun it => String.eqb (item_movieId it) movie) r).

(** The combined score the blend gives a movie, from its collaborative
    and its content score. *)
Definition blend (cf content : option num) : option num :=
  match cf, content with
  | Some a, Some b => Some (nadd (nmul a CF_WEIGHT) (nmul b CONTENT_WEIGHT))
  | Some a, None => Some (nmul a CF_WEIGHT)
  | None, Some b => Some (nmul b CONTENT_WEIGHT)
  | None, None => None
  end.

(** The combined map as the specification words it: every entry of the
    collaborative result contributes. *)
Definition spec_combined_dict
    (cf_recs content_recs : list RecommendationItem) : dict num :=
  fold_left add_content content_recs (fold_left add_cf cf_recs []).

(* ================================================================== *)
(** * The service around the engine *)
(* ================================================================== *)

(** ** [load_data]: the test of the cache age *)

Definition CACHE_DURATION : Z := 300.   (* seconds *)

(** [timedelta.seconds] of a difference of two [datetime]s, given in
    microseconds: a [timedelta] is kept as days, seconds and
    microseconds with [0 <= seconds < 86400], and [.seconds] is that
    middle field alone. *)
Definition timedelta_seconds (delta_us : Z) : Z :=
  (delta_us / 1000000) mod 86400.

(** [last_cache_update and
    (datetime.now() - last_cache_update).seconds < CACHE_DURATION]:
    when it holds, [load_data] returns without fetching. *)
Definition cache_is_valid (last_cache_update : option Z) (now : Z) : bool :=
  match last_cache_update with
  | None => false
  | Some t => timedelta_seconds (now - t) <? CACHE_DURATION
  end.

(** ** [get_stats] *)

(** [rating_dist.get(score, 0)] on a dictionary keyed by numbers. *)
Fixpoint dist_get (d : list (Q * nat)) (k : Q) : nat :=
  match d with
  | [] => O
  | (k', c) :: d' => if Qeq_bool k' k then c else dist_get d' k
  end.

(** [rating_dist[score] = c] *)
Fixpoint dist_set (d : list (Q * nat)) (k : Q) (c : nat) : list (Q * nat) :=
  match d with
  | [] => [(k, c)]
  | (k', c') :: d' => if Qeq_bool k' k then (k', c) :: d'
                      else (k', c') :: dist_set d' k c
  end.

(** The loop [rating_dist[score] = rating_dist.get(score, 0) + 1]. *)
Definition rating_distribution (ratings_cache : list Rating)
  : list (Q * nat) :=
  fold_left (fun d r => dist_set d (score r) (S (dist_get d (score r))))
            ratings_cache [].

Record Stats : Type := mkStats {
  total_ratings : nat;
  total_movies : nat;
  unique_users : nat;
  rating_dist : list (Q * nat);
  average_rating : num
}.

Definition get_stats (ratings_cache : list Rating)
    (movies_cache : list Movie) : Stats :=
  mkStats
    (length ratings_cache)
    (length movies_cache)
    (length (nodup string_dec (map userId ratings_cache)))
    (rating_distribution ratings_cache)
    (if is_empty ratings_cache then Fin 0
     else np_mean (map (fun r => Fin (score r)) ratings_cache)).

(** ** The [/recommend] endpoints *)

(** What an endpoint answers: the body, the status 422 of a query
    parameter that fails validation, or the status 500 that the handler
    of [except Exception] raises. *)
Inductive http_response (A : Type) : Type :=
| HTTP_200 (body : A)
| HTTP_422
| HTTP_500.
Arguments HTTP_200 {A} body.
Arguments HTTP_422 {A}.
Arguments HTTP_500 {A}.

(** [limit: int = Query(10, ge=1, le=50)] *)
Definition limit_in_range (limit : Z) : bool :=
  (1 <=? limit) && (limit <=? 50).

(** The body of the GET answer (without the timestamp). *)
Record RecommendationBody : Type := mkBody {
  body_recommendations : list RecommendationItem;
  body_userId : string;
  body_algorithm : string
}.

(** The fields of the pydantic model [RecommendationResponse], each
    with whether it has no default and so is required. *)
Definition RecommendationResponse_fields : list (string * bool) :=
  [("recommendations", true); ("userId", true);
   ("algorithm", false); ("generatedAt", true)].

(** Construction of a pydantic model from keyword arguments succeeds
    when every required field is among them (other keywords are
    ignored); otherwise it raises a validation error. *)
Definition model_accepts (fields : list (string * bool))
    (keywords : list string) : bool :=
  forallb (fun f => negb (snd f) || str_in (fst f) keywords) fields.

Section Endpoints.

Context `{NumLib}.
Variable ratings_cache : list Rating.
Variable movies_cache : list Movie.

(** [get_recommendations], on the caches [load_data] has left.  The
    query parameter [limit] is validated before the body runs: outside
    [1 .. 50] the answer is status 422 and the engine is not used. *)
Definition get_recommendations (userId : string) (limit : Z)
    (type : string) (self : Engine)
  : http_response RecommendationBody * Engine :=
  if limit_in_range limit then
    match recommend ratings_cache movies_cache type userId limit self with
    | (Ok recommendations, self') =>
        (HTTP_200 (mkBody recommendations userId type), self')
    | (Raise _, self') => (HTTP_500, self')
    end
  else (HTTP_422, self).

(** [post_recommendations]: the limit is a field of the request model,
    with no range; the answer is built by
    [RecommendationResponse(user_id=..., recommended_movies=...,
    recommendation_type=..., timestamp=...)] inside the [try]. *)
Definition post_recommendations (user_id : string) (limit : Z)
    (recommendation_type : string) (self : Engine)
  : http_response RecommendationBody * Engine :=
  match recommend ratings_cache movies_cache recommendation_type user_id
          limit self with
  | (Ok recommendations, self') =>
      if model_accepts RecommendationResponse_fields
           ["user_id"; "recommended_movies"; "recommendation_type";
            "timestamp"]
      then (HTTP_200 (mkBody recommendations user_id recommendation_type),
            self')
      else (HTTP_500, self')
  | (Raise _, self') => (HTTP_500, self')
  end.

End Endpoints.

(** ** Further predicates *)

(** Strictly ascending strings: sorted and without repetition. *)
Definition strictly_ascending (l : list string) : Prop :=
  StronglySorted (fun a b => String.ltb a b = true) l.

(** The scores the user gave the movie. *)
Definition scores_for (rs : list Rating) (u m : string) : list Q :=
  map score
    (filter (fun r => String.eqb (userId r) u && String.eqb (movieId r) m)
            rs).

(** What the collaborative recommender asks of a movie it proposes: it
    is a column that the target has not rated and that one of the
    neighbours has rated. *)
Definition cf_candidate `{NumLib} (m : DataFrame) (user_id : string)
    (k : string) : Prop :=
  In k (columns m)
  /\ ~ In k (rated_columns m (loc m user_id))
  /\ exists idx rating,
       In idx (similar_users_idx (cf_user_similarity m user_id))
       /\ In (k, rating) (combine (columns m) (loc m (nth idx (index m) "")))
       /\ (0 < rating)%Q.

(** The list a method returned, the empty list if it raised. *)
Definition returned {A} (run : result (list A) * Engine) : list A :=
  match fst run with
  | Ok l => l
  | Raise _ => []
  end.

(** What the content recommender asks of a movie it proposes. *)
Definition content_candidate (movie_ids rated : list string) (k : string)
  : Prop :=
  In k movie_ids /\ ~ In k rated.

(** The number of ratings a distribution counts. *)
Definition dist_total (d : list (Q * nat)) : nat :=
  fold_right (fun p acc => (snd p + acc)%nat) O d.

(** The entry of a matrix of similarities. *)
Definition sim_entry (K : list (list num)) (i j : nat) : num :=
  nth j (nth i K []) NaN.

(* ================================================================== *)
(** * Lists, slices and dictionaries *)
(* ================================================================== *)

Lemma py_prefix_firstn {A} (n : Z) (l : list A) :
  exists k, py_prefix n l = firstn k l.
Proof.
  unfold py_prefix. destruct (n <? 0); eauto.
Qed.

Lemma py_prefix_length {A} (n : Z) (l : list A) :
  0 <= n -> Z.of_nat (length (py_prefix n l)) <= n.
Proof.
  intros Hn. unfold py_prefix.
  destruct (Z.ltb_spec n 0) as [Hlt | _]; [lia |].
  rewrite length_firstn. lia.
Qed.

Lemma py_prefix_zero {A} (l : list A) : py_prefix 0 l = [].
Proof. reflexivity. Qed.

Lemma py_prefix_nil {A} (n : Z) : py_prefix n (@nil A) = [].
Proof.
  unfold py_prefix. destruct (n <? 0); apply firstn_nil.
Qed.

Lemma py_prefix_nonempty {A} (n : Z) (l : list A) :
  1 <= n -> l <> [] -> py_prefix n l <> [].
Proof.
  intros Hn Hl. unfold py_prefix.
  destruct (Z.ltb_spec n 0) as [Hlt | _]; [lia |].
  destruct l as [| a l]; [congruence |].
  destruct (Z.to_nat n) eqn:E; [lia | discriminate].
Qed.

Lemma NoDup_firstn {A} (k : nat) (l : list A) : NoDup l -> NoDup (firstn k l).
Proof.
  revert l. induction k as [| k IH]; intros [| a l] Hnd; simpl;
    try constructor.
  - inversion Hnd as [| ? ? Hnotin Hrest]; subst.
    intro Hin. apply Hnotin. revert Hin. clear.
    revert l. induction k as [| k IH]; intros [| b l]; simpl; try tauto.
    intros [-> | Hin]; [now left | right; now apply IH].
  - inversion Hnd; subst. now apply IH.
Qed.

Lemma NoDup_py_prefix_map {A B} (f : A -> B) (n : Z) (l : list A) :
  NoDup (map f l) -> NoDup (map f (py_prefix n l)).
Proof.
  intros Hnd. destruct (py_prefix_firstn n l) as [k ->].
  rewrite <- firstn_map. now apply NoDup_firstn.
Qed.

Lemma str_in_true (x : string) (l : list string) :
  str_in x l = true <-> In x l.
Proof.
  unfold str_in. rewrite existsb_exists. split.
  - intros [y [Hin Heq]]. apply String.eqb_eq in Heq. now subst.
  - intros Hin. exists x. split; [assumption | apply String.eqb_refl].
Qed.

Lemma str_in_false (x : string) (l : list string) :
  str_in x l = false <-> ~ In x l.
Proof.
  rewrite <- str_in_true. destruct (str_in x l); split; congruence.
Qed.

(** ** Dictionaries *)

Lemma dict_get_none {V} (d : dict V) (k : string) :
  dict_get d k = None <-> ~ In k (dict_keys d).
Proof.
  induction d as [| [k' v] d IH]; simpl; [tauto |].
  destruct (String.eqb_spec k' k) as [-> | Hne].
  - split; [discriminate | intros Hn; exfalso; apply Hn; now left].
  - rewrite IH. tauto.
Qed.

Lemma dict_set_keys_present {V} (d : dict V) (k : string) (v : V) :
  In k (dict_keys d) -> dict_keys (dict_set d k v) = dict_keys d.
Proof.
  induction d as [| [k' v'] d IH]; simpl; [tauto |].
  intros Hin. destruct (String.eqb_spec k' k) as [-> | Hne]; simpl.
  - reflexivity.
  - f_equal. apply IH. destruct Hin; [congruence | assumption].
Qed.

Lemma dict_set_keys_absent {V} (d : dict V) (k : string) (v : V) :
  ~ In k (dict_keys d) -> dict_keys (dict_set d k v) = dict_keys d ++ [k].
Proof.
  induction d as [| [k' v'] d IH]; simpl; [reflexivity |].
  intros Hn. destruct (String.eqb_spec k' k) as [-> | Hne]; simpl.
  - exfalso. apply Hn. now left.
  - f_equal. apply IH. tauto.
Qed.

Lemma NoDup_snoc {A} (l : list A) (a : A) :
  NoDup l -> ~ In a l -> NoDup (l ++ [a]).
Proof.
  intros Hnd Hn. induction Hnd as [| b l Hb Hnd IH]; simpl.
  - constructor; [tauto | constructor].
  - constructor.
    + rewrite in_app_iff. simpl. intros [Hin | [-> | []]]; [tauto |].
      apply Hn. now left.
    + apply IH. intro Hin. apply Hn. now right.
Qed.

Lemma dict_set_NoDup {V} (d : dict V) (k : string) (v : V) :
  NoDup (dict_keys d) -> NoDup (dict_keys (dict_set d k v)).
Proof.
  intros Hnd. destruct (in_dec string_dec k (dict_keys d)) as [Hin | Hn].
  - now rewrite dict_set_keys_present.
  - rewrite dict_set_keys_absent by assumption. now apply NoDup_snoc.
Qed.

Lemma dict_append_NoDup {V} (d : dict (list V)) (k : string) (x : V) :
  NoDup (dict_keys d) -> NoDup (dict_keys (dict_append d k x)).
Proof.
  unfold dict_append. destruct (dict_get d k); apply dict_set_NoDup.
Qed.

Lemma dict_get_set_same {V} (d : dict V) (k : string) (v : V) :
  dict_get (dict_set d k v) k = Some v.
Proof.
  induction d as [| [k' v'] d IH]; simpl.
  - now rewrite String.eqb_refl.
  - destruct (String.eqb_spec k' k) as [-> | Hne]; simpl.
    + now rewrite String.eqb_refl.
    + destruct (String.eqb_spec k' k); [congruence | exact IH].
Qed.

Lemma dict_get_set_other {V} (d : dict V) (k k0 : string) (v : V) :
  k <> k0 -> dict_get (dict_set d k v) k0 = dict_get d k0.
Proof.
  intros Hne. induction d as [| [k' v'] d IH]; simpl.
  - destruct (String.eqb_spec k k0); [congruence | reflexivity].
  - destruct (String.eqb_spec k' k) as [-> | Hne']; simpl.
    + destruct (String.eqb_spec k k0); [congruence | reflexivity].
    + destruct (String.eqb_spec k' k0); [reflexivity | exact IH].
Qed.

(** What is stored under each key after a change of one key. *)
Lemma dict_set_values {V} (P : V -> Prop) (d : dict V) (k : string) (v : V) :
  Forall (fun p => P (snd p)) d -> P v ->
  Forall (fun p => P (snd p)) (dict_set d k v).
Proof.
  intros Hd Hv. induction Hd as [| [k' v'] d Hp Hd IH]; simpl.
  - constructor; [exact Hv | constructor].
  - destruct (String.eqb k' k); constructor; simpl; auto.
Qed.

Lemma dict_get_values {V} (P : V -> Prop) (d : dict V) (k : string) (v : V) :
  Forall (fun p => P (snd p)) d -> dict_get d k = Some v -> P v.
Proof.
  intros Hd. induction Hd as [| [k' v'] d Hp Hd IH]; simpl; [discriminate |].
  destruct (String.eqb k' k); [| exact IH].
  intros [= <-]. exact Hp.
Qed.

(* ================================================================== *)
(** * Sorting *)
(* ================================================================== *)

Lemma insert_by_perm {A} (before : A -> A -> bool) (x : A) (l : list A) :
  Permutation (insert_by before x l) (x :: l).
Proof.
  induction l as [| y ys IH]; simpl; [reflexivity |].
  destruct (before y x); [| reflexivity].
  rewrite IH. apply perm_swap.
Qed.

Lemma sort_by_perm {A} (before : A -> A -> bool) (l : list A) :
  Permutation (sort_by before l) l.
Proof.
  induction l as [| x l IH]; simpl; [reflexivity |].
  rewrite insert_by_perm. now constructor.
Qed.

Lemma sort_by_nil {A} (before : A -> A -> bool) (l : list A) :
  sort_by before l = [] -> l = [].
Proof.
  intros E. apply Permutation_nil. rewrite <- E. apply sort_by_perm.
Qed.

Lemma sort_by_NoDup_map {A B} (f : A -> B) (before : A -> A -> bool)
    (l : list A) :
  NoDup (map f l) -> NoDup (map f (sort_by before l)).
Proof.
  apply Permutation_NoDup. apply Permutation_map. symmetry.
  apply sort_by_perm.
Qed.

Lemma sort_by_Forall {A} (P : A -> Prop) (before : A -> A -> bool)
    (l : list A) :
  Forall P l -> Forall P (sort_by before l).
Proof.
  apply Permutation_Forall. symmetry. apply sort_by_perm.
Qed.

Lemma ngeb_of_not_lt (a b : num) :
  is_finite a = true -> is_finite b = true ->
  nltb a b = false -> ngeb a b = true.
Proof.
  destruct a as [x |], b as [y |]; simpl; try discriminate.
  intros _ _ E. now apply negb_false_iff in E.
Qed.

Lemma ngeb_of_lt (a b : num) : nltb a b = true -> ngeb b a = true.
Proof.
  destruct a as [x |], b as [y |]; simpl; try discriminate.
  intros E. apply negb_true_iff in E. apply Qle_bool_iff.
  apply Qlt_le_weak. apply Qnot_le_lt. intro Hle.
  apply Qle_bool_iff in Hle. congruence.
Qed.

Lemma ngeb_trans (a b c : num) :
  ngeb a b = true -> ngeb b c = true -> ngeb a c = true.
Proof.
  destruct a as [x |], b as [y |], c as [z |]; simpl; try discriminate.
  rewrite !Qle_bool_iff. intros Hyx Hzy. now apply Qle_trans with y.
Qed.

Section SortedDesc.

Context {A : Type} (key : A -> num).

Lemma insert_desc_sorted (x : A) (l : list A) :
  finite_key key x -> Forall (finite_key key) l ->
  StronglySorted (key_ge key) l ->
  StronglySorted (key_ge key) (insert_by (fun y x => nltb (key x) (key y)) x l).
Proof.
  intros Hx Hl Hs. induction Hs as [| y ys Hs IH Hy]; simpl.
  - constructor; constructor.
  - inversion Hl as [| ? ? Hfy Hfys]; subst.
    destruct (nltb (key x) (key y)) eqn:E.
    + constructor; [now apply IH |].
      eapply Permutation_Forall; [symmetry; apply insert_by_perm |].
      constructor; [| exact Hy]. now apply ngeb_of_lt.
    + assert (Rxy : key_ge key x y) by now apply ngeb_of_not_lt.
      constructor; [now constructor |].
      constructor; [exact Rxy |].
      eapply Forall_impl; [| exact Hy].
      intros z Rz. now apply ngeb_trans with (key y).
Qed.

Lemma sorted_desc_sorted (l : list A) :
  Forall (finite_key key) l -> StronglySorted (key_ge key) (sorted_desc key l).
Proof.
  unfold sorted_desc. induction 1 as [| x l Hx Hl IH]; simpl.
  - constructor.
  - apply insert_desc_sorted; [exact Hx | | exact IH].
    now apply sort_by_Forall.
Qed.

Lemma StronglySorted_firstn (k : nat) (l : list A) :
  StronglySorted (key_ge key) l -> StronglySorted (key_ge key) (firstn k l).
Proof.
  revert l. induction k as [| k IH]; intros l Hs; simpl; [constructor |].
  destruct Hs as [| y ys Hs Hy]; [constructor |].
  constructor; [now apply IH |].
  rewrite Forall_forall in *. intros z Hz. apply Hy.
  rewrite <- (firstn_skipn k ys). apply in_or_app. now left.
Qed.

Lemma StronglySorted_non_increasing (l : list A) :
  StronglySorted (key_ge key) l -> non_increasing (map key l).
Proof.
  unfold non_increasing. induction 1 as [| y ys Hs IH Hy]; simpl;
    [reflexivity |].
  destruct ys as [| z zs]; simpl; [reflexivity |].
  inversion Hy as [| ? ? Ryz _]; subst. unfold key_ge in Ryz.
  rewrite Ryz. exact IH.
Qed.

(** [sorted(..., reverse=True)[:limit]] is non-increasing in the key. *)
Lemma sorted_desc_prefix_non_increasing (limit : Z) (l : list A) :
  Forall (finite_key key) l ->
  non_increasing (map key (py_prefix limit (sorted_desc key l))).
Proof.
  intros Hl. destruct (py_prefix_firstn limit (sorted_desc key l)) as [k ->].
  apply StronglySorted_non_increasing, StronglySorted_firstn.
  now apply sorted_desc_sorted.
Qed.

End SortedDesc.

(* ================================================================== *)
(** * Finite numbers *)
(* ================================================================== *)

Lemma nadd_finite (a b : num) :
  is_finite a = true -> is_finite b = true -> is_finite (nadd a b) = true.
Proof. destruct a, b; simpl; congruence. Qed.

Lemma nmul_finite (a b : num) :
  is_finite a = true -> is_finite b = true -> is_finite (nmul a b) = true.
Proof. destruct a, b; simpl; congruence. Qed.

Lemma fold_nadd_finite (l : list num) (a : num) :
  is_finite a = true -> all_finite l ->
  is_finite (fold_left nadd l a) = true.
Proof.
  intros Ha Hl. revert a Ha.
  induction Hl as [| x l Hx Hl IH]; intros a Ha; simpl; [exact Ha |].
  apply IH. now apply nadd_finite.
Qed.

Lemma nsum_finite (l : list num) : all_finite l -> is_finite (nsum l) = true.
Proof. intros Hl. now apply fold_nadd_finite. Qed.

Lemma of_nat_succ_nonzero (n : nat) :
  Qeq_bool (inject_Z (Z.of_nat (S n))) 0 = false.
Proof.
  destruct (Qeq_bool _ _) eqn:E; [| reflexivity].
  apply Qeq_bool_iff in E. unfold Qeq in E. simpl in E. lia.
Qed.

(** The mean of a non-empty list of finite numbers is finite: the
    divisor is the length. *)
Lemma np_mean_finite (l : list num) :
  l <> [] -> all_finite l -> is_finite (np_mean l) = true.
Proof.
  intros Hne Hl. unfold np_mean.
  pose proof (nsum_finite l Hl) as Hs.
  destruct (nsum l) as [q |]; [| discriminate].
  destruct l as [| x l]; [congruence |].
  unfold of_nat, ndiv. cbn [length].
  now rewrite of_nat_succ_nonzero.
Qed.

Lemma fold_sq_ge (x : list Q) (a : Q) :
  (a <= fold_left Qplus (map (fun v => v * v) x) a)%Q.
Proof.
  revert a. induction x as [| v x IH]; intros a; simpl.
  - apply Qle_refl.
  - eapply Qle_trans; [| apply IH]. nra.
Qed.

Lemma sum_sq_nonneg (x : list Q) : (0 <= sum_sq x)%Q.
Proof. apply fold_sq_ge. Qed.

Lemma fold_sq_zero (x : list Q) (a : Q) :
  (0 <= a)%Q -> (fold_left Qplus (map (fun v => v * v) x) a == 0)%Q ->
  (a == 0)%Q /\ Forall (fun v => v == 0)%Q x.
Proof.
  revert a. induction x as [| v x IH]; intros a Ha E; simpl in *.
  - split; [exact E | constructor].
  - destruct (IH (a + v * v)%Q) as [E' Hx]; [nra | exact E |].
    assert (Hv : (v * v == 0)%Q) by nra.
    split; [nra |]. constructor; [| exact Hx].
    destruct (Qmult_integral _ _ Hv); assumption.
Qed.

(** A row of zero norm is the zero row. *)
Lemma sum_sq_zero (x : list Q) :
  (sum_sq x == 0)%Q -> Forall (fun v => v == 0)%Q x.
Proof.
  intros E. apply (fold_sq_zero x 0%Q); [apply Qle_refl | exact E].
Qed.

Section Cosine.

Context `{NumLib}.

Lemma row_norm_finite (x : list Q) : exists q, row_norm x = Fin q.
Proof.
  unfold row_norm, nsqrt, Qltb.
  assert (E : Qle_bool 0 (sum_sq x) = true)
    by (apply Qle_bool_iff, sum_sq_nonneg).
  rewrite E. simpl. eauto.
Qed.

(** The divisor of [normalize] is finite and never zero. *)
Lemma normalize_divisor (x : list Q) :
  exists q, handle_zeros_in_scale (row_norm x) = Fin q
            /\ Qeq_bool q 0 = false.
Proof.
  destruct (row_norm_finite x) as [q ->]. simpl.
  destruct (Qeq_bool q 0) eqn:E; eauto.
Qed.

Lemma normalize_finite (x : list Q) : all_finite (normalize x).
Proof.
  unfold normalize. destruct (normalize_divisor x) as [q [-> Hq]].
  apply Forall_forall. intros y Hy. apply in_map_iff in Hy.
  destruct Hy as [v [<- _]]. simpl. now rewrite Hq.
Qed.

Lemma normalize_length (x : list Q) : length (normalize x) = length x.
Proof. unfold normalize. apply length_map. Qed.

Lemma dot_finite (a b : list num) :
  all_finite a -> all_finite b -> is_finite (dot a b) = true.
Proof.
  intros Ha Hb. apply nsum_finite. apply Forall_forall.
  intros z Hz. apply in_map_iff in Hz. destruct Hz as [[u v] [<- Hin]].
  unfold all_finite in *. rewrite Forall_forall in Ha, Hb.
  apply nmul_finite; simpl.
  - apply Ha. eapply in_combine_l; eauto.
  - apply Hb. eapply in_combine_r; eauto.
Qed.

Lemma cosine_similarity_finite (X Y : list (list Q)) :
  Forall all_finite (cosine_similarity X Y).
Proof.
  apply Forall_forall. intros row Hrow. apply in_map_iff in Hrow.
  destruct Hrow as [x [<- _]]. apply Forall_forall. intros s Hs.
  apply in_map_iff in Hs. destruct Hs as [y [<- _]].
  apply dot_finite; apply normalize_finite.
Qed.

Lemma cosine_similarity_entry (X Y : list (list Q)) (i j : nat)
    (x y : list Q) :
  nth_error X i = Some x -> nth_error Y j = Some y ->
  nth j (nth i (cosine_similarity X Y) []) NaN
  = dot (normalize x) (normalize y).
Proof.
  intros Hx Hy. unfold cosine_similarity.
  rewrite (nth_error_nth _ _ _
             (map_nth_error _ _ _ Hx)).
  now rewrite (nth_error_nth _ _ _ (map_nth_error _ _ _ Hy)).
Qed.

(** The normalized zero row is the zero row: nothing is divided by
    its zero norm. *)
Lemma normalize_zero (x : list Q) :
  (sum_sq x == 0)%Q -> normalize x = map (fun _ => Fin 0) x.
Proof.
  intros E. pose proof (sum_sq_zero x E) as Hz.
  unfold normalize. destruct (normalize_divisor x) as [q [-> Hq]].
  apply map_ext_in. intros v Hv.
  rewrite Forall_forall in Hz. specialize (Hz v Hv).
  unfold ndiv. rewrite Hq. apply f_equal.
  transitivity (Qred 0); [apply Qred_complete | reflexivity].
  rewrite Hz. unfold Qdiv. apply Qmult_0_l.
Qed.

Lemma fold_nadd_zero (l : list num) :
  Forall (fun z => z = Fin 0) l -> fold_left nadd l (Fin 0) = Fin 0.
Proof.
  induction 1 as [| z l -> Hl IH]; simpl; [reflexivity | exact IH].
Qed.

Lemma dot_zero_l (x : list Q) (b : list num) :
  all_finite b -> dot (map (fun _ => Fin 0) x) b = Fin 0.
Proof.
  intros Hb. unfold dot, nsum. apply fold_nadd_zero.
  apply Forall_forall. intros z Hz. apply in_map_iff in Hz.
  destruct Hz as [[u v] [<- Hin]]. cbn [fst snd].
  pose proof (in_combine_l _ _ _ _ Hin) as Hu.
  pose proof (in_combine_r _ _ _ _ Hin) as Hv.
  apply in_map_iff in Hu. destruct Hu as [? [<- _]].
  unfold all_finite in Hb. rewrite Forall_forall in Hb.
  specialize (Hb v Hv). destruct v as [q |]; [| discriminate].
  unfold nmul. apply f_equal.
  transitivity (Qred 0); [apply Qred_complete, Qmult_0_l | reflexivity].
Qed.

Lemma dot_zero_r (a : list num) (y : list Q) :
  all_finite a -> dot a (map (fun _ => Fin 0) y) = Fin 0.
Proof.
  intros Ha. unfold dot, nsum. apply fold_nadd_zero.
  apply Forall_forall. intros z Hz. apply in_map_iff in Hz.
  destruct Hz as [[u v] [<- Hin]]. cbn [fst snd].
  pose proof (in_combine_l _ _ _ _ Hin) as Hu.
  pose proof (in_combine_r _ _ _ _ Hin) as Hv.
  apply in_map_iff in Hv. destruct Hv as [? [<- _]].
  unfold all_finite in Ha. rewrite Forall_forall in Ha.
  specialize (Ha u Hu). destruct u as [q |]; [| discriminate].
  unfold nmul. apply f_equal.
  transitivity (Qred 0); [apply Qred_complete, Qmult_0_r | reflexivity].
Qed.

End Cosine.

(* ================================================================== *)
(** * Loops and their invariants *)
(* ================================================================== *)

Lemma fold_left_inv {A B} (P : A -> Prop) (f : A -> B -> A) (l : list B)
    (a : A) :
  P a -> (forall a x, In x l -> P a -> P (f a x)) -> P (fold_left f l a).
Proof.
  revert a. induction l as [| x l IH]; intros a Ha Hf; simpl; [exact Ha |].
  apply IH.
  - apply Hf; [now left | exact Ha].
  - intros a' y Hy. apply Hf. now right.
Qed.

Lemma for_each_raise {A B} (l : list B) (body : A -> B -> result A)
    (e : exn) :
  fold_left (fun acc x => match acc with
                          | Ok a => body a x
                          | Raise e => Raise e
                          end) l (Raise e) = Raise e.
Proof. induction l as [| x l IH]; simpl; [reflexivity | exact IH]. Qed.

Lemma for_each_inv {A B} (P : A -> Prop) (l : list B) (init : A)
    (body : A -> B -> result A) (d : A) :
  P init ->
  (forall a x a', In x l -> P a -> body a x = Ok a' -> P a') ->
  for_each l init body = Ok d -> P d.
Proof.
  unfold for_each. revert init.
  induction l as [| x l IH]; intros init Hinit Hbody; simpl.
  - now intros [= <-].
  - destruct (body init x) as [a' | e] eqn:E.
    + apply IH.
      * eapply Hbody; eauto. now left.
      * intros a y a'' Hy. apply Hbody. now right.
    + rewrite for_each_raise. discriminate.
Qed.

Lemma dict_append_good (d : dict (list num)) (k : string) (x : num) :
  good_lists d -> is_finite x = true -> good_lists (dict_append d k x).
Proof.
  intros Hd Hx. unfold dict_append, good_lists in *.
  destruct (dict_get d k) as [l |] eqn:E.
  - apply (dict_set_values good_list); [exact Hd |].
    destruct (dict_get_values good_list _ _ _ Hd E) as [_ Hl].
    split; [now destruct l |].
    apply Forall_app. split; [exact Hl | now repeat constructor].
  - apply (dict_set_values good_list); [exact Hd |].
    split; [discriminate | now repeat constructor].
Qed.

Lemma mean_scores_keys (d : dict (list num)) :
  dict_keys (mean_scores d) = dict_keys d.
Proof.
  unfold mean_scores, dict_keys. rewrite map_map. reflexivity.
Qed.

Lemma mean_scores_finite (d : dict (list num)) :
  good_lists d ->
  Forall (fun p => is_finite (snd p) = true) (mean_scores d).
Proof.
  intros Hd. unfold mean_scores. apply Forall_map.
  eapply Forall_impl; [| exact Hd]. simpl.
  intros [k l] [Hne Hl]. now apply np_mean_finite.
Qed.

(** ** The result built from a dictionary of scores *)

Lemma top_items_ids (limit : Z) (d : dict num) :
  item_ids (top_items limit d)
  = map fst (py_prefix limit (sorted_desc snd d)).
Proof. unfold item_ids, top_items. now rewrite map_map. Qed.

Lemma top_items_scores (limit : Z) (d : dict num) :
  scores (top_items limit d)
  = map snd (py_prefix limit (sorted_desc snd d)).
Proof. unfold scores, top_items. now rewrite map_map. Qed.

Lemma top_items_NoDup (limit : Z) (d : dict num) :
  NoDup (dict_keys d) -> NoDup (item_ids (top_items limit d)).
Proof.
  intros Hd. rewrite top_items_ids.
  apply NoDup_py_prefix_map. now apply sort_by_NoDup_map.
Qed.

Lemma top_items_length (limit : Z) (d : dict num) :
  0 <= limit -> Z.of_nat (length (top_items limit d)) <= limit.
Proof.
  intros Hl. unfold top_items. rewrite length_map.
  now apply py_prefix_length.
Qed.

Lemma top_items_sorted (limit : Z) (d : dict num) :
  Forall (fun p => is_finite (snd p) = true) d ->
  non_increasing (scores (top_items limit d)).
Proof.
  intros Hd. rewrite top_items_scores.
  now apply sorted_desc_prefix_non_increasing.
Qed.

Lemma top_items_finite (limit : Z) (d : dict num) :
  Forall (fun p => is_finite (snd p) = true) d ->
  all_finite (scores (top_items limit d)).
Proof.
  intros Hd. rewrite top_items_scores.
  destruct (py_prefix_firstn limit (sorted_desc snd d)) as [k ->].
  apply Forall_map. apply Forall_forall. intros p Hp.
  assert (Hs : Forall (fun p => is_finite (snd p) = true) (sorted_desc snd d))
    by now apply sort_by_Forall.
  rewrite Forall_forall in Hs. apply Hs.
  rewrite <- (firstn_skipn k (sorted_desc snd d)).
  apply in_or_app. now left.
Qed.

Lemma top_items_empty (limit : Z) : top_items limit [] = [].
Proof.
  unfold top_items. change (sorted_desc snd (@nil (string * num))) with
    (@nil (string * num)). now rewrite py_prefix_nil.
Qed.

(* ================================================================== *)
(** * The collaborative recommender *)
(* ================================================================== *)

Lemma index_order_In (n : nat) (named : list nat) (i : nat) :
  In i (index_order n named) <-> (i < n)%nat.
Proof.
  unfold index_order. rewrite in_app_iff, filter_In, in_seq.
  set (first := nodup Nat.eq_dec (filter (fun i => i <? n)%nat named)).
  assert (Hfirst : In i first -> (i < n)%nat).
  { unfold first. rewrite nodup_In, filter_In.
    intros [_ Hi]. now apply Nat.ltb_lt. }
  split.
  - intros [Hi | [Hi _]]; [auto | lia].
  - intros Hi. destruct (existsb (Nat.eqb i) first) eqn:E.
    + left. apply existsb_exists in E. destruct E as [j [Hj Hij]].
      apply Nat.eqb_eq in Hij. now subst j.
    + right. split; [lia | reflexivity].
Qed.

Lemma index_order_NoDup (n : nat) (named : list nat) :
  NoDup (index_order n named).
Proof.
  unfold index_order. apply NoDup_app.
  - apply NoDup_nodup.
  - apply NoDup_filter, seq_NoDup.
  - intros i Hi Hrest. apply filter_In in Hrest. destruct Hrest as [_ Hno].
    apply negb_true_iff in Hno.
    assert (Hyes : existsb (Nat.eqb i)
                     (nodup Nat.eq_dec (filter (fun i => i <? n)%nat named))
                   = true).
    { apply existsb_exists. exists i. split; [exact Hi |].
      apply Nat.eqb_refl. }
    congruence.
Qed.

Lemma index_order_perm (n : nat) (named : list nat) :
  Permutation (index_order n named) (seq 0 n).
Proof.
  apply NoDup_Permutation; [apply index_order_NoDup | apply seq_NoDup |].
  intros i. rewrite index_order_In, in_seq. lia.
Qed.

Lemma argsort_perm `{NumLib} (v : list num) :
  Permutation (argsort v) (seq 0 (length v)).
Proof.
  unfold argsort.
  etransitivity; [apply sort_by_perm | apply index_order_perm].
Qed.

Lemma sort_by_keeps_sorted {A} (before : A -> A -> bool) (l : list A) :
  StronglySorted (fun x y => before y x = false) l -> sort_by before l = l.
Proof.
  induction 1 as [| x l Hs IH Hx]; [reflexivity |].
  unfold sort_by in *. cbn [fold_right]. rewrite IH.
  destruct l as [| y ys]; [reflexivity |]. cbn [insert_by].
  inversion Hx as [| ? ? Hy _]; subst. now rewrite Hy.
Qed.

Lemma index_order_named (n : nat) (p : list nat) :
  Permutation p (seq 0 n) -> index_order n p = p.
Proof.
  intros Hp. unfold index_order.
  assert (Hbelow : filter (fun i => i <? n)%nat p = p).
  { apply forallb_filter_id, forallb_forall. intros i Hi.
    apply (Permutation_in _ Hp), in_seq in Hi. apply Nat.ltb_lt. lia. }
  rewrite Hbelow.
  rewrite nodup_fixed_point
    by (apply (Permutation_NoDup (Permutation_sym Hp)), seq_NoDup).
  assert (Hrest : forall l,
            (forall i, In i l -> In i p) ->
            filter (fun i => negb (existsb (Nat.eqb i) p)) l = []).
  { induction l as [| i l IH]; intros Hl; [reflexivity |]. cbn [filter].
    assert (Hi : existsb (Nat.eqb i) p = true).
    { apply existsb_exists. exists i. split; [| apply Nat.eqb_refl].
      apply Hl. now left. }
    rewrite Hi. cbn [negb]. apply IH. intros j Hj. apply Hl. now right. }
  rewrite Hrest; [apply app_nil_r |].
  intros i Hi. now apply (Permutation_in _ (Permutation_sym Hp)).
Qed.

(** The model leaves the order of equal values open: every arrangement
    of the positions in which no position is followed by one of
    strictly smaller value is the [argsort] of a library whose sort
    produces it. *)
Lemma argsort_any_ascending `{NumLib} (v : list num) (p : list nat) :
  Permutation p (seq 0 (length v)) ->
  StronglySorted (fun i j => nltb (nth j v NaN) (nth i v NaN) = false) p ->
  argsort_tie_order v = p -> argsort v = p.
Proof.
  intros Hp Hs E. unfold argsort. rewrite E, (index_order_named _ _ Hp).
  now apply sort_by_keeps_sorted.
Qed.

Lemma similar_users_idx_bound `{NumLib} (v : list num) (idx : nat) :
  In idx (similar_users_idx v) -> (idx < length v)%nat.
Proof.
  unfold similar_users_idx. intros Hin.
  assert (H1 : In idx (skipn 1 (rev (argsort v)))).
  { rewrite <- (firstn_skipn 10 (skipn 1 (rev (argsort v)))).
    apply in_or_app. now left. }
  assert (H2 : In idx (rev (argsort v))).
  { rewrite <- (firstn_skipn 1 (rev (argsort v))).
    apply in_or_app. now right. }
  apply in_rev in H2.
  apply (Permutation_in _ (argsort_perm v)) in H2.
  apply in_seq in H2. lia.
Qed.

Lemma similar_users_idx_length `{NumLib} (v : list num) :
  (length (similar_users_idx v) <= 10)%nat.
Proof. unfold similar_users_idx. rewrite length_firstn. lia. Qed.

Section Collaborative.

Context `{NumLib}.
Variable ratings_cache : list Rating.

Lemma cf_user_similarity_eq (m : DataFrame) (user_id : string) :
  cf_user_similarity m user_id
  = map (fun y => dot (normalize (loc m user_id)) (normalize y)) (values m).
Proof. reflexivity. Qed.

Lemma cf_user_similarity_finite (m : DataFrame) (user_id : string) :
  all_finite (cf_user_similarity m user_id).
Proof.
  rewrite cf_user_similarity_eq. apply Forall_map, Forall_forall.
  intros y _. apply dot_finite; apply normalize_finite.
Qed.

Lemma cf_collect_user_inv (m : DataFrame) (user_movies : list string)
    (sims : list num) (d : dict (list num)) (idx : nat) :
  NoDup (dict_keys d) ->
  NoDup (dict_keys (cf_collect_user m user_movies sims d idx)).
Proof.
  intros Hd. unfold cf_collect_user.
  apply fold_left_inv; [exact Hd |].
  intros a p _ Ha. destruct (_ && _); [| exact Ha].
  now apply dict_append_NoDup.
Qed.

Lemma cf_collect_user_good (m : DataFrame) (user_movies : list string)
    (sims : list num) (d : dict (list num)) (idx : nat) :
  is_finite (nth idx sims NaN) = true -> good_lists d ->
  good_lists (cf_collect_user m user_movies sims d idx).
Proof.
  intros Hs Hd. unfold cf_collect_user.
  apply fold_left_inv; [exact Hd |].
  intros a p _ Ha. destruct (_ && _); [| exact Ha].
  apply dict_append_good; [exact Ha |]. now apply nmul_finite.
Qed.

Lemma cf_recommendations_NoDup (m : DataFrame) (user_id : string) :
  NoDup (dict_keys (cf_recommendations m user_id)).
Proof.
  unfold cf_recommendations. apply fold_left_inv; [constructor |].
  intros a idx _ Ha. now apply cf_collect_user_inv.
Qed.

(** Every similarity the scoring loop reads lies inside the similarity
    vector, so every contribution is finite. *)
Lemma cf_recommendations_good (m : DataFrame) (user_id : string) :
  good_lists (cf_recommendations m user_id).
Proof.
  unfold cf_recommendations. apply fold_left_inv; [constructor |].
  intros a idx Hidx Ha. apply cf_collect_user_good; [| exact Ha].
  apply similar_users_idx_bound in Hidx.
  pose proof (cf_user_similarity_finite m user_id) as Hf.
  unfold all_finite in Hf. rewrite Forall_forall in Hf.
  apply Hf. now apply nth_In.
Qed.

(** The method, as a function of the matrix in use. *)
Lemma collaborative_run (user_id : string) (limit : Z) (self : Engine) :
  collaborative_filtering_recommendations ratings_cache user_id limit self
  = (cf_result (matrix_in_use ratings_cache self) user_id limit,
     mkEngine (matrix_in_use ratings_cache self)
              (content_similarity_matrix self)).
Proof.
  destruct self as [[m |] sim];
    unfold collaborative_filtering_recommendations, matrix_in_use, bind,
      get_self, build_user_item_matrix, ret, raise, cf_result; simpl.
  - now destruct (negb (str_in user_id (index m))).
  - destruct ratings_cache as [| r rs]; [reflexivity |].
    now destruct (negb (str_in user_id (index (pivot_table (r :: rs))))).
Qed.

Lemma cf_result_props (matrix : option DataFrame) (user_id : string)
    (limit : Z) (r : list RecommendationItem) :
  cf_result matrix user_id limit = Ok r ->
  NoDup (item_ids r) /\ non_increasing (scores r) /\ all_finite (scores r)
  /\ (0 <= limit -> Z.of_nat (length r) <= limit).
Proof.
  unfold cf_result. destruct matrix as [m |]; [| discriminate].
  intros [= <-]. destruct (negb (str_in user_id (index m))).
  - repeat split; try constructor. simpl. lia.
  - pose proof (cf_recommendations_NoDup m user_id) as Hnd.
    pose proof (mean_scores_finite _ (cf_recommendations_good m user_id))
      as Hfin.
    repeat split.
    + apply top_items_NoDup. now rewrite mean_scores_keys.
    + now apply top_items_sorted.
    + now apply top_items_finite.
    + apply top_items_length.
Qed.

End Collaborative.

(* ================================================================== *)
(** * The content recommender *)
(* ================================================================== *)

Lemma content_collect_row_NoDup (movie_ids rated : list string)
    (liked : string) (row : list num) (d d' : dict (list num)) :
  NoDup (dict_keys d) ->
  content_collect_row movie_ids rated liked row d = Ok d' ->
  NoDup (dict_keys d').
Proof.
  intros Hd. unfold content_collect_row.
  apply (for_each_inv (fun d => NoDup (dict_keys d))); [exact Hd |].
  intros a p a' _ Ha. destruct (nth_error movie_ids (fst p)); [| discriminate].
  destruct (_ && _); intros [= <-]; [| exact Ha].
  now apply dict_append_NoDup.
Qed.

Lemma content_collect_row_good (movie_ids rated : list string)
    (liked : string) (row : list num) (d d' : dict (list num)) :
  all_finite row -> good_lists d ->
  content_collect_row movie_ids rated liked row d = Ok d' ->
  good_lists d'.
Proof.
  intros Hrow Hd. unfold content_collect_row.
  apply (for_each_inv good_lists); [exact Hd |].
  intros a p a' Hp Ha. destruct (nth_error movie_ids (fst p)); [| discriminate].
  destruct (_ && _); intros [= <-]; [| exact Ha].
  apply dict_append_good; [exact Ha |].
  destruct p as [i x]. apply in_combine_r in Hp.
  unfold all_finite in Hrow. rewrite Forall_forall in Hrow. now apply Hrow.
Qed.

Lemma content_collect_NoDup (sim : option (list (list num)))
    (movie_ids rated liked : list string) (d : dict (list num)) :
  content_collect sim movie_ids rated liked = Ok d -> NoDup (dict_keys d).
Proof.
  unfold content_collect.
  apply (for_each_inv (fun d => NoDup (dict_keys d))); [constructor |].
  intros a x a' _ Ha. destruct (str_in x movie_ids).
  - destruct (list_index x movie_ids); [| discriminate].
    destruct sim as [rows |]; [| discriminate].
    destruct (nth_error rows n); [| discriminate].
    now apply content_collect_row_NoDup.
  - now intros [= <-].
Qed.

Lemma content_collect_good (rows : list (list num))
    (movie_ids rated liked : list string) (d : dict (list num)) :
  Forall all_finite rows ->
  content_collect (Some rows) movie_ids rated liked = Ok d -> good_lists d.
Proof.
  intros Hrows. unfold content_collect.
  apply (for_each_inv good_lists); [constructor |].
  intros a x a' _ Ha. destruct (str_in x movie_ids).
  - destruct (list_index x movie_ids); [| discriminate].
    destruct (nth_error rows n) as [row |] eqn:E; [| discriminate].
    apply content_collect_row_good; [| exact Ha].
    rewrite Forall_forall in Hrows. apply Hrows.
    eapply nth_error_In; eauto.
  - now intros [= <-].
Qed.

(** Without a matrix the loop raises as soon as a liked movie is among
    the movies; it returns only when it never reads the matrix, and
    then it has collected nothing. *)
Lemma content_collect_none (movie_ids rated liked : list string)
    (d : dict (list num)) :
  content_collect None movie_ids rated liked = Ok d -> d = [].
Proof.
  unfold content_collect.
  apply (for_each_inv (fun d => d = [])); [reflexivity |].
  intros a x a' _ ->. destruct (str_in x movie_ids).
  - destruct (list_index x movie_ids); discriminate.
  - now intros [= <-].
Qed.

Section Content.

Context `{NumLib}.
Variable ratings_cache : list Rating.
Variable movies_cache : list Movie.

Lemma content_run (user_id : string) (limit : Z) (self : Engine) :
  content_based_recommendations ratings_cache movies_cache user_id limit self
  = match sim_in_use movies_cache self with
    | Raise e => (Raise e, self)
    | Ok sim =>
        (content_result ratings_cache movies_cache sim user_id limit,
         mkEngine (user_item_matrix self) sim)
    end.
Proof.
  destruct self as [m [sim |]];
    unfold content_based_recommendations, sim_in_use, bind, get_self,
      build_content_features, ret, lift, content_result, liked_movies_of;
    cbn [content_similarity_matrix user_item_matrix].
  - destruct (ratings_of ratings_cache user_id) as [| r rs]; [reflexivity |].
    cbn [is_empty].
    destruct (map movieId (filter _ (r :: rs))) as [| k ks]; [reflexivity |].
    cbn [is_empty]. destruct (content_collect _ _ _ _); reflexivity.
  - destruct movies_cache as [| mv mvs].
    + destruct (ratings_of ratings_cache user_id) as [| r rs];
        [reflexivity |].
      cbn [is_empty].
      destruct (map movieId (filter _ (r :: rs))) as [| k ks]; [reflexivity |].
      cbn [is_empty]. destruct (content_collect _ _ _ _); reflexivity.
    + destruct (tfidf_fit_transform _) as [X | e]; [| reflexivity].
      destruct (ratings_of ratings_cache user_id) as [| r rs];
        [reflexivity |].
      cbn [is_empty].
      destruct (map movieId (filter _ (r :: rs))) as [| k ks]; [reflexivity |].
      cbn [is_empty]. destruct (content_collect _ _ _ _); reflexivity.
Qed.

Lemma content_result_props (sim : option (list (list num)))
    (user_id : string) (limit : Z) (r : list RecommendationItem) :
  content_result ratings_cache movies_cache sim user_id limit = Ok r ->
  NoDup (item_ids r)
  /\ (0 <= limit -> Z.of_nat (length r) <= limit)
  /\ ((forall rows, sim = Some rows -> Forall all_finite rows) ->
      non_increasing (scores r) /\ all_finite (scores r)).
Proof.
  unfold content_result.
  destruct (is_empty (ratings_of ratings_cache user_id)).
  { intros [= <-]. repeat split; try constructor. simpl. lia. }
  destruct (is_empty (liked_movies_of ratings_cache user_id)).
  { intros [= <-]. repeat split; try constructor. simpl. lia. }
  destruct (content_collect _ _ _ _) as [d |] eqn:E; [| discriminate].
  intros [= <-]. split; [| split].
  - apply top_items_NoDup. rewrite mean_scores_keys.
    eapply content_collect_NoDup; eauto.
  - apply top_items_length.
  - intros Hsim.
    assert (Hd : good_lists d).
    { destruct sim as [rows |].
      - exact (content_collect_good rows _ _ _ _ (Hsim rows eq_refl) E).
      - apply content_collect_none in E. subst. constructor. }
    split; [apply top_items_sorted | apply top_items_finite];
      now apply mean_scores_finite.
Qed.

(** The matrix the method leaves in the engine is finite if the one it
    found was. *)
Lemma sim_in_use_finite (self : Engine) (sim : option (list (list num))) :
  sim_finite self -> sim_in_use movies_cache self = Ok sim ->
  forall rows, sim = Some rows -> Forall all_finite rows.
Proof.
  unfold sim_finite, sim_in_use.
  destruct (content_similarity_matrix self) as [s |].
  - intros Hs [= <-] rows [= <-]. exact Hs.
  - intros _. destruct movies_cache as [| mv mvs].
    + intros [= <-]. discriminate.
    + destruct (tfidf_fit_transform _) as [X | e]; [| discriminate].
      intros [= <-] rows [= <-]. apply cosine_similarity_finite.
Qed.

End Content.

(* ================================================================== *)
(** * The popularity fallback *)
(* ================================================================== *)

Lemma NoDup_map_filter {A B} (keep : A -> bool) (g : A -> B)
    (xs : list A) (Hnd : NoDup (map g xs)) :
  NoDup (map g (filter keep xs)).
Proof.
  induction xs as [| a xs IH]; simpl; [constructor |].
  inversion Hnd as [| ? ? Hnotin Hrest]; subst.
  destruct (keep a); simpl; [| now apply IH].
  constructor; [| now apply IH].
  intro Hin. apply Hnotin. apply in_map_iff in Hin.
  destruct Hin as [b [Hb Hin]]. apply filter_In in Hin.
  apply in_map_iff. exists b. tauto.
Qed.

Lemma dict_set_not_nil {V} (d : dict V) (k : string) (v : V) :
  dict_set d k v <> [].
Proof. destruct d as [| [k' v'] d]; simpl; [| destruct (String.eqb k' k)]; discriminate. Qed.

Lemma dict_append_not_nil {V} (d : dict (list V)) (k : string) (x : V) :
  dict_append d k x <> [].
Proof. unfold dict_append. destruct (dict_get d k); apply dict_set_not_nil. Qed.

Section Popularity.

Context `{NumLib}.
Variable ratings_cache : list Rating.
Variable movies_cache : list Movie.

Lemma movie_popularity_NoDup : NoDup (dict_keys (movie_popularity ratings_cache)).
Proof.
  unfold movie_popularity. apply fold_left_inv; [constructor |].
  intros a r _ Ha. now apply dict_append_NoDup.
Qed.

Lemma movie_popularity_good : good_lists (movie_popularity ratings_cache).
Proof.
  unfold movie_popularity. apply fold_left_inv; [constructor |].
  intros a r _ Ha. now apply dict_append_good.
Qed.

Lemma movie_popularity_not_nil :
  ratings_cache <> [] -> movie_popularity ratings_cache <> [].
Proof.
  unfold movie_popularity. destruct ratings_cache as [| r rs]; [congruence |].
  intros _. simpl. apply fold_left_inv.
  - apply dict_append_not_nil.
  - intros a x _ _. apply dict_append_not_nil.
Qed.

(** The score of a rated movie is finite: the mean is over at least one
    rating and the logarithm is of a number above 1. *)
Lemma popularity_score_finite (ratings : list num) :
  good_list ratings -> is_finite (popularity_score ratings) = true.
Proof.
  intros [Hne Hfin]. unfold popularity_score. apply nmul_finite.
  - now apply np_mean_finite.
  - unfold nlog.
    assert (E : Qle_bool (inject_Z (Z.of_nat (length ratings) + 1)) 0 = false).
    { destruct (Qle_bool _ _) eqn:E; [| reflexivity].
      apply Qle_bool_iff in E. unfold Qle in E. simpl in E. lia. }
    now rewrite E.
Qed.

Lemma rated_items_finite :
  Forall (fun it => is_finite (item_score it) = true)
    (map (fun p => mkItem (fst p) (popularity_score (snd p)))
         (movie_popularity ratings_cache)).
Proof.
  apply Forall_map. eapply Forall_impl; [| apply movie_popularity_good].
  intros [k l] Hl. simpl. now apply popularity_score_finite.
Qed.

Lemma popular_movies_NoDup : NoDup (item_ids (popular_movies ratings_cache)).
Proof.
  unfold popular_movies, item_ids, sorted_desc.
  apply sort_by_NoDup_map. rewrite map_map. simpl.
  apply movie_popularity_NoDup.
Qed.


Lemma popular_movies_finite :
  all_finite (scores (popular_movies ratings_cache)).
Proof.
  unfold scores, popular_movies, sorted_desc. apply Forall_map.
  apply sort_by_Forall. apply rated_items_finite.
Qed.

Lemma popular_movies_nil :
  ratings_cache = [] -> popular_movies ratings_cache = [].
Proof. intros ->. reflexivity. Qed.

Lemma popular_movies_not_nil :
  ratings_cache <> [] -> popular_movies ratings_cache <> [].
Proof.
  intros Hr E. unfold popular_movies, sorted_desc in E.
  apply sort_by_nil in E. apply map_eq_nil in E.
  now apply movie_popularity_not_nil in E.
Qed.

Lemma unrated_movies_default (rated : list string) :
  Forall (fun it => item_score it = DEFAULT_SCORE)
    (unrated_movies movies_cache rated).
Proof. unfold unrated_movies. apply Forall_map, Forall_forall. reflexivity. Qed.

Lemma unrated_movies_ids (rated : list string) :
  item_ids (unrated_movies movies_cache rated)
  = map movie_id
      (filter (fun movie => negb (str_in (movie_id movie) rated))
              movies_cache).
Proof. unfold item_ids, unrated_movies. now rewrite map_map. Qed.

Lemma unrated_movies_all :
  unrated_movies movies_cache []
  = map (fun movie => mkItem (movie_id movie) DEFAULT_SCORE) movies_cache.
Proof.
  unfold unrated_movies. f_equal.
  induction movies_cache as [| mv mvs IH]; [reflexivity |].
  cbn [filter str_in existsb negb]. now f_equal.
Qed.

Lemma get_popular_movies_fallback_eq (limit : Z) :
  get_popular_movies_fallback ratings_cache movies_cache limit
  = if is_empty movies_cache then []
    else py_prefix limit (popular_filled ratings_cache movies_cache limit).
Proof.
  unfold get_popular_movies_fallback, popular_filled.
  now destruct movies_cache.
Qed.

Lemma popular_filled_NoDup (limit : Z) :
  NoDup (map movie_id movies_cache) ->
  NoDup (item_ids (popular_filled ratings_cache movies_cache limit)).
Proof.
  intros Hm. unfold popular_filled.
  destruct (_ <? _); [| apply popular_movies_NoDup].
  unfold item_ids. rewrite map_app. apply NoDup_app.
  - apply popular_movies_NoDup.
  - fold (item_ids (unrated_movies movies_cache
                      (map item_movieId (popular_movies ratings_cache)))).
    rewrite unrated_movies_ids. now apply NoDup_map_filter.
  - intros a Ha Hin.
    fold (item_ids (unrated_movies movies_cache
                      (map item_movieId (popular_movies ratings_cache)))) in Hin.
    rewrite unrated_movies_ids in Hin. apply in_map_iff in Hin.
    destruct Hin as [mv [<- Hmv]]. apply filter_In in Hmv.
    destruct Hmv as [_ Hmv]. apply negb_true_iff, str_in_false in Hmv.
    now apply Hmv.
Qed.

Lemma popular_filled_finite (limit : Z) :
  all_finite (scores (popular_filled ratings_cache movies_cache limit)).
Proof.
  unfold popular_filled. destruct (_ <? _); [| apply popular_movies_finite].
  unfold scores. rewrite map_app. apply Forall_app. split.
  - apply popular_movies_finite.
  - apply Forall_map. eapply Forall_impl; [| apply unrated_movies_default].
    intros it ->. reflexivity.
Qed.

Lemma popular_filled_not_nil (limit : Z) :
  1 <= limit -> movies_cache <> [] -> popular_filled ratings_cache movies_cache limit <> [].
Proof.
  intros Hl Hm. unfold popular_filled.
  destruct (popular_movies ratings_cache) as [| it its] eqn:E.
  - simpl. destruct (Z.ltb_spec 0 limit); [| lia].
    rewrite unrated_movies_all. destruct movies_cache; [congruence |].
    discriminate.
  - destruct (_ <? _); discriminate.
Qed.

End Popularity.

(* ================================================================== *)
(** * The hybrid combiner *)
(* ================================================================== *)

Lemma add_cf_NoDup (d : dict num) (rec : RecommendationItem) :
  NoDup (dict_keys d) -> NoDup (dict_keys (add_cf d rec)).
Proof. apply dict_set_NoDup. Qed.

Lemma add_content_NoDup (d : dict num) (rec : RecommendationItem) :
  NoDup (dict_keys d) -> NoDup (dict_keys (add_content d rec)).
Proof.
  unfold add_content. destruct (dict_get d _); apply dict_set_NoDup.
Qed.

Lemma combined_dict_NoDup (limit : Z)
    (cf_recs content_recs : list RecommendationItem) :
  NoDup (dict_keys (combined_dict limit cf_recs content_recs)).
Proof.
  unfold combined_dict. apply fold_left_inv.
  - apply fold_left_inv; [constructor |].
    intros a x _. apply add_cf_NoDup.
  - intros a x _. apply add_content_NoDup.
Qed.

Lemma combined_dict_finite (limit : Z)
    (cf_recs content_recs : list RecommendationItem) :
  all_finite (scores cf_recs) -> all_finite (scores content_recs) ->
  Forall (fun p => is_finite (snd p) = true)
    (combined_dict limit cf_recs content_recs).
Proof.
  intros Hcf Hct. unfold combined_dict.
  unfold all_finite, scores in Hcf, Hct.
  rewrite Forall_map in Hcf, Hct. rewrite Forall_forall in Hcf, Hct.
  apply fold_left_inv.
  - apply fold_left_inv; [constructor |].
    intros a x Hx Ha. unfold add_cf.
    apply (dict_set_values finite_value); [exact Ha |].
    apply nmul_finite; [| reflexivity]. apply Hcf.
    destruct (py_prefix_firstn (limit / 2) cf_recs) as [k E].
    rewrite E in Hx. rewrite <- (firstn_skipn k cf_recs).
    apply in_or_app. now left.
  - intros a x Hx Ha. unfold add_content.
    destruct (dict_get a (item_movieId x)) as [v |] eqn:E;
      apply (dict_set_values finite_value); try exact Ha.
    + apply nadd_finite.
      * exact (dict_get_values finite_value _ _ _ Ha E).
      * apply nmul_finite; [now apply Hct | reflexivity].
    + apply nmul_finite; [now apply Hct | reflexivity].
Qed.

(** ** The value stored for a movie *)

Lemma item_lookup_cons (it : RecommendationItem)
    (l : list RecommendationItem) (movie : string) :
  item_lookup (it :: l) movie
  = if String.eqb (item_movieId it) movie then Some (item_score it)
    else item_lookup l movie.
Proof.
  unfold item_lookup. simpl. now destruct (String.eqb _ _).
Qed.

Lemma item_lookup_none (l : list RecommendationItem) (movie : string) :
  ~ In movie (item_ids l) -> item_lookup l movie = None.
Proof.
  induction l as [| it l IH]; [reflexivity |].
  intros Hn. rewrite item_lookup_cons.
  destruct (String.eqb_spec (item_movieId it) movie) as [<- | Hne].
  - exfalso. apply Hn. now left.
  - apply IH. intro Hin. apply Hn. now right.
Qed.

Lemma fold_add_cf_get (l : list RecommendationItem) (d : dict num)
    (movie : string) :
  NoDup (item_ids l) ->
  dict_get (fold_left add_cf l d) movie
  = match item_lookup l movie with
    | Some a => Some (nmul a CF_WEIGHT)
    | None => dict_get d movie
    end.
Proof.
  revert d. induction l as [| it l IH]; intros d Hnd; [reflexivity |].
  inversion Hnd as [| ? ? Hnotin Hrest]; subst.
  cbn [fold_left]. rewrite IH by assumption. rewrite item_lookup_cons.
  unfold add_cf.
  destruct (String.eqb_spec (item_movieId it) movie) as [<- | Hne].
  - rewrite item_lookup_none by assumption. apply dict_get_set_same.
  - destruct (item_lookup l movie); [reflexivity |].
    now apply dict_get_set_other.
Qed.

Lemma fold_add_content_get (l : list RecommendationItem) (d : dict num)
    (movie : string) :
  NoDup (item_ids l) ->
  dict_get (fold_left add_content l d) movie
  = match item_lookup l movie with
    | Some b =>
        match dict_get d movie with
        | Some v => Some (nadd v (nmul b CONTENT_WEIGHT))
        | None => Some (nmul b CONTENT_WEIGHT)
        end
    | None => dict_get d movie
    end.
Proof.
  revert d. induction l as [| it l IH]; intros d Hnd; [reflexivity |].
  inversion Hnd as [| ? ? Hnotin Hrest]; subst.
  cbn [fold_left]. rewrite IH by assumption. rewrite item_lookup_cons.
  unfold add_content.
  destruct (String.eqb_spec (item_movieId it) movie) as [<- | Hne].
  - rewrite item_lookup_none by assumption.
    destruct (dict_get d (item_movieId it)); apply dict_get_set_same.
  - assert (E : forall v, dict_get (dict_set d (item_movieId it) v) movie
                          = dict_get d movie)
      by (intros v; now apply dict_get_set_other).
    destruct (dict_get d (item_movieId it)); rewrite E; reflexivity.
Qed.

(** The combined map holds, for every movie, the blend of its score
    among the first [limit // 2] collaborative entries and its score
    among the content entries. *)
Lemma combined_dict_get (limit : Z)
    (cf_recs content_recs : list RecommendationItem) (movie : string) :
  NoDup (item_ids cf_recs) -> NoDup (item_ids content_recs) ->
  dict_get (combined_dict limit cf_recs content_recs) movie
  = blend (item_lookup (py_prefix (limit / 2) cf_recs) movie)
          (item_lookup content_recs movie).
Proof.
  intros Hcf Hct. unfold combined_dict.
  rewrite fold_add_content_get by assumption.
  rewrite fold_add_cf_get by (now apply NoDup_py_prefix_map).
  destruct (item_lookup content_recs movie),
    (item_lookup (py_prefix (limit / 2) cf_recs) movie); reflexivity.
Qed.

Section Hybrid.

Context `{NumLib}.
Variable ratings_cache : list Rating.
Variable movies_cache : list Movie.

Local Notation "'CF'" :=
  (collaborative_filtering_recommendations ratings_cache) (only parsing).
Local Notation "'CONTENT'" :=
  (content_based_recommendations ratings_cache movies_cache) (only parsing).
Local Notation "'HYBRID'" :=
  (hybrid_recommendations ratings_cache movies_cache) (only parsing).
Local Notation "'POPULAR'" :=
  (get_popular_movies_fallback ratings_cache movies_cache) (only parsing).
Local Notation "'OR_POPULAR'" :=
  (or_popular ratings_cache movies_cache) (only parsing).

(** ** The caches in use are stable under the methods *)

Lemma matrix_in_use_warm (self : Engine) (sim : option (list (list num))) :
  matrix_in_use ratings_cache
    (mkEngine (matrix_in_use ratings_cache self) sim)
  = matrix_in_use ratings_cache self.
Proof.
  unfold matrix_in_use. cbn [user_item_matrix].
  destruct (user_item_matrix self); [reflexivity |].
  now destruct ratings_cache.
Qed.

Lemma sim_in_use_matrix (self : Engine) (m : option DataFrame) :
  sim_in_use movies_cache (mkEngine m (content_similarity_matrix self))
  = sim_in_use movies_cache self.
Proof. reflexivity. Qed.

Lemma sim_in_use_warm (self : Engine) (m : option DataFrame)
    (sim : option (list (list num))) :
  sim_in_use movies_cache self = Ok sim ->
  sim_in_use movies_cache (mkEngine m sim) = Ok sim.
Proof.
  unfold sim_in_use. cbn [content_similarity_matrix].
  destruct (content_similarity_matrix self) as [s |].
  - now intros [= <-].
  - destruct movies_cache as [| mv mvs]; [now intros [= <-] |].
    destruct (tfidf_fit_transform _); [| discriminate].
    now intros [= <-].
Qed.

Lemma engine_eta (self : Engine) :
  mkEngine (user_item_matrix self) (content_similarity_matrix self) = self.
Proof. now destruct self. Qed.

(** ** The method, as a function of the caches in use *)

Lemma hybrid_run (user_id : string) (limit : Z) (self : Engine) :
  HYBRID user_id limit self
  = let n := user_rating_count ratings_cache user_id in
    let warm :=
      mkEngine (matrix_in_use ratings_cache self)
               (content_similarity_matrix self) in
    if (MIN_RATINGS_FOR_CF <=? n)%nat then
      match cf_result (matrix_in_use ratings_cache self) user_id limit with
      | Raise e => (Raise e, warm)
      | Ok cf_recs =>
          match sim_in_use movies_cache self with
          | Raise e => (Raise e, warm)
          | Ok sim =>
              let warm' := mkEngine (matrix_in_use ratings_cache self) sim in
              match content_result ratings_cache movies_cache sim user_id
                      (limit / 2) with
              | Raise e => (Raise e, warm')
              | Ok content_recs =>
                  (Ok (OR_POPULAR limit
                         (top_items limit
                            (combined_dict limit cf_recs content_recs))),
                   warm')
              end
          end
      end
    else if (0 <? n)%nat then
      match sim_in_use movies_cache self with
      | Raise e => (Raise e, self)
      | Ok sim =>
          let warm' := mkEngine (user_item_matrix self) sim in
          match content_result ratings_cache movies_cache sim user_id limit
          with
          | Raise e => (Raise e, warm')
          | Ok r => (Ok (OR_POPULAR limit r), warm')
          end
      end
    else (Ok (POPULAR limit), self).
Proof.
  cbv zeta. unfold hybrid_recommendations, blended_branch.
  destruct (MIN_RATINGS_FOR_CF <=? _)%nat.
  - unfold bind at 1. unfold bind at 1. rewrite collaborative_run.
    destruct (cf_result _ _ _) as [cf_recs | e]; [| reflexivity].
    unfold bind at 1. rewrite content_run. rewrite sim_in_use_matrix.
    destruct (sim_in_use movies_cache self) as [sim | e]; [| reflexivity].
    cbn [user_item_matrix].
    destruct (content_result _ _ _ _ _) as [content_recs | e]; reflexivity.
  - destruct (0 <? _)%nat.
    + unfold bind. rewrite content_run.
      destruct (sim_in_use movies_cache self) as [sim | e]; [| reflexivity].
      destruct (content_result _ _ _ _ _) as [r | e]; reflexivity.
    + reflexivity.
Qed.

End Hybrid.

(* ================================================================== *)
(** * Properties of the recommenders *)
(* ================================================================== *)

(** ** The blended branch of the hybrid recommender *)

(** C1, as amended.  For a user with at least 5 ratings, the combined
    score map of the hybrid recommender holds for every movie the blend
    of its score among the first [limit // 2] entries of the
    collaborative result (computed with [limit]), times 0.7, and its
    score in the content result (computed with [limit // 2]), times
    0.3, the two added when both exist; the output is this map sorted by
    score, descending, and truncated to [limit] (replaced by the
    popularity fallback when it is empty). *)
Theorem hybrid_blend_combines_first_half `{NumLib}
    (ratings_cache : list Rating) (movies_cache : list Movie)
    (user_id : string) (limit : Z) (self s1 s2 : Engine)
    (cf_recs content_recs : list RecommendationItem) :
  (MIN_RATINGS_FOR_CF <= user_rating_count ratings_cache user_id)%nat ->
  collaborative_filtering_recommendations ratings_cache user_id limit self
    = (Ok cf_recs, s1) ->
  content_based_recommendations ratings_cache movies_cache user_id
    (limit / 2) s1 = (Ok content_recs, s2) ->
  (forall movie,
     dict_get (combined_dict limit cf_recs content_recs) movie
     = blend (item_lookup (py_prefix (limit / 2) cf_recs) movie)
             (item_lookup content_recs movie))
  /\ hybrid_recommendations ratings_cache movies_cache user_id limit self
     = (Ok (or_popular ratings_cache movies_cache limit
              (top_items limit (combined_dict limit cf_recs content_recs))),
        s2).
Proof.
  intros Hn Hcf Hct. split.
  - intros movie. apply combined_dict_get.
    + rewrite collaborative_run in Hcf. injection Hcf as Hcf _.
      now apply cf_result_props in Hcf.
    + rewrite content_run in Hct.
      destruct (sim_in_use movies_cache s1) as [sim | e]; [| discriminate].
      injection Hct as Hct _. now apply content_result_props in Hct.
  - unfold hybrid_recommendations, blended_branch.
    apply Nat.leb_le in Hn. rewrite Hn.
    unfold bind. rewrite Hcf, Hct. reflexivity.
Qed.

Lemma hybrid_blend_combines_first_half_witness :
  exists cf_recs content_recs s2,
    (forall movie,
       dict_get (combined_dict 4 cf_recs content_recs) movie
       = blend (item_lookup (py_prefix (4 / 2) cf_recs) movie)
               (item_lookup content_recs movie))
    /\ hybrid_recommendations Sample.keen_ratings Sample.seven_movies
         "u1" 4 new_engine
       = (Ok (or_popular Sample.keen_ratings Sample.seven_movies 4
                (top_items 4 (combined_dict 4 cf_recs content_recs))), s2).
Proof.
  eexists _, _, _.
  eapply (hybrid_blend_combines_first_half
            Sample.keen_ratings Sample.seven_movies "u1" 4 new_engine).
  - vm_compute. lia.
  - vm_compute. reflexivity.
  - vm_compute. reflexivity.
Defined.

(** C1, as stated, fails: with [limit = 2] the collaborative result
    for [u1] holds [m6] and [m7], the combined map is built from its
    first [2 // 2 = 1] entry only, and [m7] neither enters the map nor
    the output, which therefore differs from the one the map over the
    whole collaborative result would give. *)
Lemma hybrid_blend_drops_collaborative_entries :
  let run_cf :=
    collaborative_filtering_recommendations Sample.lukewarm_ratings
      "u1" 2 new_engine in
  let run_content :=
    content_based_recommendations Sample.lukewarm_ratings
      Sample.seven_movies "u1" (2 / 2) (snd run_cf) in
  let run_hybrid :=
    hybrid_recommendations Sample.lukewarm_ratings Sample.seven_movies
      "u1" 2 new_engine in
  (MIN_RATINGS_FOR_CF
   <= user_rating_count Sample.lukewarm_ratings "u1")%nat
  /\ match fst run_cf, fst run_content, fst run_hybrid with
     | Ok cf_recs, Ok content_recs, Ok recommendations =>
         item_ids cf_recs = ["m6"; "m7"]
         /\ dict_get (combined_dict 2 cf_recs content_recs) "m7" = None
         /\ item_ids recommendations = ["m6"]
         /\ item_ids (top_items 2 (spec_combined_dict cf_recs content_recs))
            = ["m6"; "m7"]
     | _, _, _ => False
     end.
Proof.
  split; [vm_compute; lia |]. vm_compute. repeat split.
Qed.

(** ** Order of the scores *)




(** ** The neighbours of the collaborative recommender *)

(** The neighbours are at most 10 rows of the matrix. *)
Lemma cf_neighbours_length `{NumLib} (m : DataFrame) (user_id : string) :
  (length (cf_neighbours m user_id) <= 10)%nat.
Proof.
  unfold cf_neighbours. rewrite length_map. apply similar_users_idx_length.
Qed.

(** C3 fails on the code.  [u1] and [u2] have given the same single
    rating, so both rows have similarity 1 to [u1]'s.  [argsort] lists
    the two equal values by index, the reversal puts [u2] first, and the
    slice [[1:11]] drops [u2] and keeps [u1]: the neighbour set of
    [u1] is [u1] itself, and the other user is not in it. *)
Theorem neighbours_contain_target_on_tie :
  let m := pivot_table Sample.twin_ratings in
  index m = ["u1"; "u2"]
  /\ cf_user_similarity m "u1" = [Fin 1; Fin 1]
  /\ rev (argsort (cf_user_similarity m "u1")) = [1%nat; 0%nat]
  /\ cf_neighbours m "u1" = ["u1"]
  /\ fst (collaborative_filtering_recommendations Sample.twin_ratings
            "u1" 10 new_engine) = Ok [].
Proof. vm_compute. repeat split. Qed.

(** ** Size and distinctness of the results *)

(** C4, as amended.  The results of the collaborative and of the
    content recommender have pairwise distinct movie ids, for every
    limit; the results of the popularity fallback and of the hybrid
    recommender have pairwise distinct movie ids when the ids of the
    movie snapshot are pairwise distinct, for every limit; and for a
    limit that is not negative every result of the four has at most
    [limit] entries, whatever the movie snapshot. *)
Theorem results_bounded_and_distinct `{NumLib}
    (ratings_cache : list Rating) (movies_cache : list Movie)
    (user_id : string) (limit : Z) (self self' : Engine)
    (r : list RecommendationItem) :
  (collaborative_filtering_recommendations ratings_cache user_id limit self
     = (Ok r, self') ->
   NoDup (item_ids r) /\ (0 <= limit -> Z.of_nat (length r) <= limit))
  /\ (content_based_recommendations ratings_cache movies_cache user_id
        limit self = (Ok r, self') ->
      NoDup (item_ids r) /\ (0 <= limit -> Z.of_nat (length r) <= limit))
  /\ (let p := get_popular_movies_fallback ratings_cache movies_cache limit in
      (NoDup (map movie_id movies_cache) -> NoDup (item_ids p))
      /\ (0 <= limit -> Z.of_nat (length p) <= limit))
  /\ (hybrid_recommendations ratings_cache movies_cache user_id limit self
        = (Ok r, self') ->
      (NoDup (map movie_id movies_cache) -> NoDup (item_ids r))
      /\ (0 <= limit -> Z.of_nat (length r) <= limit)).
Proof.
  assert (Hpop :
            let p :=
              get_popular_movies_fallback ratings_cache movies_cache limit in
            (NoDup (map movie_id movies_cache) -> NoDup (item_ids p))
            /\ (0 <= limit -> Z.of_nat (length p) <= limit)).
  { cbv zeta. rewrite get_popular_movies_fallback_eq.
    destruct (is_empty movies_cache).
    - split; [constructor | simpl; lia].
    - split; [| apply py_prefix_length].
      intros Hm. apply NoDup_py_prefix_map. now apply popular_filled_NoDup. }
  split; [| split; [| split]].
  - rewrite collaborative_run. intros [= Hr _].
    apply cf_result_props in Hr. tauto.
  - rewrite content_run.
    destruct (sim_in_use movies_cache self) as [sim |]; [| discriminate].
    intros [= Hr _]. apply content_result_props in Hr. tauto.
  - exact Hpop.
  - cbv zeta in Hpop.
    rewrite hybrid_run. cbv zeta.
    destruct (MIN_RATINGS_FOR_CF <=? _)%nat.
    + destruct (cf_result _ _ _) as [cf_recs |]; [| discriminate].
      destruct (sim_in_use movies_cache self) as [sim |]; [| discriminate].
      destruct (content_result _ _ _ _ _) as [content_recs |];
        [| discriminate].
      intros [= <- _]. unfold or_popular.
      destruct (is_empty _); [exact Hpop |].
      split; [| apply top_items_length].
      intros _. apply top_items_NoDup, combined_dict_NoDup.
    + destruct (0 <? _)%nat.
      * destruct (sim_in_use movies_cache self) as [sim |]; [| discriminate].
        destruct (content_result _ _ _ _ _) as [r' |] eqn:Ect;
          [| discriminate].
        intros [= <- _]. unfold or_popular.
        destruct (is_empty r'); [exact Hpop |].
        apply content_result_props in Ect. tauto.
      * now intros [= <- _].
Qed.

Lemma results_bounded_and_distinct_witness :
  let r := returned (hybrid_recommendations Sample.keen_ratings
                       Sample.seven_movies "u1" 10 new_engine) in
  let p := get_popular_movies_fallback Sample.keen_ratings
             Sample.seven_movies 3 in
  (item_ids r = ["m6"; "m7"]
   /\ NoDup (item_ids r) /\ Z.of_nat (length r) <= 10)
  /\ (item_ids p = ["m1"; "m2"; "m3"]
      /\ NoDup (item_ids p) /\ Z.of_nat (length p) <= 3).
Proof.
  cbv zeta.
  assert (Hm : NoDup (map movie_id Sample.seven_movies)).
  { unfold Sample.seven_movies. simpl.
    repeat (constructor; [simpl; intuition discriminate |]). constructor. }
  split.
  - pose proof (results_bounded_and_distinct
                  Sample.keen_ratings Sample.seven_movies "u1" 10 new_engine
                  (snd (hybrid_recommendations Sample.keen_ratings
                          Sample.seven_movies "u1" 10 new_engine))
                  (returned (hybrid_recommendations Sample.keen_ratings
                               Sample.seven_movies "u1" 10 new_engine)))
      as [_ [_ [_ Hhybrid]]].
    split; [vm_compute; reflexivity |].
    destruct Hhybrid as [Hdistinct Hbound]; [vm_compute; reflexivity |].
    split; [exact (Hdistinct Hm) | apply Hbound; lia].
  - pose proof (results_bounded_and_distinct
                  Sample.keen_ratings Sample.seven_movies "u1" 3 new_engine
                  new_engine [])
      as [_ [_ [[Hdistinct Hbound] _]]].
    split; [vm_compute; reflexivity |].
    split; [exact (Hdistinct Hm) | apply Hbound; lia].
Defined.

(** C4, as stated, fails twice.  A movie snapshot that lists an id
    twice yields a popularity result with that id twice, and the hybrid
    recommender hands that result to a user without ratings; and for a
    negative limit no result, not even the empty one, has at most
    [limit] entries. *)
Lemma popularity_repeats_and_negative_limit :
  item_ids (get_popular_movies_fallback [] Sample.repeated_movies 2)
    = ["m1"; "m1"]
  /\ ~ NoDup (item_ids
                (get_popular_movies_fallback [] Sample.repeated_movies 2))
  /\ fst (hybrid_recommendations [] Sample.repeated_movies "u1" 2 new_engine)
     = Ok (get_popular_movies_fallback [] Sample.repeated_movies 2)
  /\ ~ Z.of_nat
         (length (get_popular_movies_fallback Sample.one_poor_rating
                    Sample.two_movies (-1))) <= -1.
Proof.
  split; [reflexivity |]. split; [| split; [reflexivity |]].
  - intro Hnd. vm_compute in Hnd.
    inversion Hnd as [| ? ? Hnotin _]; subst. apply Hnotin. now left.
  - vm_compute. intro Hle. now apply Hle.
Qed.

(** ** Branch selection of the hybrid recommender *)

(** C5.  The branch of the hybrid recommender is selected by the number
    [n] of ratings of the target user in the snapshot: the blended
    branch for [n >= 5], the content recommender alone for
    [0 < n < 5], no personalised branch for [n = 0]; and an empty
    personalised result is replaced by the popularity fallback's. *)
Theorem hybrid_branch_selection `{NumLib}
    (ratings_cache : list Rating) (movies_cache : list Movie)
    (user_id : string) (limit : Z) (self : Engine) :
  let n := user_rating_count ratings_cache user_id in
  let hybrid :=
    hybrid_recommendations ratings_cache movies_cache user_id limit in
  let or_popular := or_popular ratings_cache movies_cache limit in
  ((5 <= n)%nat ->
   hybrid self
   = bind (blended_branch ratings_cache movies_cache user_id limit)
          (fun r => ret (or_popular r)) self)
  /\ ((0 < n < 5)%nat ->
      hybrid self
      = bind (content_based_recommendations ratings_cache movies_cache
                user_id limit)
             (fun r => ret (or_popular r)) self)
  /\ (n = 0%nat ->
      hybrid self
      = (Ok (get_popular_movies_fallback ratings_cache movies_cache limit),
         self))
  /\ (forall r, or_popular r
                = if is_empty r
                  then get_popular_movies_fallback ratings_cache movies_cache
                         limit
                  else r).
Proof.
  cbv zeta. unfold hybrid_recommendations, MIN_RATINGS_FOR_CF.
  split; [| split; [| split]].
  - intros Hn. apply Nat.leb_le in Hn. now rewrite Hn.
  - intros [H0 H5]. apply Nat.leb_gt in H5. apply Nat.ltb_lt in H0.
    now rewrite H5, H0.
  - intros ->. reflexivity.
  - reflexivity.
Qed.

Lemma hybrid_branch_selection_witness :
  hybrid_recommendations Sample.keen_ratings Sample.seven_movies
    "u1" 4 new_engine
  = bind (blended_branch Sample.keen_ratings Sample.seven_movies "u1" 4)
         (fun r => ret (or_popular Sample.keen_ratings Sample.seven_movies
                          4 r)) new_engine
  /\ hybrid_recommendations Sample.few_ratings Sample.seven_movies
       "u3" 3 new_engine
     = bind (content_based_recommendations Sample.few_ratings
               Sample.seven_movies "u3" 3)
            (fun r => ret (or_popular Sample.few_ratings Sample.seven_movies
                             3 r)) new_engine
  /\ hybrid_recommendations Sample.few_ratings Sample.seven_movies
       "u9" 3 new_engine
     = (Ok (get_popular_movies_fallback Sample.few_ratings
              Sample.seven_movies 3), new_engine).
Proof.
  pose proof (hybrid_branch_selection Sample.keen_ratings Sample.seven_movies
                "u1" 4 new_engine) as [Hblend _].
  pose proof (hybrid_branch_selection Sample.few_ratings Sample.seven_movies
                "u3" 3 new_engine) as [_ [Hcontent _]].
  pose proof (hybrid_branch_selection Sample.few_ratings Sample.seven_movies
                "u9" 3 new_engine) as [_ [_ [Hcold _]]].
  split; [| split].
  - apply Hblend. vm_compute. lia.
  - apply Hcontent. vm_compute. lia.
  - apply Hcold. vm_compute. reflexivity.
Defined.

(** ** The popularity fallback *)

(** C6.  For a limit of at least 1 the popularity fallback returns the
    empty result exactly when there is no movie; without any rating it
    returns the first [limit] movies of the snapshot, each with the
    default score 2.5.  It is a total function: no step of it can
    raise. *)
Theorem popularity_empty_iff_no_movies `{NumLib}
    (ratings_cache : list Rating) (movies_cache : list Movie) (limit : Z) :
  1 <= limit ->
  (get_popular_movies_fallback ratings_cache movies_cache limit = []
   <-> movies_cache = [])
  /\ (ratings_cache = [] ->
      get_popular_movies_fallback ratings_cache movies_cache limit
      = firstn (Z.to_nat limit)
          (map (fun movie => mkItem (movie_id movie) DEFAULT_SCORE)
               movies_cache)).
Proof.
  intros Hl. split; [split |].
  - intros E. rewrite get_popular_movies_fallback_eq in E.
    destruct movies_cache as [| mv mvs] eqn:Em; [reflexivity |].
    exfalso. cbn [is_empty] in E. revert E.
    apply py_prefix_nonempty; [exact Hl |].
    apply popular_filled_not_nil; [exact Hl | discriminate].
  - intros ->. reflexivity.
  - intros ->. rewrite get_popular_movies_fallback_eq.
    destruct movies_cache as [| mv mvs] eqn:Em.
    + simpl. now rewrite firstn_nil.
    + cbn [is_empty]. unfold popular_filled.
      change (popular_movies []) with (@nil RecommendationItem).
      cbn [length Z.of_nat map app].
      destruct (Z.ltb_spec 0 limit); [| lia].
      rewrite unrated_movies_all. unfold py_prefix.
      destruct (Z.ltb_spec limit 0); [lia | reflexivity].
Qed.

Lemma popularity_empty_iff_no_movies_witness :
  (get_popular_movies_fallback [] Sample.two_movies 5 = []
   <-> Sample.two_movies = [])
  /\ get_popular_movies_fallback [] Sample.two_movies 5
     = [mkItem "m1" DEFAULT_SCORE; mkItem "m2" DEFAULT_SCORE].
Proof.
  destruct (popularity_empty_iff_no_movies [] Sample.two_movies 5)
    as [Hiff Hdefault]; [lia |].
  split; [exact Hiff |]. now rewrite Hdefault.
Defined.

(** ** Exceptions *)

(** C7 fails on the code.  With no rating at all and no matrix built
    earlier, [build_user_item_matrix] returns [None] and leaves the
    field [None]; the collaborative recommender then reads [.index] of
    it and raises, for every user and every limit. *)
Theorem collaborative_raises_without_ratings `{NumLib}
    (user_id : string) (limit : Z) :
  collaborative_filtering_recommendations [] user_id limit new_engine
  = (Raise AttributeError, new_engine).
Proof. reflexivity. Qed.

(** The other recommenders do return on an empty snapshot. *)
Lemma others_return_without_ratings `{NumLib} (movies_cache : list Movie)
    (user_id : string) (limit : Z) (self : Engine) :
  (forall sim, sim_in_use movies_cache self = Ok sim ->
     content_based_recommendations [] movies_cache user_id limit self
     = (Ok [], mkEngine (user_item_matrix self) sim))
  /\ hybrid_recommendations [] movies_cache user_id limit self
     = (Ok (get_popular_movies_fallback [] movies_cache limit), self).
Proof.
  split; [| reflexivity].
  intros sim E. rewrite content_run, E. reflexivity.
Qed.

(** No recommender raises for a limit below 1. *)
Lemma no_exception_for_small_limit :
  fst (collaborative_filtering_recommendations Sample.keen_ratings
         "u1" 0 new_engine) = Ok []
  /\ fst (content_based_recommendations Sample.keen_ratings
            Sample.seven_movies "u1" (-1) new_engine)
     = Ok [mkItem "m6" (Fin 0)]
  /\ fst (hybrid_recommendations Sample.keen_ratings Sample.seven_movies
            "u1" 0 new_engine) = Ok [].
Proof. vm_compute. repeat split. Qed.

(** ** Repeated invocations *)

Lemma collaborative_repeatable `{NumLib} (ratings_cache : list Rating)
    (user_id : string) (limit : Z) (self : Engine) :
  let run :=
    collaborative_filtering_recommendations ratings_cache user_id limit in
  run (snd (run self)) = run self.
Proof.
  cbv zeta. rewrite !collaborative_run. cbn [snd content_similarity_matrix].
  now rewrite matrix_in_use_warm.
Qed.

Lemma content_repeatable `{NumLib} (ratings_cache : list Rating)
    (movies_cache : list Movie) (user_id : string) (limit : Z)
    (self : Engine) :
  let run :=
    content_based_recommendations ratings_cache movies_cache user_id limit in
  run (snd (run self)) = run self.
Proof.
  cbv zeta. rewrite (content_run _ _ _ _ self).
  destruct (sim_in_use movies_cache self) as [sim | e] eqn:E; cbn [snd].
  - rewrite content_run.
    now rewrite (sim_in_use_warm movies_cache self _ sim E).
  - now rewrite content_run, E.
Qed.

Lemma hybrid_repeatable `{NumLib} (ratings_cache : list Rating)
    (movies_cache : list Movie) (user_id : string) (limit : Z)
    (self : Engine) :
  let run :=
    hybrid_recommendations ratings_cache movies_cache user_id limit in
  run (snd (run self)) = run self.
Proof.
  cbv zeta. rewrite (hybrid_run _ _ _ _ self). cbv zeta.
  destruct (MIN_RATINGS_FOR_CF <=? _)%nat eqn:En.
  - destruct (cf_result _ _ _) as [cf_recs | e] eqn:Ecf; cbn [snd].
    + destruct (sim_in_use movies_cache self) as [sim | e] eqn:E; cbn [snd].
      * destruct (content_result _ _ _ _ _) as [content_recs | e] eqn:Ect;
          cbn [snd]; rewrite hybrid_run; cbv zeta; rewrite En;
          rewrite matrix_in_use_warm, Ecf;
          rewrite (sim_in_use_warm movies_cache self _ sim E);
          cbn [content_similarity_matrix]; now rewrite Ect.
      * rewrite hybrid_run. cbv zeta. rewrite En.
        rewrite matrix_in_use_warm, Ecf, sim_in_use_matrix, E.
        reflexivity.
    + rewrite hybrid_run. cbv zeta. rewrite En.
      rewrite matrix_in_use_warm, Ecf. reflexivity.
  - destruct (0 <? _)%nat eqn:E0.
    + destruct (sim_in_use movies_cache self) as [sim | e] eqn:E; cbn [snd].
      * destruct (content_result _ _ _ _ _) as [r | e] eqn:Ect;
          cbn [snd]; rewrite hybrid_run; cbv zeta; rewrite En, E0;
          rewrite (sim_in_use_warm movies_cache self _ sim E);
          cbn [user_item_matrix]; now rewrite Ect.
      * rewrite hybrid_run. cbv zeta. now rewrite En, E0, E.
    + cbn [snd]. rewrite hybrid_run. cbv zeta. now rewrite En, E0.
Qed.

(** The outcome of an invocation is a function of the two matrices in
    use, and of nothing else in the engine. *)
Lemma recommend_reads_caches_in_use `{NumLib} (ratings_cache : list Rating)
    (movies_cache : list Movie) (type user_id : string) (limit : Z)
    (self other : Engine) :
  matrix_in_use ratings_cache self = matrix_in_use ratings_cache other ->
  sim_in_use movies_cache self = sim_in_use movies_cache other ->
  fst (recommend ratings_cache movies_cache type user_id limit self)
  = fst (recommend ratings_cache movies_cache type user_id limit other).
Proof.
  intros Hm Hs. unfold recommend. destruct (String.eqb type "collaborative").
  - rewrite !collaborative_run. cbn [fst]. now rewrite Hm.
  - destruct (String.eqb type "content").
    + rewrite !content_run. rewrite <- Hs.
      destruct (sim_in_use movies_cache self); reflexivity.
    + rewrite !hybrid_run. cbv zeta. rewrite <- Hm, <- Hs.
      destruct (MIN_RATINGS_FOR_CF <=? _)%nat.
      * destruct (cf_result _ _ _); [| reflexivity].
        destruct (sim_in_use movies_cache self); [| reflexivity].
        destruct (content_result _ _ _ _ _); reflexivity.
      * destruct (0 <? _)%nat; [| reflexivity].
        destruct (sim_in_use movies_cache self); [| reflexivity].
        destruct (content_result _ _ _ _ _); reflexivity.
Qed.

(** An invocation at a snapshot caches only the matrices already in
    use at that snapshot. *)
Lemma recommend_keeps_caches_in_use `{NumLib} (ratings_cache : list Rating)
    (movies_cache : list Movie) (type user_id : string) (limit : Z)
    (self : Engine) :
  let after :=
    snd (recommend ratings_cache movies_cache type user_id limit self) in
  matrix_in_use ratings_cache after = matrix_in_use ratings_cache self
  /\ sim_in_use movies_cache after = sim_in_use movies_cache self.
Proof.
  cbv zeta. unfold recommend. destruct (String.eqb type "collaborative").
  - rewrite collaborative_run. cbn [snd]. split.
    + apply matrix_in_use_warm.
    + apply sim_in_use_matrix.
  - destruct (String.eqb type "content").
    + rewrite content_run.
      destruct (sim_in_use movies_cache self) as [sim | e] eqn:E; cbn [snd].
      * split; [reflexivity |].
        now rewrite (sim_in_use_warm movies_cache self _ sim E).
      * now split.
    + rewrite hybrid_run. cbv zeta.
      destruct (MIN_RATINGS_FOR_CF <=? _)%nat.
      * destruct (cf_result _ _ _); cbn [snd].
        -- destruct (sim_in_use movies_cache self) as [sim | e] eqn:E;
             cbn [snd].
           ++ destruct (content_result _ _ _ _ _); cbn [snd];
                (split; [apply matrix_in_use_warm |]);
                now rewrite (sim_in_use_warm movies_cache self _ sim E).
           ++ split; [apply matrix_in_use_warm |].
              now rewrite sim_in_use_matrix.
        -- split; [apply matrix_in_use_warm | apply sim_in_use_matrix].
      * destruct (0 <? _)%nat; [| now split].
        destruct (sim_in_use movies_cache self) as [sim | e] eqn:E; cbn [snd].
        -- destruct (content_result _ _ _ _ _); cbn [snd];
             (split; [reflexivity |]);
             now rewrite (sim_in_use_warm movies_cache self _ sim E).
        -- now split.
Qed.

(** C8, as amended.  On a fixed snapshot and with fixed parameters, the
    outcome of an invocation (the result or the exception) is the same
    on any two engines with the same matrices in use: the cached
    matrix where there is one, the matrix of this snapshot otherwise.
    An invocation at the snapshot, with whatever parameters, does not
    change the outcome of a later one; and a second invocation returns
    what the first returned and leaves the engine as the first left
    it. *)
Theorem recommend_determined_by_caches `{NumLib}
    (ratings_cache : list Rating) (movies_cache : list Movie)
    (type user_id : string) (limit : Z) (self : Engine) :
  let run := recommend ratings_cache movies_cache type user_id limit in
  (forall other,
     matrix_in_use ratings_cache self = matrix_in_use ratings_cache other ->
     sim_in_use movies_cache self = sim_in_use movies_cache other ->
     fst (run self) = fst (run other))
  /\ (forall type' user_id' limit',
        fst (run (snd (recommend ratings_cache movies_cache type' user_id'
                         limit' self)))
        = fst (run self))
  /\ run (snd (run self)) = run self.
Proof.
  cbv zeta. split; [| split].
  - intros other. apply recommend_reads_caches_in_use.
  - intros type' user_id' limit'.
    destruct (recommend_keeps_caches_in_use ratings_cache movies_cache
                type' user_id' limit' self) as [Hm Hs].
    now apply recommend_reads_caches_in_use.
  - unfold recommend. destruct (String.eqb type "collaborative").
    + apply collaborative_repeatable.
    + destruct (String.eqb type "content").
      * apply content_repeatable.
      * apply hybrid_repeatable.
Qed.

Lemma recommend_determined_by_caches_witness :
  let run :=
    recommend Sample.keen_ratings Sample.seven_movies "collaborative" "u1"
      10 in
  let built := mkEngine (Some (pivot_table Sample.keen_ratings)) None in
  fst (run new_engine) = fst (run built)
  /\ item_ids (returned (run new_engine)) = ["m6"; "m7"].
Proof.
  cbv zeta.
  pose proof (recommend_determined_by_caches Sample.keen_ratings
                Sample.seven_movies "collaborative" "u1" 10 new_engine)
    as [Hsame _].
  split; [| vm_compute; reflexivity].
  apply Hsame; reflexivity.
Defined.

(** C8, as stated, fails on the code: the engine keeps the matrices it
    has built and never rebuilds them, so the outcome depends on more
    than the snapshot and the parameters.  On the same snapshot and
    with the same parameters, a fresh engine recommends [m6] and [m7]
    to [u1], and an engine that holds the matrix of an earlier
    snapshot recommends nothing. *)
Lemma recommend_depends_on_cached_matrix :
  let run :=
    recommend Sample.keen_ratings Sample.seven_movies "collaborative" "u1"
      10 in
  let stale := mkEngine (Some (pivot_table Sample.twin_ratings)) None in
  item_ids (returned (run new_engine)) = ["m6"; "m7"]
  /\ fst (run stale) = Ok []
  /\ fst (run new_engine) <> fst (run stale)
  /\ snd (collaborative_filtering_recommendations Sample.twin_ratings "u1"
            10 new_engine) = stale.
Proof.
  cbv zeta. split; [vm_compute; reflexivity |].
  split; [vm_compute; reflexivity |].
  split; [| vm_compute; reflexivity].
  vm_compute. discriminate.
Qed.

(** ** Degenerate vectors *)

Lemma popularity_finite `{NumLib} (ratings_cache : list Rating)
    (movies_cache : list Movie) (limit : Z) :
  all_finite
    (scores (get_popular_movies_fallback ratings_cache movies_cache limit)).
Proof.
  rewrite get_popular_movies_fallback_eq.
  destruct (is_empty movies_cache); [constructor |].
  destruct (py_prefix_firstn limit
              (popular_filled ratings_cache movies_cache limit)) as [k ->].
  pose proof (popular_filled_finite ratings_cache movies_cache limit) as Hf.
  unfold all_finite, scores in *. rewrite Forall_map in *.
  rewrite Forall_forall in *. intros it Hit. apply Hf.
  rewrite <- (firstn_skipn k (popular_filled _ _ _)).
  apply in_or_app. now left.
Qed.

(** C9.  Cosine similarity is total on degenerate input: the divisor of
    the normalization is never zero, every similarity is a finite
    number, and the similarity of a row of zero norm with any row is 0.
    No score of any result is non-finite (the value a division by zero
    would give). *)
Theorem cosine_similarity_total `{NumLib}
    (ratings_cache : list Rating) (movies_cache : list Movie)
    (user_id : string) (limit : Z) (self self' : Engine)
    (r : list RecommendationItem) :
  sim_finite self ->
  (forall x, exists q,
      handle_zeros_in_scale (row_norm x) = Fin q /\ ~ (q == 0)%Q)
  /\ (forall X Y, Forall all_finite (cosine_similarity X Y))
  /\ (forall X Y i j x y,
        nth_error X i = Some x -> nth_error Y j = Some y ->
        (sum_sq x == 0)%Q \/ (sum_sq y == 0)%Q ->
        nth j (nth i (cosine_similarity X Y) []) NaN = Fin 0)
  /\ (collaborative_filtering_recommendations ratings_cache user_id limit
        self = (Ok r, self') -> all_finite (scores r))
  /\ (content_based_recommendations ratings_cache movies_cache user_id
        limit self = (Ok r, self') -> all_finite (scores r))
  /\ (hybrid_recommendations ratings_cache movies_cache user_id limit self
        = (Ok r, self') -> all_finite (scores r))
  /\ all_finite
       (scores (get_popular_movies_fallback ratings_cache movies_cache
                  limit)).
Proof.
  intros Hsim. repeat apply conj.
  - intros x. destruct (normalize_divisor x) as [q [Hq Hne]].
    exists q. split; [exact Hq |]. intro E.
    apply Qeq_bool_iff in E. congruence.
  - apply cosine_similarity_finite.
  - intros X Y i j x y Hx Hy Hz.
    rewrite (cosine_similarity_entry X Y i j x y Hx Hy).
    destruct Hz as [Hz | Hz]; rewrite (normalize_zero _ Hz).
    + apply dot_zero_l, normalize_finite.
    + apply dot_zero_r, normalize_finite.
  - rewrite collaborative_run. intros [= Hr _].
    now apply cf_result_props in Hr.
  - rewrite content_run.
    destruct (sim_in_use movies_cache self) as [sim |] eqn:E;
      [| discriminate].
    intros [= Hr _]. apply content_result_props in Hr.
    apply Hr. now apply (sim_in_use_finite movies_cache self).
  - rewrite hybrid_run. cbv zeta.
    destruct (MIN_RATINGS_FOR_CF <=? _)%nat.
    + destruct (cf_result _ _ _) as [cf_recs |] eqn:Ecf; [| discriminate].
      destruct (sim_in_use movies_cache self) as [sim |] eqn:E;
        [| discriminate].
      destruct (content_result _ _ _ _ _) as [content_recs |] eqn:Ect;
        [| discriminate].
      intros [= <- _]. unfold or_popular.
      destruct (is_empty _); [apply popularity_finite |].
      apply top_items_finite, combined_dict_finite.
      * now apply cf_result_props in Ecf.
      * apply content_result_props in Ect. apply Ect.
        now apply (sim_in_use_finite movies_cache self).
    + destruct (0 <? _)%nat.
      * destruct (sim_in_use movies_cache self) as [sim |] eqn:E;
          [| discriminate].
        destruct (content_result _ _ _ _ _) as [r' |] eqn:Ect;
          [| discriminate].
        intros [= <- _]. unfold or_popular.
        destruct (is_empty r'); [apply popularity_finite |].
        apply content_result_props in Ect. apply Ect.
        now apply (sim_in_use_finite movies_cache self).
      * intros [= <- _]. apply popularity_finite.
  - apply popularity_finite.
Qed.

Lemma cosine_similarity_total_witness :
  nth 1 (nth 0 (cosine_similarity [[0%Q; 0%Q]]
                  [[3%Q; 4%Q]; [0%Q; 0%Q]]) []) NaN
    = Fin 0
  /\ exists r self',
       hybrid_recommendations Sample.keen_ratings Sample.seven_movies
         "u1" 4 new_engine = (Ok r, self')
       /\ all_finite (scores r).
Proof.
  split.
  - eapply (cosine_similarity_total Sample.keen_ratings Sample.seven_movies
              "u1" 4 new_engine new_engine [] I).
    + reflexivity.
    + reflexivity.
    + left. reflexivity.
  - eexists _, _. split; [vm_compute; reflexivity |].
    eapply (cosine_similarity_total Sample.keen_ratings Sample.seven_movies
              "u1" 4 new_engine).
    + exact I.
    + vm_compute. reflexivity.
Defined.

(** ** The hybrid recommender at limit 1 *)

(** The content recommender asked for no entry returns none. *)
Lemma content_limit_zero `{NumLib} (ratings_cache : list Rating)
    (movies_cache : list Movie) (user_id : string) (self self' : Engine)
    (r : list RecommendationItem) :
  content_based_recommendations ratings_cache movies_cache user_id 0 self
    = (Ok r, self') -> r = [].
Proof.
  rewrite content_run.
  destruct (sim_in_use movies_cache self) as [sim |]; [| discriminate].
  unfold content_result.
  destruct (is_empty (ratings_of _ _)); [now intros [= <- _] |].
  destruct (is_empty (liked_movies_of _ _)); [now intros [= <- _] |].
  destruct (content_collect _ _ _ _); [| discriminate].
  now intros [= <- _].
Qed.

(** C10.  For a user with at least 5 ratings and [limit = 1], the
    blended branch builds an empty combined map, whatever the
    collaborative and the content recommender return, and the hybrid
    recommender returns the popularity fallback's result (or the
    exception one of the two recommenders raised). *)
Theorem hybrid_limit_one_is_popularity `{NumLib}
    (ratings_cache : list Rating) (movies_cache : list Movie)
    (user_id : string) (self : Engine) :
  (MIN_RATINGS_FOR_CF <= user_rating_count ratings_cache user_id)%nat ->
  hybrid_recommendations ratings_cache movies_cache user_id 1 self
  = match collaborative_filtering_recommendations ratings_cache user_id 1
            self with
    | (Raise e, s1) => (Raise e, s1)
    | (Ok _, s1) =>
        match content_based_recommendations ratings_cache movies_cache
                user_id 0 s1 with
        | (Raise e, s2) => (Raise e, s2)
        | (Ok _, s2) =>
            (Ok (get_popular_movies_fallback ratings_cache movies_cache 1),
             s2)
        end
    end
  /\ (forall cf_recs content_recs s1 s2,
        collaborative_filtering_recommendations ratings_cache user_id 1 self
          = (Ok cf_recs, s1) ->
        content_based_recommendations ratings_cache movies_cache user_id
          (1 / 2) s1 = (Ok content_recs, s2) ->
        combined_dict 1 cf_recs content_recs = []).
Proof.
  intros Hn. apply Nat.leb_le in Hn. split.
  - unfold hybrid_recommendations, blended_branch. rewrite Hn.
    change (1 / 2) with 0. unfold bind at 1 2.
    destruct (collaborative_filtering_recommendations _ _ _ _)
      as [[cf_recs | e] s1]; [| reflexivity].
    unfold bind at 1.
    destruct (content_based_recommendations _ _ _ _ _)
      as [[content_recs | e] s2] eqn:Ect; [| reflexivity].
    apply content_limit_zero in Ect. subst content_recs. reflexivity.
  - intros cf_recs content_recs s1 s2 _ Hct.
    change (1 / 2) with 0 in Hct.
    apply content_limit_zero in Hct. subst content_recs. reflexivity.
Qed.

Lemma hybrid_limit_one_is_popularity_witness :
  item_ids (match collaborative_filtering_recommendations
                    Sample.keen_ratings "u1" 10 new_engine with
            | (Ok cf_recs, _) => cf_recs
            | (Raise _, _) => []
            end) = ["m6"; "m7"]
  /\ hybrid_recommendations Sample.keen_ratings Sample.seven_movies
       "u1" 1 new_engine
     = (Ok (get_popular_movies_fallback Sample.keen_ratings
              Sample.seven_movies 1),
        snd (content_based_recommendations Sample.keen_ratings
               Sample.seven_movies "u1" 0
               (snd (collaborative_filtering_recommendations
                       Sample.keen_ratings "u1" 1 new_engine)))).
Proof.
  split; [reflexivity |].
  destruct (hybrid_limit_one_is_popularity Sample.keen_ratings
              Sample.seven_movies "u1" new_engine) as [E _].
  - vm_compute. lia.
  - rewrite E. vm_compute. reflexivity.
Defined.

(* ================================================================== *)
(** * The user-item matrix *)
(* ================================================================== *)

Lemma str_ltb_lt (a b : string) :
  String.ltb a b = true <-> OrderedTypeEx.String_as_OT.lt a b.
Proof.
  rewrite <- OrderedTypeEx.String_as_OT.cmp_lt.
  unfold String.ltb, OrderedTypeEx.String_as_OT.cmp.
  destruct (String.compare a b); split; congruence.
Qed.

Lemma str_ltb_trans (a b c : string) :
  String.ltb a b = true -> String.ltb b c = true -> String.ltb a c = true.
Proof.
  rewrite !str_ltb_lt. apply OrderedTypeEx.String_as_OT.lt_trans.
Qed.

Lemma str_ltb_neq (a b : string) : String.ltb a b = true -> a <> b.
Proof.
  rewrite str_ltb_lt. apply OrderedTypeEx.String_as_OT.lt_not_eq.
Qed.

Lemma str_ltb_total (a b : string) :
  String.eqb a b = false -> String.ltb a b = false -> String.ltb b a = true.
Proof.
  intros Hne Hlt. unfold String.ltb in *. rewrite String.compare_antisym.
  destruct (String.compare a b) eqn:E; simpl; try congruence.
  apply String.compare_eq_iff in E. apply String.eqb_neq in Hne. congruence.
Qed.

Lemma insert_uniq_In (x y : string) (l : list string) :
  In y (insert_uniq x l) <-> y = x \/ In y l.
Proof.
  induction l as [| z l IH]; simpl; [intuition |].
  destruct (String.eqb_spec x z) as [-> | Hne].
  - simpl. intuition.
  - destruct (String.ltb x z); simpl; [intuition |].
    rewrite IH. intuition.
Qed.

Lemma insert_uniq_ascending (x : string) (l : list string) :
  strictly_ascending l -> strictly_ascending (insert_uniq x l).
Proof.
  unfold strictly_ascending.
  induction 1 as [| z l Hs IH Hz]; simpl; [repeat constructor |].
  destruct (String.eqb x z) eqn:Eeq; [now constructor |].
  destruct (String.ltb x z) eqn:Elt.
  - constructor; [now constructor |].
    constructor; [exact Elt |].
    eapply Forall_impl; [| exact Hz]. intros w Hw.
    now apply str_ltb_trans with z.
  - constructor; [exact IH |].
    apply Forall_forall. intros w Hw. apply insert_uniq_In in Hw.
    destruct Hw as [-> | Hw].
    + now apply str_ltb_total.
    + rewrite Forall_forall in Hz. now apply Hz.
Qed.

Lemma sort_uniq_ascending (l : list string) :
  strictly_ascending (sort_uniq l).
Proof.
  induction l as [| x l IH]; simpl; [constructor |].
  now apply insert_uniq_ascending.
Qed.

Lemma sort_uniq_In (y : string) (l : list string) :
  In y (sort_uniq l) <-> In y l.
Proof.
  induction l as [| x l IH]; simpl; [tauto |].
  rewrite insert_uniq_In, IH. intuition.
Qed.

Lemma strictly_ascending_NoDup (l : list string) :
  strictly_ascending l -> NoDup l.
Proof.
  induction 1 as [| z l Hs IH Hz]; constructor; [| exact IH].
  intro Hin. rewrite Forall_forall in Hz.
  now apply (str_ltb_neq z z (Hz z Hin)).
Qed.

Lemma list_index_nth (x : string) (l : list string) (i : nat) :
  list_index x l = Some i -> (i < length l)%nat /\ nth i l "" = x.
Proof.
  revert i. induction l as [| y l IH]; intros i; simpl; [discriminate |].
  destruct (String.eqb_spec y x) as [-> | Hne].
  - intros [= <-]. split; [lia | reflexivity].
  - destruct (list_index x l) as [k |]; [| discriminate].
    intros [= <-]. destruct (IH k eq_refl). split; [lia | assumption].
Qed.

Lemma list_index_nth_error (x : string) (l : list string) (i : nat) :
  list_index x l = Some i -> nth_error l i = Some x.
Proof.
  revert i. induction l as [| y l IH]; intros i; simpl; [discriminate |].
  destruct (String.eqb_spec y x) as [-> | Hne].
  - now intros [= <-].
  - destruct (list_index x l) as [k |]; [| discriminate].
    intros [= <-]. now apply IH.
Qed.

Lemma list_index_In (x : string) (l : list string) :
  In x l -> exists i, list_index x l = Some i.
Proof.
  induction l as [| y l IH]; simpl; [tauto |].
  intros Hin. destruct (String.eqb_spec y x) as [-> | Hne]; [eauto |].
  destruct IH as [i ->]; [destruct Hin; congruence |]. simpl. eauto.
Qed.

(** X1.  The two axes of the matrix [build_user_item_matrix] builds are
    strictly ascending, so without repetition; a user is a row exactly
    when the snapshot has a rating by that user, a movie a column
    exactly when it has a rating of that movie. *)
Theorem pivot_table_axes (rs : list Rating) :
  strictly_ascending (index (pivot_table rs))
  /\ strictly_ascending (columns (pivot_table rs))
  /\ (forall u, In u (index (pivot_table rs))
                <-> exists r, In r rs /\ userId r = u)
  /\ (forall m, In m (columns (pivot_table rs))
                <-> exists r, In r rs /\ movieId r = m).
Proof.
  simpl. repeat split; try apply sort_uniq_ascending.
  - intros Hin. apply sort_uniq_In, in_map_iff in Hin.
    destruct Hin as [r [E Hr]]. eauto.
  - intros [r [Hr <-]]. apply sort_uniq_In. now apply in_map.
  - intros Hin. apply sort_uniq_In, in_map_iff in Hin.
    destruct Hin as [r [E Hr]]. eauto.
  - intros [r [Hr <-]]. apply sort_uniq_In. now apply in_map.
Qed.

Lemma pivot_loc (rs : list Rating) (u : string) :
  In u (index (pivot_table rs)) ->
  loc (pivot_table rs) u = map (pivot_cell rs u) (columns (pivot_table rs)).
Proof.
  intros Hin. unfold loc, pivot_table in *. cbn [values index columns] in *.
  destruct (list_index_In _ _ Hin) as [i E]. rewrite E.
  apply list_index_nth_error in E.
  apply nth_error_nth.
  exact (map_nth_error
           (fun u => map (pivot_cell rs u) (sort_uniq (map movieId rs)))
           i _ E).
Qed.

(** X2.  The matrix has one row per user and one cell per movie in each
    row; the row [.loc] returns for a user of the index holds, column
    by column, that user's cells. *)
Theorem pivot_table_rows (rs : list Rating) (u : string) :
  let m := pivot_table rs in
  length (values m) = length (index m)
  /\ Forall (fun row => length row = length (columns m)) (values m)
  /\ (In u (index m) -> loc m u = map (pivot_cell rs u) (columns m)).
Proof.
  cbv zeta. split; [apply length_map |]. split.
  - unfold pivot_table. cbn [values index columns].
    apply Forall_map, Forall_forall. intros x _. apply length_map.
  - apply pivot_loc.
Qed.

Lemma pivot_table_rows_witness :
  loc (pivot_table Sample.twin_ratings) "u2"
  = map (pivot_cell Sample.twin_ratings "u2")
        (columns (pivot_table Sample.twin_ratings)).
Proof.
  apply (pivot_table_rows Sample.twin_ratings "u2").
  simpl. tauto.
Defined.

Lemma pivot_cell_scores (rs : list Rating) (u m : string) :
  pivot_cell rs u m = fillna (np_mean (map Fin (scores_for rs u m))).
Proof. unfold pivot_cell, scores_for. now rewrite map_map. Qed.

Lemma fold_nadd_Fin (l : list Q) (a : Q) :
  exists q, fold_left nadd (map Fin l) (Fin a) = Fin q
            /\ (q == a + fold_right Qplus 0 l)%Q.
Proof.
  revert a. induction l as [| x l IH]; intros a; simpl.
  - exists a. split; [reflexivity | ring].
  - destruct (IH (Qred (a + x))) as [q [E Hq]]. exists q.
    split; [exact E |]. rewrite Hq, Qred_correct. ring.
Qed.

Lemma sum_positive (l : list Q) :
  l <> [] -> Forall (fun s => 0 < s)%Q l -> (0 < fold_right Qplus 0 l)%Q.
Proof.
  intros Hne Hl. induction Hl as [| x l Hx Hl IH]; [congruence |].
  simpl. destruct l as [| y l].
  - simpl. lra.
  - assert (0 < fold_right Qplus 0 (y :: l))%Q by (apply IH; discriminate).
    lra.
Qed.

(** The mean of a non-empty list of rationals, as a rational. *)
Lemma np_mean_Fin (l : list Q) :
  l <> [] ->
  exists q, np_mean (map Fin l) = Fin q
            /\ (q == fold_right Qplus 0 l
                     / inject_Z (Z.of_nat (length l)))%Q.
Proof.
  intros Hne. unfold np_mean, nsum.
  destruct (fold_nadd_Fin l 0) as [q [-> Hq]].
  rewrite length_map. destruct l as [| x l]; [congruence |].
  unfold of_nat, ndiv. cbn [length]. rewrite of_nat_succ_nonzero.
  eexists. split; [reflexivity |].
  rewrite Qred_correct, Hq. now rewrite Qplus_0_l.
Qed.

Lemma pivot_cell_positive (rs : list Rating) (u m : string) :
  scores_for rs u m <> [] ->
  Forall (fun s => 0 < s)%Q (scores_for rs u m) ->
  (0 < pivot_cell rs u m)%Q.
Proof.
  rewrite pivot_cell_scores. intros Hne Hpos.
  destruct (np_mean_Fin _ Hne) as [q [-> Hq]]. simpl. rewrite Hq.
  pose proof (sum_positive _ Hne Hpos) as Hsum.
  destruct (scores_for rs u m) as [| x l]; [congruence |].
  apply Qlt_shift_div_l; [| lra].
  unfold Qlt. simpl. lia.
Qed.

(** X3.  A cell of the matrix is 0 when the user has not rated the
    movie, equals the score when the user has rated it once, and is
    positive when all the scores the user gave it are. *)
Theorem pivot_cell_value (rs : list Rating) (u m : string) :
  (scores_for rs u m = [] -> pivot_cell rs u m = 0%Q)
  /\ (forall s, scores_for rs u m = [s] -> (pivot_cell rs u m == s)%Q)
  /\ (scores_for rs u m <> [] ->
      Forall (fun s => 0 < s)%Q (scores_for rs u m) ->
      (0 < pivot_cell rs u m)%Q).
Proof.
  repeat split.
  - rewrite pivot_cell_scores. intros ->. reflexivity.
  - rewrite pivot_cell_scores. intros s E. rewrite E.
    destruct (np_mean_Fin [s]) as [q [-> Hq]]; [discriminate |].
    simpl in *. rewrite Hq. field.
  - apply pivot_cell_positive.
Qed.

Lemma pivot_cell_value_witness :
  (pivot_cell Sample.keen_ratings "u2" "m7" == 4)%Q
  /\ (0 < pivot_cell Sample.keen_ratings "u2" "m7")%Q.
Proof.
  destruct (pivot_cell_value Sample.keen_ratings "u2" "m7")
    as [_ [Hone Hpos]].
  split.
  - apply Hone. reflexivity.
  - apply Hpos; [discriminate |]. repeat constructor.
Defined.

(* ================================================================== *)
(** * The content similarity matrix *)
(* ================================================================== *)

Lemma nmul_comm (a b : num) : nmul a b = nmul b a.
Proof.
  destruct a as [x |], b as [y |]; try reflexivity.
  unfold nmul. f_equal. apply Qred_complete, Qmult_comm.
Qed.

Lemma dot_comm (a b : list num) : dot a b = dot b a.
Proof.
  unfold dot. f_equal. revert b.
  induction a as [| x a IH]; intros [| y b]; simpl; try reflexivity.
  now rewrite IH, nmul_comm.
Qed.

Lemma cosine_similarity_shape `{NumLib} (X Y : list (list Q)) :
  length (cosine_similarity X Y) = length X
  /\ Forall (fun row => length row = length Y) (cosine_similarity X Y).
Proof.
  unfold cosine_similarity. split; [apply length_map |].
  apply Forall_map, Forall_forall. intros x _. apply length_map.
Qed.

Lemma sim_entry_outside `{NumLib} (X Y : list (list Q)) (i j : nat) :
  nth_error X i = None \/ nth_error Y j = None ->
  sim_entry (cosine_similarity X Y) i j = NaN.
Proof.
  destruct (cosine_similarity_shape X Y) as [Hlen Hrows].
  unfold sim_entry. intros [Hi | Hj].
  - apply nth_error_None in Hi. rewrite (nth_overflow _ []) by lia.
    now destruct j.
  - apply nth_error_None in Hj.
    destruct (Nat.lt_ge_cases i (length (cosine_similarity X Y)))
      as [Hlt | Hge].
    + apply nth_overflow. rewrite Forall_forall in Hrows.
      rewrite (Hrows (nth i (cosine_similarity X Y) [])); [lia |].
      now apply nth_In.
    + rewrite (nth_overflow _ []) by lia. now destruct j.
Qed.

(** The cosine similarities of rows among themselves form a square
    and symmetric matrix. *)
Lemma cosine_similarity_self `{NumLib} (X : list (list Q)) (i j : nat) :
  length (cosine_similarity X X) = length X
  /\ Forall (fun row => length row = length X) (cosine_similarity X X)
  /\ sim_entry (cosine_similarity X X) i j
     = sim_entry (cosine_similarity X X) j i.
Proof.
  destruct (cosine_similarity_shape X X) as [Hlen Hrows].
  split; [exact Hlen |]. split; [exact Hrows |].
  destruct (nth_error X i) as [x |] eqn:Ei.
  - destruct (nth_error X j) as [y |] eqn:Ej.
    + unfold sim_entry.
      rewrite (cosine_similarity_entry X X i j x y Ei Ej).
      rewrite (cosine_similarity_entry X X j i y x Ej Ei).
      apply dot_comm.
    + rewrite !sim_entry_outside; auto.
  - rewrite !sim_entry_outside; auto.
Qed.

(** X4.  When [build_content_features] returns a matrix, it has stored
    that matrix in the engine, and the matrix is square and symmetric:
    the similarity of movie [i] to movie [j] is that of [j] to [i]. *)
Theorem build_content_features_symmetric `{NumLib}
    (movies_cache : list Movie) (self self' : Engine)
    (sim : list (list num)) (i j : nat) :
  build_content_features movies_cache self = (Ok (Some sim), self') ->
  content_similarity_matrix self' = Some sim
  /\ user_item_matrix self' = user_item_matrix self
  /\ Forall (fun row => length row = length sim) sim
  /\ sim_entry sim i j = sim_entry sim j i.
Proof.
  unfold build_content_features.
  destruct movies_cache as [| mv mvs]; [discriminate |].
  destruct (tfidf_fit_transform _) as [X | e]; [| discriminate].
  intros [= <- <-]. cbn [content_similarity_matrix user_item_matrix].
  destruct (cosine_similarity_self X i j) as [Hlen [Hrows Hsym]].
  repeat split; try assumption. now rewrite Hlen.
Qed.

Lemma build_content_features_symmetric_witness :
  exists sim self',
    build_content_features Sample.two_movies new_engine
      = (Ok (Some sim), self')
    /\ sim_entry sim 0 1 = sim_entry sim 1 0.
Proof.
  eexists _, _. split; [vm_compute; reflexivity |].
  eapply (build_content_features_symmetric Sample.two_movies new_engine).
  vm_compute. reflexivity.
Defined.

(* ================================================================== *)
(** * More on the collaborative recommender *)
(* ================================================================== *)

Lemma dict_set_keys_In {V} (d : dict V) (k k' : string) (v : V) :
  In k (dict_keys (dict_set d k' v)) <-> k = k' \/ In k (dict_keys d).
Proof.
  destruct (in_dec string_dec k' (dict_keys d)) as [Hin | Hn].
  - rewrite dict_set_keys_present by assumption.
    split; [tauto | intros [-> | ?]; assumption].
  - rewrite dict_set_keys_absent by assumption.
    rewrite in_app_iff. simpl. intuition.
Qed.

Lemma dict_append_keys_In {V} (d : dict (list V)) (k k' : string) (x : V) :
  In k (dict_keys (dict_append d k' x)) <-> k = k' \/ In k (dict_keys d).
Proof.
  unfold dict_append. destruct (dict_get d k'); apply dict_set_keys_In.
Qed.

Lemma py_prefix_In {A} (n : Z) (l : list A) (x : A) :
  In x (py_prefix n l) -> In x l.
Proof.
  destruct (py_prefix_firstn n l) as [k ->]. intros Hin.
  rewrite <- (firstn_skipn k l). apply in_or_app. now left.
Qed.

(** The movies of a result are keys of the dictionary of scores. *)
Lemma top_items_ids_In (limit : Z) (d : dict num) (k : string) :
  In k (item_ids (top_items limit d)) -> In k (dict_keys d).
Proof.
  rewrite top_items_ids. intros Hin. apply in_map_iff in Hin.
  destruct Hin as [p [<- Hp]]. apply py_prefix_In in Hp.
  apply (Permutation_in _ (sort_by_perm _ d)) in Hp.
  now apply in_map.
Qed.

Lemma Qltb_lt (x y : Q) : Qltb x y = true <-> (x < y)%Q.
Proof.
  unfold Qltb. rewrite negb_true_iff. split.
  - intros E. apply Qnot_le_lt. intro Hle.
    apply Qle_bool_iff in Hle. congruence.
  - intros Hlt. destruct (Qle_bool y x) eqn:E; [| reflexivity].
    apply Qle_bool_iff in E. exfalso. now apply (Qlt_not_le x y).
Qed.

Section CollaborativeCandidates.

Context `{NumLib}.

Lemma cf_recommendations_candidates (m : DataFrame) (user_id : string) :
  Forall (cf_candidate m user_id)
    (dict_keys (cf_recommendations m user_id)).
Proof.
  unfold cf_recommendations.
  apply fold_left_inv; [constructor |].
  intros d idx Hidx Hd. unfold cf_collect_user.
  apply fold_left_inv; [exact Hd |].
  intros d' [k rating] Hp Hd'. cbn [fst snd].
  destruct (Qltb 0 rating) eqn:Epos; [| exact Hd'].
  destruct (str_in k _) eqn:Ein; [exact Hd' |]. cbn [negb andb].
  apply Forall_forall. intros k' Hk'.
  apply dict_append_keys_In in Hk'. destruct Hk' as [-> | Hk'].
  - split; [eapply in_combine_l; eauto |].
    split; [now apply str_in_false |].
    exists idx, rating. apply Qltb_lt in Epos. tauto.
  - rewrite Forall_forall in Hd'. now apply Hd'.
Qed.

Lemma cf_result_candidates (m : DataFrame) (user_id : string) (limit : Z)
    (res : list RecommendationItem) (k : string) :
  cf_result (Some m) user_id limit = Ok res ->
  In k (item_ids res) -> cf_candidate m user_id k.
Proof.
  unfold cf_result. intros [= <-].
  destruct (negb (str_in user_id (index m))); [intros [] |].
  intros Hin. apply top_items_ids_In in Hin.
  rewrite mean_scores_keys in Hin.
  pose proof (cf_recommendations_candidates m user_id) as Hall.
  rewrite Forall_forall in Hall. now apply Hall.
Qed.

End CollaborativeCandidates.

(** X5.  For a user who is not a row of the matrix in use, the
    collaborative recommender returns the empty result and raises
    nothing; on a fresh engine that is every user without a rating in
    a non-empty snapshot, and the matrix of the snapshot is cached. *)
Theorem collaborative_unknown_user `{NumLib} (ratings_cache : list Rating)
    (user_id : string) (limit : Z) (self : Engine) (m : DataFrame) :
  (matrix_in_use ratings_cache self = Some m -> ~ In user_id (index m) ->
   collaborative_filtering_recommendations ratings_cache user_id limit self
   = (Ok [], mkEngine (Some m) (content_similarity_matrix self)))
  /\ (ratings_cache <> [] ->
      (forall r, In r ratings_cache -> userId r <> user_id) ->
      collaborative_filtering_recommendations ratings_cache user_id limit
        new_engine
      = (Ok [], mkEngine (Some (pivot_table ratings_cache)) None)).
Proof.
  split.
  - intros Em Hn. rewrite collaborative_run, Em. unfold cf_result.
    apply str_in_false in Hn. now rewrite Hn.
  - intros Hne Hn. rewrite collaborative_run.
    unfold matrix_in_use. cbn [user_item_matrix content_similarity_matrix
                                 new_engine].
    destruct ratings_cache as [| r0 rs] eqn:E; [congruence |].
    rewrite <- E in *. unfold cf_result.
    assert (Hidx : str_in user_id (index (pivot_table ratings_cache)) = false).
    { apply str_in_false. intro Hin. cbn [pivot_table index] in Hin.
      apply sort_uniq_In, in_map_iff in Hin.
      destruct Hin as [r [Hu Hr]]. now apply (Hn r). }
    now rewrite Hidx.
Qed.

Lemma collaborative_unknown_user_witness :
  collaborative_filtering_recommendations Sample.twin_ratings "u9" 10
    new_engine
  = (Ok [], mkEngine (Some (pivot_table Sample.twin_ratings)) None).
Proof.
  pose proof (collaborative_unknown_user Sample.twin_ratings "u9" 10
                new_engine (pivot_table Sample.twin_ratings)) as [_ Hfresh].
  apply Hfresh; [discriminate |].
  intros r [<- | [<- | []]]; discriminate.
Defined.

(** X6.  Every movie of a collaborative result is a column of the
    matrix in use that the target user has not rated (its cell in the
    target's row is not positive) and that at least one of the
    neighbours has rated with a positive score. *)
Theorem collaborative_proposes_candidates `{NumLib}
    (ratings_cache : list Rating) (user_id : string) (limit : Z)
    (self self' : Engine) (res : list RecommendationItem) (k : string) :
  collaborative_filtering_recommendations ratings_cache user_id limit self
    = (Ok res, self') ->
  In k (item_ids res) ->
  exists m, user_item_matrix self' = Some m
            /\ matrix_in_use ratings_cache self = Some m
            /\ cf_candidate m user_id k.
Proof.
  rewrite collaborative_run. intros [= Hres <-] Hin.
  destruct (matrix_in_use ratings_cache self) as [m |] eqn:Em;
    [| discriminate].
  exists m. repeat split; try reflexivity.
  all: now apply (cf_result_candidates m user_id limit res k Hres).
Qed.

Lemma collaborative_proposes_candidates_witness :
  exists res self' m,
    collaborative_filtering_recommendations Sample.keen_ratings "u1" 10
      new_engine = (Ok res, self')
    /\ In "m6" (item_ids res)
    /\ user_item_matrix self' = Some m
    /\ cf_candidate m "u1" "m6".
Proof.
  destruct (collaborative_proposes_candidates Sample.keen_ratings "u1" 10
              new_engine
              (snd (collaborative_filtering_recommendations
                      Sample.keen_ratings "u1" 10 new_engine))
              (match fst (collaborative_filtering_recommendations
                            Sample.keen_ratings "u1" 10 new_engine) with
               | Ok res => res
               | Raise _ => []
               end) "m6") as [m [Hm [_ Hc]]].
  - vm_compute. reflexivity.
  - vm_compute. now left.
  - eexists _, _, m. split; [vm_compute; reflexivity |].
    split; [vm_compute; now left |]. split; assumption.
Defined.

Lemma scores_for_In (rs : list Rating) (u m : string) :
  scores_for rs u m <> [] ->
  exists r, In r rs /\ userId r = u /\ movieId r = m.
Proof.
  unfold scores_for. intros Hne.
  destruct (filter _ rs) as [| r l] eqn:E; [now simpl in Hne |].
  assert (Hr : In r (filter (fun r => String.eqb (userId r) u
                                      && String.eqb (movieId r) m) rs))
    by (rewrite E; now left).
  apply filter_In in Hr. destruct Hr as [Hr Hb].
  apply andb_true_iff in Hb. destruct Hb as [Hu Hm].
  apply String.eqb_eq in Hu, Hm. eauto.
Qed.

Lemma rated_columns_In (cols : list string) (f : string -> Q) (k : string) :
  In k cols -> (0 < f k)%Q ->
  In k (map fst (filter (fun p => Qltb 0 (snd p))
                        (combine cols (map f cols)))).
Proof.
  intros Hin Hpos. apply in_map_iff. exists (k, f k). split; [reflexivity |].
  apply filter_In. split; [| now apply Qltb_lt].
  clear Hpos. induction cols as [| c cols IH]; simpl in *; [tauto |].
  destruct Hin as [-> | Hin]; [now left | right; now apply IH].
Qed.

(** X7.  On a fresh engine the collaborative recommender never proposes
    a movie the target user has rated, as long as the scores the user
    gave it are positive (as every score from 1 to 5 is). *)
Theorem collaborative_never_proposes_rated `{NumLib}
    (ratings_cache : list Rating) (user_id movie : string) (limit : Z)
    (self' : Engine) (res : list RecommendationItem) :
  collaborative_filtering_recommendations ratings_cache user_id limit
    new_engine = (Ok res, self') ->
  scores_for ratings_cache user_id movie <> [] ->
  Forall (fun s => 0 < s)%Q (scores_for ratings_cache user_id movie) ->
  ~ In movie (item_ids res).
Proof.
  rewrite collaborative_run. intros [= Hres _] Hne Hpos Hin.
  destruct (scores_for_In _ _ _ Hne) as [r [Hr [Hu Hm]]].
  unfold matrix_in_use in Hres. cbn [user_item_matrix new_engine] in Hres.
  destruct ratings_cache as [| r0 rs] eqn:E; [destruct Hr |].
  rewrite <- E in *.
  destruct (cf_result_candidates _ _ _ _ _ Hres Hin) as [_ [Hnot _]].
  apply Hnot. unfold rated_columns.
  rewrite pivot_loc.
  - apply rated_columns_In; [| now apply pivot_cell_positive].
    cbn [pivot_table columns]. apply sort_uniq_In.
    rewrite <- Hm. now apply in_map.
  - cbn [pivot_table index]. apply sort_uniq_In.
    rewrite <- Hu. now apply in_map.
Qed.

Lemma collaborative_never_proposes_rated_witness :
  ~ In "m1"
      (item_ids
         (returned (collaborative_filtering_recommendations
                      Sample.keen_ratings "u1" 10 new_engine))).
Proof.
  apply (collaborative_never_proposes_rated Sample.keen_ratings "u1" "m1"
           10 (snd (collaborative_filtering_recommendations
                      Sample.keen_ratings "u1" 10 new_engine))).
  - vm_compute. reflexivity.
  - discriminate.
  - repeat constructor.
Defined.

(** ** The neighbours *)

Lemma NoDup_skipn {A} (k : nat) (l : list A) : NoDup l -> NoDup (skipn k l).
Proof.
  intros Hnd. rewrite <- (firstn_skipn k l) in Hnd.
  now apply NoDup_app_remove_l in Hnd.
Qed.

Lemma argsort_NoDup `{NumLib} (v : list num) : NoDup (argsort v).
Proof.
  apply (Permutation_NoDup (l := seq 0 (length v))).
  - symmetry. apply argsort_perm.
  - apply seq_NoDup.
Qed.

Lemma similar_users_idx_NoDup `{NumLib} (v : list num) :
  NoDup (similar_users_idx v).
Proof.
  unfold similar_users_idx.
  apply NoDup_firstn, NoDup_skipn, NoDup_rev, argsort_NoDup.
Qed.

Lemma similar_users_idx_count `{NumLib} (v : list num) :
  length (similar_users_idx v) = Nat.min 10 (length v - 1).
Proof.
  unfold similar_users_idx.
  rewrite length_firstn, length_skipn, length_rev.
  now rewrite (Permutation_length (argsort_perm v)), length_seq.
Qed.

(** X8.  The neighbours of the collaborative recommender are distinct
    rows of the matrix, and there are [min 10 (n - 1)] of them for a
    matrix of [n] rows: one row is always left out, and no more than
    10 are kept. *)
Theorem collaborative_neighbour_rows `{NumLib} (m : DataFrame)
    (user_id : string) :
  let idxs := similar_users_idx (cf_user_similarity m user_id) in
  NoDup idxs
  /\ length idxs = Nat.min 10 (length (values m) - 1)
  /\ Forall (fun idx => (idx < length (values m))%nat) idxs.
Proof.
  cbv zeta. split; [apply similar_users_idx_NoDup |].
  assert (Hlen : length (cf_user_similarity m user_id) = length (values m))
    by (rewrite cf_user_similarity_eq; apply length_map).
  split.
  - now rewrite similar_users_idx_count, Hlen.
  - apply Forall_forall. intros idx Hidx.
    apply similar_users_idx_bound in Hidx. now rewrite <- Hlen.
Qed.

Lemma ascending_all_equal (l : list string) (a : string) :
  strictly_ascending l -> (forall x, In x l -> x = a) ->
  (length l <= 1)%nat.
Proof.
  intros Hs Ha. apply strictly_ascending_NoDup in Hs.
  destruct l as [| x [| y l]]; simpl; try lia.
  exfalso. inversion Hs as [| ? ? Hnotin _]; subst. apply Hnotin.
  rewrite (Ha x), (Ha y); simpl; auto.
Qed.

Lemma cf_result_few_rows `{NumLib} (m : DataFrame) (user_id : string)
    (limit : Z) :
  (length (values m) <= 1)%nat -> cf_result (Some m) user_id limit = Ok [].
Proof.
  intros Hrows. unfold cf_result. f_equal.
  destruct (negb (str_in user_id (index m))); [reflexivity |].
  unfold cf_recommendations.
  destruct (similar_users_idx (cf_user_similarity m user_id))
    as [| idx idxs] eqn:E.
  - cbn [fold_left mean_scores map]. apply top_items_empty.
  - exfalso.
    assert (Hc : length (similar_users_idx (cf_user_similarity m user_id))
                 = Nat.min 10 (length (values m) - 1)).
    { rewrite similar_users_idx_count. f_equal. f_equal.
      rewrite cf_user_similarity_eq. apply length_map. }
    rewrite E in Hc. cbn [length] in Hc. lia.
Qed.

(** X9.  When all the ratings of the snapshot are by one user, the
    collaborative recommender on a fresh engine finds no neighbour and
    returns the empty result, for that user and for any other. *)
Theorem collaborative_single_user `{NumLib} (ratings_cache : list Rating)
    (only_user user_id : string) (limit : Z) :
  ratings_cache <> [] ->
  (forall r, In r ratings_cache -> userId r = only_user) ->
  collaborative_filtering_recommendations ratings_cache user_id limit
    new_engine
  = (Ok [], mkEngine (Some (pivot_table ratings_cache)) None).
Proof.
  intros Hne Hall. rewrite collaborative_run.
  unfold matrix_in_use. cbn [user_item_matrix content_similarity_matrix
                               new_engine].
  destruct ratings_cache as [| r0 rs] eqn:E; [congruence |].
  rewrite <- E in *. f_equal. apply cf_result_few_rows.
  unfold pivot_table. cbn [values]. rewrite length_map.
  apply (ascending_all_equal _ only_user); [apply sort_uniq_ascending |].
  intros x Hx. apply sort_uniq_In, in_map_iff in Hx.
  destruct Hx as [r [<- Hr]]. now apply Hall.
Qed.

Lemma collaborative_single_user_witness :
  collaborative_filtering_recommendations Sample.few_ratings "u3" 10
    new_engine
  = (Ok [], mkEngine (Some (pivot_table Sample.few_ratings)) None).
Proof.
  apply (collaborative_single_user Sample.few_ratings "u3" "u3" 10).
  - discriminate.
  - intros r [<- | [<- | []]]; reflexivity.
Defined.

(** ** The target among the neighbours *)

Section InsertSorted.

Context {A : Type} (before : A -> A -> bool) (S : A -> A -> Prop)
        (ok : A -> Prop).
Hypothesis before_true :
  forall x y, ok x -> ok y -> before y x = true -> S y x.
Hypothesis before_false :
  forall x y, ok x -> ok y -> before y x = false -> S x y.
Hypothesis S_trans :
  forall x y z, ok x -> ok y -> ok z -> S x y -> S y z -> S x z.

Lemma insert_by_sorted (x : A) (l : list A) :
  ok x -> Forall ok l -> StronglySorted S l ->
  StronglySorted S (insert_by before x l).
Proof.
  intros Hx Hl Hs. induction Hs as [| y ys Hs IH Hy]; simpl.
  - constructor; constructor.
  - inversion Hl as [| ? ? Hoky Hokys]; subst.
    destruct (before y x) eqn:E.
    + constructor; [now apply IH |].
      eapply Permutation_Forall; [symmetry; apply insert_by_perm |].
      constructor; [| exact Hy]. now apply before_true.
    + assert (Sxy : S x y) by now apply before_false.
      constructor; [now constructor |].
      constructor; [exact Sxy |].
      rewrite Forall_forall in *. intros z Hz.
      apply (S_trans x y z); auto.
Qed.

Lemma sort_by_sorted (l : list A) :
  Forall ok l -> StronglySorted S (sort_by before l).
Proof.
  induction 1 as [| x l Hx Hl IH]; simpl; [constructor |].
  apply insert_by_sorted; [exact Hx | | exact IH].
  now apply sort_by_Forall.
Qed.

End InsertSorted.

Lemma StronglySorted_after {A} (S : A -> A -> Prop) (l1 l2 : list A)
    (x : A) :
  StronglySorted S (l1 ++ x :: l2) -> Forall (S x) l2.
Proof.
  induction l1 as [| y l1 IH]; simpl; intros Hs;
    inversion Hs; subst; auto.
Qed.

(** [argsort] lists the positions by value, ascending. *)
Lemma argsort_ascending `{NumLib} (v : list num) :
  all_finite v ->
  StronglySorted (fun i j => ngeb (nth j v NaN) (nth i v NaN) = true)
    (argsort v).
Proof.
  intros Hv. unfold argsort.
  apply (sort_by_sorted _ _ (fun i => (i < length v)%nat)).
  - intros x y _ _ E. now apply ngeb_of_lt.
  - intros x y Hx Hy E. unfold all_finite in Hv. rewrite Forall_forall in Hv.
    apply ngeb_of_not_lt; auto using nth_In.
  - intros x y z _ _ _ Hxy Hyz. now apply ngeb_trans with (nth y v NaN).
  - apply Forall_forall. intros i Hi. now apply index_order_In in Hi.
Qed.

(** A position whose value is strictly above all the others comes last
    in [argsort], first after the reversal, and is the one dropped. *)
Lemma similar_users_idx_drops_maximum `{NumLib} (v : list num) (t : nat) :
  all_finite v -> (t < length v)%nat ->
  (forall j, (j < length v)%nat -> j <> t ->
             nltb (nth j v NaN) (nth t v NaN) = true) ->
  ~ In t (similar_users_idx v).
Proof.
  intros Hv Ht Hmax.
  assert (Hin : In t (argsort v)).
  { apply (Permutation_in _ (Permutation_sym (argsort_perm v))).
    apply in_seq. lia. }
  destruct (in_split _ _ Hin) as [l1 [l2 E]].
  pose proof (argsort_ascending v Hv) as Hs.
  pose proof (argsort_NoDup v) as Hnd.
  rewrite E in Hs, Hnd.
  assert (Hl2 : l2 = []).
  { destruct l2 as [| z l2]; [reflexivity |]. exfalso.
    pose proof (StronglySorted_after _ _ _ _ Hs) as Hafter.
    inversion Hafter as [| ? ? Hz _]; subst.
    assert (Hzin : In z (argsort v))
      by (rewrite E; apply in_or_app; right; right; now left).
    apply (Permutation_in _ (argsort_perm v)) in Hzin.
    apply in_seq in Hzin.
    assert (Hzt : z <> t).
    { intros ->. apply NoDup_remove_2 in Hnd. apply Hnd.
      apply in_or_app. right. now left. }
    specialize (Hmax z ltac:(lia) Hzt).
    destruct (nth z v NaN) as [a |], (nth t v NaN) as [b |];
      simpl in *; try discriminate.
    rewrite Hz in Hmax. discriminate. }
  subst l2. unfold similar_users_idx. rewrite E, rev_app_distr.
  cbn [rev app skipn]. intros Hfirst.
  apply NoDup_remove_2 in Hnd. apply Hnd. rewrite app_nil_r.
  apply in_rev. rewrite <- (firstn_skipn 10 (rev l1)).
  apply in_or_app. now left.
Qed.

(** X10.  When no other row ties with it, that is, when every other
    row's similarity to the target's row is strictly below the
    target's own, the target user is not among the neighbours. *)
Theorem target_excluded_without_tie `{NumLib} (m : DataFrame)
    (user_id : string) (t : nat) :
  list_index user_id (index m) = Some t ->
  NoDup (index m) ->
  length (values m) = length (index m) ->
  (forall j, (j < length (values m))%nat -> j <> t ->
     nltb (nth j (cf_user_similarity m user_id) NaN)
          (nth t (cf_user_similarity m user_id) NaN) = true) ->
  ~ In t (similar_users_idx (cf_user_similarity m user_id))
  /\ ~ In user_id (cf_neighbours m user_id).
Proof.
  intros Ht Hnd Hshape Hmax.
  destruct (list_index_nth _ _ _ Ht) as [Hlt Hnth].
  assert (Hlen : length (cf_user_similarity m user_id) = length (values m))
    by (rewrite cf_user_similarity_eq; apply length_map).
  assert (Hout : ~ In t (similar_users_idx (cf_user_similarity m user_id))).
  { apply similar_users_idx_drops_maximum.
    - apply cf_user_similarity_finite.
    - lia.
    - intros j Hj. apply Hmax. lia. }
  split; [exact Hout |].
  unfold cf_neighbours. intros Hin. apply in_map_iff in Hin.
  destruct Hin as [idx [Hidx Hin]]. apply Hout.
  pose proof (similar_users_idx_bound _ _ Hin) as Hb.
  assert (idx = t); [| now subst].
  apply (proj1 (NoDup_nth (index m) "") Hnd); try lia. congruence.
Qed.

Lemma target_excluded_without_tie_witness :
  ~ In "u1" (cf_neighbours (pivot_table Sample.keen_ratings) "u1").
Proof.
  apply (target_excluded_without_tie (pivot_table Sample.keen_ratings)
           "u1" 0).
  - reflexivity.
  - vm_compute. repeat (constructor; [simpl; intuition discriminate |]).
    constructor.
  - reflexivity.
  - intros [| [| j]] Hj Hne; try congruence.
    + vm_compute. reflexivity.
    + vm_compute in Hj. lia.
Defined.

(* ================================================================== *)
(** * The caches of the engine *)
(* ================================================================== *)

(** X11.  A cached matrix is never rebuilt.  With a user-item matrix in
    the engine, the collaborative recommender returns the same for any
    two rating snapshots: ratings that arrived after the matrix was
    built have no effect.  With a similarity matrix in the engine, the
    content recommender leaves the engine as it found it. *)
Theorem cached_matrices_are_kept `{NumLib}
    (ratings ratings' : list Rating) (movies_cache : list Movie)
    (m : DataFrame) (sim : option (list (list num)))
    (rows : list (list num)) (matrix : option DataFrame)
    (user_id : string) (limit : Z) :
  collaborative_filtering_recommendations ratings user_id limit
    (mkEngine (Some m) sim)
  = collaborative_filtering_recommendations ratings' user_id limit
      (mkEngine (Some m) sim)
  /\ snd (collaborative_filtering_recommendations ratings user_id limit
            (mkEngine (Some m) sim)) = mkEngine (Some m) sim
  /\ snd (content_based_recommendations ratings movies_cache user_id limit
            (mkEngine matrix (Some rows))) = mkEngine matrix (Some rows).
Proof.
  rewrite !collaborative_run, content_run. repeat split.
Qed.

(* ================================================================== *)
(** * More on the content recommender *)
(* ================================================================== *)

(** X12.  The content recommender builds the similarity matrix before
    it looks at the user: when the vectorizer raises, it raises for
    every user; when a matrix is available, a user without a rating of
    4 or more (in particular a user without ratings) gets the empty
    result. *)
Theorem content_without_liked_movies `{NumLib}
    (ratings_cache : list Rating) (movies_cache : list Movie)
    (user_id : string) (limit : Z) (self : Engine) :
  (forall e, sim_in_use movies_cache self = Raise e ->
     content_based_recommendations ratings_cache movies_cache user_id limit
       self = (Raise e, self))
  /\ (forall sim, sim_in_use movies_cache self = Ok sim ->
        liked_movies_of ratings_cache user_id = [] ->
        content_based_recommendations ratings_cache movies_cache user_id
          limit self = (Ok [], mkEngine (user_item_matrix self) sim)).
Proof.
  split.
  - intros e E. now rewrite content_run, E.
  - intros sim E Hliked. rewrite content_run, E. unfold content_result.
    rewrite Hliked. cbn [is_empty].
    now destruct (is_empty (ratings_of ratings_cache user_id)).
Qed.

Lemma content_without_liked_movies_witness :
  content_based_recommendations Sample.lukewarm_ratings Sample.seven_movies
    "u1" 5 new_engine
  = (Ok [], snd (build_content_features Sample.seven_movies new_engine))
  /\ content_based_recommendations Sample.lukewarm_ratings
       [Sample.movie "m1" ""] "u1" 5 new_engine
     = (Raise ValueError, new_engine).
Proof.
  split.
  - pose proof (content_without_liked_movies Sample.lukewarm_ratings
                  Sample.seven_movies "u1" 5 new_engine) as [_ Hok].
    rewrite (Hok (match sim_in_use Sample.seven_movies new_engine with
                  | Ok sim => sim
                  | Raise _ => None
                  end)).
    + vm_compute. reflexivity.
    + vm_compute. reflexivity.
    + reflexivity.
  - pose proof (content_without_liked_movies Sample.lukewarm_ratings
                  [Sample.movie "m1" ""] "u1" 5 new_engine) as [Hraise _].
    apply Hraise. reflexivity.
Defined.

Section ContentCandidates.

Variable movie_ids rated : list string.

Local Notation "'candidate'" :=
  (content_candidate movie_ids rated) (only parsing).

Lemma content_collect_row_candidates (liked : string) (row : list num)
    (d d' : dict (list num)) :
  Forall candidate (dict_keys d) ->
  content_collect_row movie_ids rated liked row d = Ok d' ->
  Forall candidate (dict_keys d').
Proof.
  intros Hd. unfold content_collect_row.
  apply (for_each_inv (fun d => Forall candidate (dict_keys d)));
    [exact Hd |].
  intros a p a' _ Ha.
  destruct (nth_error movie_ids (fst p)) as [k |] eqn:Ek; [| discriminate].
  destruct (negb (String.eqb k liked)); cbn [andb];
    [| now intros [= <-]].
  destruct (str_in k rated) eqn:Er; cbn [negb]; intros [= <-]; [exact Ha |].
  apply Forall_forall. intros k' Hk'.
  apply dict_append_keys_In in Hk'. destruct Hk' as [-> | Hk'].
  - split; [eapply nth_error_In; eauto | now apply str_in_false].
  - rewrite Forall_forall in Ha. now apply Ha.
Qed.

Lemma content_collect_candidates (sim : option (list (list num)))
    (liked : list string) (d : dict (list num)) :
  content_collect sim movie_ids rated liked = Ok d ->
  Forall candidate (dict_keys d).
Proof.
  unfold content_collect.
  apply (for_each_inv (fun d => Forall candidate (dict_keys d)));
    [constructor |].
  intros a x a' _ Ha. destruct (str_in x movie_ids).
  - destruct (list_index x movie_ids); [| discriminate].
    destruct sim as [rows |]; [| discriminate].
    destruct (nth_error rows n); [| discriminate].
    now apply content_collect_row_candidates.
  - now intros [= <-].
Qed.

End ContentCandidates.

(** X13.  Every movie of a content result is a movie of the current
    movie snapshot that the user has not rated, whatever the score of
    the rating. *)
Theorem content_proposes_unrated_movies `{NumLib}
    (ratings_cache : list Rating) (movies_cache : list Movie)
    (user_id : string) (limit : Z) (self self' : Engine)
    (res : list RecommendationItem) (k : string) :
  content_based_recommendations ratings_cache movies_cache user_id limit
    self = (Ok res, self') ->
  In k (item_ids res) ->
  In k (map movie_id movies_cache)
  /\ ~ In k (map movieId (ratings_of ratings_cache user_id)).
Proof.
  rewrite content_run.
  destruct (sim_in_use movies_cache self) as [sim |]; [| discriminate].
  intros [= Hres _] Hin. unfold content_result in Hres.
  destruct (is_empty (ratings_of _ _)); [injection Hres as <-; destruct Hin |].
  destruct (is_empty (liked_movies_of _ _));
    [injection Hres as <-; destruct Hin |].
  destruct (content_collect _ _ _ _) as [d |] eqn:E; [| discriminate].
  injection Hres as <-. apply top_items_ids_In in Hin.
  rewrite mean_scores_keys in Hin.
  apply content_collect_candidates in E. rewrite Forall_forall in E.
  now apply E.
Qed.

Lemma content_proposes_unrated_movies_witness :
  In "m6" (map movie_id Sample.seven_movies)
  /\ ~ In "m6" (map movieId (ratings_of Sample.keen_ratings "u1")).
Proof.
  apply (content_proposes_unrated_movies Sample.keen_ratings
           Sample.seven_movies "u1" 5 new_engine
           (snd (content_based_recommendations Sample.keen_ratings
                   Sample.seven_movies "u1" 5 new_engine))
           (returned (content_based_recommendations Sample.keen_ratings
                        Sample.seven_movies "u1" 5 new_engine))).
  - vm_compute. reflexivity.
  - vm_compute. now left.
Defined.


Lemma liked_movies_need_ratings (ratings_cache : list Rating)
    (user_id : string) :
  liked_movies_of ratings_cache user_id <> [] ->
  is_empty (ratings_of ratings_cache user_id) = false
  /\ is_empty (liked_movies_of ratings_cache user_id) = false.
Proof.
  unfold liked_movies_of. intros Hne.
  destruct (ratings_of ratings_cache user_id) as [| r rs];
    [now simpl in Hne |].
  split; [reflexivity |]. now destruct (map movieId _).
Qed.



Lemma for_each_raises {A B} (l : list B) (init : A)
    (body : A -> B -> result A) (e : exn) (x : B) :
  In x l -> (forall a, body a x = Raise e) ->
  (forall a y e', body a y = Raise e' -> e' = e) ->
  for_each l init body = Raise e.
Proof.
  unfold for_each. intros Hin Hx Honly. revert init.
  induction l as [| y l IH]; intros init; [destruct Hin |].
  simpl. destruct (body init y) as [a' | e'] eqn:E.
  - destruct Hin as [-> | Hin]; [rewrite Hx in E; discriminate |].
    now apply IH.
  - rewrite (Honly _ _ _ E). apply for_each_raise.
Qed.

Lemma for_each_raise_inv {A B} (l : list B) (init : A)
    (body : A -> B -> result A) (e : exn) :
  for_each l init body = Raise e ->
  exists a x, In x l /\ body a x = Raise e.
Proof.
  unfold for_each. revert init.
  induction l as [| y l IH]; intros init; simpl; [discriminate |].
  destruct (body init y) as [a' | e'] eqn:E.
  - intros Hr. destruct (IH _ Hr) as [a [x [Hx Hb]]].
    exists a, x. split; [now right | exact Hb].
  - rewrite for_each_raise. intros [= <-]. exists init, y.
    split; [now left | exact E].
Qed.

Lemma content_collect_row_raises (movie_ids rated : list string)
    (liked : string) (row : list num) (d : dict (list num)) (e : exn) :
  content_collect_row movie_ids rated liked row d = Raise e ->
  e = IndexError.
Proof.
  unfold content_collect_row. intros Hr.
  apply for_each_raise_inv in Hr. destruct Hr as [a [p [_ Hb]]].
  destruct (nth_error movie_ids (fst p)); [| congruence].
  destruct (_ && _); discriminate.
Qed.

(** X15.  The similarity matrix is read at the position a liked movie
    has in the current movie snapshot: with a cached matrix that has no
    row at the position of one of the user's liked movies (a matrix
    built from an earlier, shorter snapshot), the content recommender
    raises [IndexError]. *)
Theorem content_stale_matrix_raises `{NumLib}
    (ratings_cache : list Rating) (movies_cache : list Movie)
    (user_id : string) (limit : Z) (matrix : option DataFrame)
    (rows : list (list num)) (k : string) (i : nat) :
  In k (liked_movies_of ratings_cache user_id) ->
  list_index k (map movie_id movies_cache) = Some i ->
  (length rows <= i)%nat ->
  content_based_recommendations ratings_cache movies_cache user_id limit
    (mkEngine matrix (Some rows))
  = (Raise IndexError, mkEngine matrix (Some rows)).
Proof.
  intros Hk Hi Hrows. rewrite content_run.
  cbn [sim_in_use content_similarity_matrix user_item_matrix].
  f_equal. unfold content_result.
  destruct (liked_movies_need_ratings ratings_cache user_id) as [-> ->];
    [intro E; rewrite E in Hk; destruct Hk |].
  unfold content_collect.
  rewrite (for_each_raises _ _ _ IndexError k Hk); [reflexivity | |].
  - intros a. destruct (list_index_nth _ _ _ Hi) as [Hlt Hnth].
    assert (Hin : str_in k (map movie_id movies_cache) = true).
    { apply str_in_true. rewrite <- Hnth. now apply nth_In. }
    rewrite Hin, Hi.
    now rewrite (proj2 (nth_error_None rows i) Hrows).
  - intros a y e'. destruct (str_in y _) eqn:Ein; [| discriminate].
    apply str_in_true in Ein. destruct (list_index_In _ _ Ein) as [n ->].
    destruct (nth_error rows n); [| now intros [= <-]].
    apply content_collect_row_raises.
Qed.

Lemma content_stale_matrix_raises_witness :
  content_based_recommendations Sample.keen_ratings Sample.seven_movies
    "u1" 5 (mkEngine None (Some [[Fin 1; Fin 0]; [Fin 0; Fin 1]]))
  = (Raise IndexError,
     mkEngine None (Some [[Fin 1; Fin 0]; [Fin 0; Fin 1]])).
Proof.
  apply (content_stale_matrix_raises Sample.keen_ratings
           Sample.seven_movies "u1" 5 None _ "m3" 2).
  - simpl. tauto.
  - reflexivity.
  - simpl. lia.
Defined.

(* ================================================================== *)
(** * More on the popularity fallback *)
(* ================================================================== *)

Lemma fold_dict_append_keys {V} (f : Rating -> V) (rs : list Rating)
    (d : dict (list V)) (k : string) :
  In k (dict_keys (fold_left (fun d r => dict_append d (movieId r) (f r))
                             rs d))
  <-> In k (dict_keys d) \/ exists r, In r rs /\ movieId r = k.
Proof.
  revert d. induction rs as [| r rs IH]; intros d; simpl.
  - split; [tauto | intros [? | [? [[] _]]]; assumption].
  - rewrite IH, dict_append_keys_In. split.
    + intros [[-> | Hk] | [r' [Hr' E]]]; eauto.
    + intros [Hk | [r' [[<- | Hr'] E]]]; eauto.
Qed.

Lemma sort_by_map_In {A B} (f : A -> B) (before : A -> A -> bool)
    (l : list A) (y : B) :
  In y (map f (sort_by before l)) <-> In y (map f l).
Proof.
  split; apply Permutation_in, Permutation_map;
    [| symmetry]; apply sort_by_perm.
Qed.

Section PopularityEntries.

Context `{NumLib}.
Variable ratings_cache : list Rating.
Variable movies_cache : list Movie.

Lemma popular_movies_ids (k : string) :
  In k (item_ids (popular_movies ratings_cache))
  <-> exists r, In r ratings_cache /\ movieId r = k.
Proof.
  unfold popular_movies, item_ids, sorted_desc.
  rewrite sort_by_map_In, map_map. cbn [item_movieId].
  change (map (fun p => fst p) (movie_popularity ratings_cache))
    with (dict_keys (movie_popularity ratings_cache)).
  unfold movie_popularity. rewrite fold_dict_append_keys. simpl.
  split; [intros [[] | ?]; assumption | now right].
Qed.

Lemma unrated_movies_entry (rated : list string) (it : RecommendationItem) :
  In it (unrated_movies movies_cache rated) ->
  item_score it = DEFAULT_SCORE
  /\ In (item_movieId it) (map movie_id movies_cache)
  /\ ~ In (item_movieId it) rated.
Proof.
  unfold unrated_movies. intros Hin. apply in_map_iff in Hin.
  destruct Hin as [mv [<- Hmv]]. apply filter_In in Hmv.
  destruct Hmv as [Hmv Hr]. cbn [item_score item_movieId].
  split; [reflexivity |]. split; [now apply in_map |].
  now apply str_in_false, negb_true_iff.
Qed.

Lemma popular_filled_entry (limit : Z) (it : RecommendationItem) :
  In it (popular_filled ratings_cache movies_cache limit) ->
  (exists r, In r ratings_cache /\ movieId r = item_movieId it)
  \/ (item_score it = DEFAULT_SCORE
      /\ In (item_movieId it) (map movie_id movies_cache)
      /\ forall r, In r ratings_cache -> movieId r <> item_movieId it).
Proof.
  unfold popular_filled.
  assert (Hrated : In it (popular_movies ratings_cache) ->
            exists r, In r ratings_cache /\ movieId r = item_movieId it).
  { intros Hin. apply popular_movies_ids. unfold item_ids. now apply in_map. }
  destruct (_ <? _); [| intros Hin; left; now apply Hrated].
  intros Hin. apply in_app_or in Hin. destruct Hin as [Hin | Hin];
    [left; now apply Hrated | right].
  apply unrated_movies_entry in Hin. destruct Hin as [Hs [Hm Hn]].
  repeat split; try assumption.
  intros r Hr E. apply Hn.
  change (map item_movieId (popular_movies ratings_cache))
    with (item_ids (popular_movies ratings_cache)).
  apply popular_movies_ids. eauto.
Qed.

End PopularityEntries.

(** X16.  Every entry of the popularity fallback's result is either a
    movie that has a rating in the snapshot (whether or not the movie
    snapshot lists it), or a movie of the movie snapshot without any
    rating, which then carries the default score 2.5. *)
Theorem popularity_entries `{NumLib} (ratings_cache : list Rating)
    (movies_cache : list Movie) (limit : Z) (it : RecommendationItem) :
  In it (get_popular_movies_fallback ratings_cache movies_cache limit) ->
  (exists r, In r ratings_cache /\ movieId r = item_movieId it)
  \/ (item_score it = DEFAULT_SCORE
      /\ In (item_movieId it) (map movie_id movies_cache)
      /\ forall r, In r ratings_cache -> movieId r <> item_movieId it).
Proof.
  rewrite get_popular_movies_fallback_eq.
  destruct (is_empty movies_cache); [intros [] |].
  intros Hin. apply py_prefix_In in Hin.
  now apply (popular_filled_entry ratings_cache movies_cache limit).
Qed.

Lemma popularity_entries_witness :
  (exists r, In r Sample.one_poor_rating /\ movieId r = "m2")
  \/ (item_score (mkItem "m2" DEFAULT_SCORE) = DEFAULT_SCORE
      /\ In "m2" (map movie_id Sample.two_movies)
      /\ forall r, In r Sample.one_poor_rating -> movieId r <> "m2").
Proof.
  apply (popularity_entries Sample.one_poor_rating Sample.two_movies 2
           (mkItem "m2" DEFAULT_SCORE)).
  vm_compute. right. now left.
Defined.

(** X17.  With a non-empty movie snapshot and at least [limit] rated
    movies, the popularity fallback returns exactly the [limit] best
    rated movies: no unrated movie is added. *)
Theorem popularity_rated_only `{NumLib} (ratings_cache : list Rating)
    (movies_cache : list Movie) (limit : Z) :
  movies_cache <> [] ->
  0 <= limit <= Z.of_nat (length (popular_movies ratings_cache)) ->
  get_popular_movies_fallback ratings_cache movies_cache limit
  = firstn (Z.to_nat limit) (popular_movies ratings_cache)
  /\ Z.of_nat (length (get_popular_movies_fallback ratings_cache
                         movies_cache limit)) = limit.
Proof.
  intros Hm Hl. rewrite get_popular_movies_fallback_eq.
  destruct movies_cache as [| mv mvs]; [congruence |]. cbn [is_empty].
  unfold popular_filled.
  destruct (Z.ltb_spec (Z.of_nat (length (popular_movies ratings_cache)))
              limit); [lia |].
  unfold py_prefix. destruct (Z.ltb_spec limit 0); [lia |].
  split; [reflexivity |]. rewrite length_firstn. lia.
Qed.

Lemma popularity_rated_only_witness :
  get_popular_movies_fallback Sample.keen_ratings Sample.seven_movies 3
  = firstn 3 (popular_movies Sample.keen_ratings).
Proof.
  apply (popularity_rated_only Sample.keen_ratings Sample.seven_movies 3).
  - discriminate.
  - vm_compute. split; discriminate.
Defined.

(** X18.  With a non-empty movie snapshot and a limit at least the
    number of rated movies plus the number of unrated movies of the
    snapshot, the popularity fallback returns all of them: its length
    is their number, at most [limit] and below it when there are fewer
    of them, and every movie of the snapshot is in the result. *)
Theorem popularity_returns_everything `{NumLib}
    (ratings_cache : list Rating) (movies_cache : list Movie) (limit : Z) :
  let popular := popular_movies ratings_cache in
  let unrated := unrated_movies movies_cache (item_ids popular) in
  movies_cache <> [] ->
  Z.of_nat (length popular) < limit ->
  Z.of_nat (length popular + length unrated) <= limit ->
  get_popular_movies_fallback ratings_cache movies_cache limit
  = popular ++ unrated
  /\ (forall movie, In movie movies_cache ->
        In (movie_id movie)
           (item_ids (get_popular_movies_fallback ratings_cache movies_cache
                        limit)))
  /\ length (get_popular_movies_fallback ratings_cache movies_cache limit)
     = (length popular + length unrated)%nat.
Proof.
  cbv zeta. intros Hm Hlt Hall.
  assert (E : get_popular_movies_fallback ratings_cache movies_cache limit
              = popular_movies ratings_cache
                ++ unrated_movies movies_cache
                     (item_ids (popular_movies ratings_cache))).
  { rewrite get_popular_movies_fallback_eq.
    destruct movies_cache as [| mv mvs]; [congruence |]. cbn [is_empty].
    unfold popular_filled.
    destruct (Z.ltb_spec (Z.of_nat (length (popular_movies ratings_cache)))
                limit); [| lia].
    unfold py_prefix. destruct (Z.ltb_spec limit 0); [lia |].
    apply firstn_all2. rewrite length_app.
    unfold item_ids in *. lia. }
  split; [exact E |]. split; [| now rewrite E, length_app].
  intros movie Hin. rewrite E. unfold item_ids at 1. rewrite map_app.
  apply in_or_app.
  destruct (str_in (movie_id movie) (item_ids (popular_movies ratings_cache)))
    eqn:Er.
  - left. now apply str_in_true.
  - right.
    change (map item_movieId (unrated_movies movies_cache
              (item_ids (popular_movies ratings_cache))))
      with (item_ids (unrated_movies movies_cache
              (item_ids (popular_movies ratings_cache)))).
    rewrite unrated_movies_ids. apply in_map. apply filter_In.
    split; [exact Hin | now rewrite Er].
Qed.

Lemma popularity_returns_everything_witness :
  (get_popular_movies_fallback Sample.one_poor_rating Sample.two_movies 10
   = popular_movies Sample.one_poor_rating
     ++ unrated_movies Sample.two_movies
          (item_ids (popular_movies Sample.one_poor_rating)))
  /\ length (get_popular_movies_fallback Sample.one_poor_rating
               Sample.two_movies 2) = 2%nat.
Proof.
  split.
  - apply (popularity_returns_everything Sample.one_poor_rating
             Sample.two_movies 10).
    + discriminate.
    + vm_compute. reflexivity.
    + vm_compute. discriminate.
  - destruct (popularity_returns_everything Sample.one_poor_rating
                Sample.two_movies 2) as [_ [_ Hlen]].
    + discriminate.
    + vm_compute. reflexivity.
    + vm_compute. discriminate.
    + rewrite Hlen. reflexivity.
Defined.

Lemma rated_snapshot_movies_count `{NumLib} (ratings_cache : list Rating)
    (movies_cache : list Movie) :
  NoDup (map movie_id movies_cache) ->
  let popular := popular_movies ratings_cache in
  (length movies_cache
   <= length popular
      + length (unrated_movies movies_cache (map item_movieId popular)))%nat.
Proof.
  intros Hnd. cbv zeta.
  set (rated := map item_movieId (popular_movies ratings_cache)).
  set (f := fun movie => negb (str_in (movie_id movie) rated)).
  rewrite <- (filter_length f movies_cache).
  unfold unrated_movies. rewrite length_map. fold f.
  assert (Hle : (length (filter (fun x => negb (f x)) movies_cache)
                 <= length (popular_movies ratings_cache))%nat).
  { rewrite <- (length_map movie_id).
    replace (length (popular_movies ratings_cache)) with (length rated)
      by apply length_map.
    apply NoDup_incl_length; [now apply NoDup_map_filter |].
    intros k Hk. apply in_map_iff in Hk. destruct Hk as [mv [<- Hmv]].
    apply filter_In in Hmv. destruct Hmv as [_ Hb]. unfold f in Hb.
    rewrite negb_involutive in Hb. now apply str_in_true. }
  lia.
Qed.

(** X19.  When the ids of the movie snapshot are pairwise distinct and
    the limit is at most the number of its movies, the popularity
    fallback returns exactly [limit] entries. *)
Theorem popularity_full_length `{NumLib} (ratings_cache : list Rating)
    (movies_cache : list Movie) (limit : Z) :
  NoDup (map movie_id movies_cache) ->
  0 <= limit <= Z.of_nat (length movies_cache) ->
  Z.of_nat (length (get_popular_movies_fallback ratings_cache movies_cache
                      limit)) = limit.
Proof.
  intros Hnd Hl. rewrite get_popular_movies_fallback_eq.
  pose proof (rated_snapshot_movies_count ratings_cache movies_cache Hnd)
    as Hcount. cbv zeta in Hcount.
  destruct movies_cache as [| mv mvs] eqn:Em.
  { simpl in *. lia. }
  assert (Ee : is_empty movies_cache = false) by now rewrite Em.
  rewrite <- Em in *. rewrite Ee. unfold popular_filled.
  unfold py_prefix. destruct (Z.ltb_spec limit 0); [lia |].
  destruct (Z.ltb_spec (Z.of_nat (length (popular_movies ratings_cache)))
              limit).
  - rewrite length_firstn, length_app. lia.
  - rewrite length_firstn. lia.
Qed.

Lemma popularity_full_length_witness :
  Z.of_nat (length (get_popular_movies_fallback Sample.one_poor_rating
                      Sample.two_movies 2)) = 2.
Proof.
  apply (popularity_full_length Sample.one_poor_rating Sample.two_movies 2).
  - simpl. repeat (constructor; [simpl; intuition discriminate |]).
    constructor.
  - simpl. lia.
Defined.

(* ================================================================== *)
(** * More on the hybrid recommender *)
(* ================================================================== *)

Lemma popularity_not_nil `{NumLib} (ratings_cache : list Rating)
    (movies_cache : list Movie) (limit : Z) :
  1 <= limit -> movies_cache <> [] ->
  get_popular_movies_fallback ratings_cache movies_cache limit <> [].
Proof.
  intros Hl Hm. rewrite get_popular_movies_fallback_eq.
  destruct movies_cache as [| mv mvs] eqn:Em; [congruence |].
  cbn [is_empty]. apply py_prefix_nonempty; [exact Hl |].
  now apply popular_filled_not_nil.
Qed.

Lemma or_popular_not_nil `{NumLib} (ratings_cache : list Rating)
    (movies_cache : list Movie) (limit : Z) (r : list RecommendationItem) :
  1 <= limit -> movies_cache <> [] ->
  or_popular ratings_cache movies_cache limit r <> [].
Proof.
  intros Hl Hm. unfold or_popular. destruct r as [| it r]; cbn [is_empty].
  - now apply popularity_not_nil.
  - discriminate.
Qed.

(** X20.  With a non-empty movie snapshot and a limit of at least 1,
    the hybrid recommender never returns the empty result: whenever it
    returns, it returns at least one entry, for every user. *)
Theorem hybrid_never_empty `{NumLib} (ratings_cache : list Rating)
    (movies_cache : list Movie) (user_id : string) (limit : Z)
    (self self' : Engine) (r : list RecommendationItem) :
  1 <= limit -> movies_cache <> [] ->
  hybrid_recommendations ratings_cache movies_cache user_id limit self
    = (Ok r, self') ->
  r <> [].
Proof.
  intros Hl Hm. rewrite hybrid_run. cbv zeta.
  destruct (MIN_RATINGS_FOR_CF <=? _)%nat.
  - destruct (cf_result _ _ _); [| discriminate].
    destruct (sim_in_use movies_cache self); [| discriminate].
    destruct (content_result _ _ _ _ _); [| discriminate].
    intros [= <- _]. now apply or_popular_not_nil.
  - destruct (0 <? _)%nat.
    + destruct (sim_in_use movies_cache self); [| discriminate].
      destruct (content_result _ _ _ _ _); [| discriminate].
      intros [= <- _]. now apply or_popular_not_nil.
    + intros [= <- _]. now apply popularity_not_nil.
Qed.

Lemma hybrid_never_empty_witness :
  returned (hybrid_recommendations Sample.lukewarm_ratings
              Sample.seven_movies "u9" 3 new_engine) <> [].
Proof.
  apply (hybrid_never_empty Sample.lukewarm_ratings Sample.seven_movies
           "u9" 3 new_engine
           (snd (hybrid_recommendations Sample.lukewarm_ratings
                   Sample.seven_movies "u9" 3 new_engine))).
  - lia.
  - discriminate.
  - vm_compute. reflexivity.
Defined.

Lemma dict_set_length {V} (d : dict V) (k : string) (v : V) :
  (length (dict_set d k v) <= S (length d))%nat.
Proof.
  induction d as [| [k' v'] d IH]; simpl; [lia |].
  destruct (String.eqb k' k); simpl; lia.
Qed.

Lemma combined_dict_length (limit : Z)
    (cf_recs content_recs : list RecommendationItem) :
  (length (combined_dict limit cf_recs content_recs)
   <= length (py_prefix (limit / 2) cf_recs) + length content_recs)%nat.
Proof.
  unfold combined_dict.
  assert (Hcf : forall l d,
            (length (fold_left add_cf l d) <= length d + length l)%nat).
  { induction l as [| it l IH]; intros d; simpl; [lia |].
    specialize (IH (add_cf d it)). unfold add_cf in *.
    pose proof (dict_set_length d (item_movieId it)
                  (nmul (item_score it) CF_WEIGHT)). lia. }
  assert (Hct : forall l d,
            (length (fold_left add_content l d) <= length d + length l)%nat).
  { induction l as [| it l IH]; intros d; simpl; [lia |].
    specialize (IH (add_content d it)).
    assert (length (add_content d it) <= S (length d))%nat
      by (unfold add_content; destruct (dict_get d _);
          apply dict_set_length).
    lia. }
  specialize (Hct content_recs
                (fold_left add_cf (py_prefix (limit / 2) cf_recs) [])).
  specialize (Hcf (py_prefix (limit / 2) cf_recs) []). simpl in Hcf. lia.
Qed.

(** X21.  In the blended branch, for a limit that is not negative, the
    combined map holds at most [2 * (limit // 2)] movies, which is at
    most [limit]: the final truncation to [limit] removes nothing, and
    the blended result is the whole map in score order. *)
Theorem blended_result_is_whole_map `{NumLib}
    (ratings_cache : list Rating) (movies_cache : list Movie)
    (user_id : string) (limit : Z) (self s1 s2 : Engine)
    (cf_recs content_recs : list RecommendationItem) :
  0 <= limit ->
  collaborative_filtering_recommendations ratings_cache user_id limit self
    = (Ok cf_recs, s1) ->
  content_based_recommendations ratings_cache movies_cache user_id
    (limit / 2) s1 = (Ok content_recs, s2) ->
  let combined := combined_dict limit cf_recs content_recs in
  Z.of_nat (length combined) <= 2 * (limit / 2)
  /\ 2 * (limit / 2) <= limit
  /\ top_items limit combined
     = map (fun p => mkItem (fst p) (snd p)) (sorted_desc snd combined).
Proof.
  intros Hl Hcf Hct. cbv zeta.
  assert (Hhalf : 0 <= limit / 2) by (apply Z.div_pos; lia).
  assert (Hle : 2 * (limit / 2) <= limit)
    by (apply Z.mul_div_le; lia).
  assert (Hlen : Z.of_nat (length (combined_dict limit cf_recs content_recs))
                 <= 2 * (limit / 2)).
  { pose proof (combined_dict_length limit cf_recs content_recs) as Hc.
    pose proof (py_prefix_length (limit / 2) cf_recs Hhalf) as Hp.
    rewrite content_run in Hct.
    destruct (sim_in_use movies_cache s1) as [sim |]; [| discriminate].
    injection Hct as Hct _. apply content_result_props in Hct.
    destruct Hct as [_ [Hct _]]. specialize (Hct Hhalf). lia. }
  split; [exact Hlen |]. split; [exact Hle |].
  unfold top_items. f_equal. unfold py_prefix.
  destruct (Z.ltb_spec limit 0); [lia |].
  apply firstn_all2. unfold sorted_desc.
  rewrite (Permutation_length (sort_by_perm _ _)). lia.
Qed.

Lemma blended_result_is_whole_map_witness :
  let cf_recs :=
    returned (collaborative_filtering_recommendations Sample.keen_ratings
                "u1" 5 new_engine) in
  let s1 :=
    snd (collaborative_filtering_recommendations Sample.keen_ratings
           "u1" 5 new_engine) in
  let content_recs :=
    returned (content_based_recommendations Sample.keen_ratings
                Sample.seven_movies "u1" (5 / 2) s1) in
  Z.of_nat (length (combined_dict 5 cf_recs content_recs)) <= 2 * (5 / 2).
Proof.
  cbv zeta.
  eapply (blended_result_is_whole_map Sample.keen_ratings
            Sample.seven_movies "u1" 5 new_engine).
  - lia.
  - vm_compute. reflexivity.
  - vm_compute. reflexivity.
Defined.

(* ================================================================== *)
(** * The statistics *)
(* ================================================================== *)

Lemma dist_set_total (d : list (Q * nat)) (k : Q) :
  dist_total (dist_set d k (S (dist_get d k))) = S (dist_total d).
Proof.
  induction d as [| [k' c] d IH]; simpl; [reflexivity |].
  destruct (Qeq_bool k' k); simpl; [reflexivity |].
  rewrite IH. lia.
Qed.

Lemma dist_get_set (d : list (Q * nat)) (k k2 : Q) (c : nat) :
  dist_get (dist_set d k c) k2
  = if Qeq_bool k k2 then c else dist_get d k2.
Proof.
  induction d as [| [k' c'] d IH]; simpl; [reflexivity |].
  destruct (Qeq_bool k' k) eqn:E1; simpl.
  - destruct (Qeq_bool k' k2) eqn:E2, (Qeq_bool k k2) eqn:E3;
      try reflexivity; exfalso.
    + apply Qeq_bool_iff in E1, E2. apply Qeq_bool_neq in E3.
      apply E3. now rewrite <- E1.
    + apply Qeq_bool_iff in E1, E3. apply Qeq_bool_neq in E2.
      apply E2. now rewrite E1.
  - destruct (Qeq_bool k' k2) eqn:E2; [| exact IH].
    destruct (Qeq_bool k k2) eqn:E3; [| reflexivity]. exfalso.
    apply Qeq_bool_iff in E2, E3. apply Qeq_bool_neq in E1.
    apply E1. now rewrite E2, E3.
Qed.

Lemma rating_distribution_fold (rs : list Rating) (d : list (Q * nat))
    (s : Q) :
  let step := fun d r => dist_set d (score r) (S (dist_get d (score r))) in
  dist_total (fold_left step rs d) = (dist_total d + length rs)%nat
  /\ dist_get (fold_left step rs d) s
     = (dist_get d s
        + length (filter (fun r => Qeq_bool (score r) s) rs))%nat.
Proof.
  cbv zeta. revert d. induction rs as [| r rs IH]; intros d; simpl.
  - split; lia.
  - destruct (IH (dist_set d (score r) (S (dist_get d (score r)))))
      as [Ht Hg].
    rewrite Ht, Hg, dist_set_total, dist_get_set. split; [lia |].
    destruct (Qeq_bool (score r) s) eqn:E; simpl; [| reflexivity].
    assert (dist_get d (score r) = dist_get d s); [| lia].
    clear -E. induction d as [| [k' c] d IH]; simpl; [reflexivity |].
    destruct (Qeq_bool k' (score r)) eqn:E1, (Qeq_bool k' s) eqn:E2;
      try reflexivity; try exact IH; exfalso.
    + apply Qeq_bool_iff in E, E1. apply Qeq_bool_neq in E2.
      apply E2. now rewrite E1.
    + apply Qeq_bool_iff in E, E2. apply Qeq_bool_neq in E1.
      apply E1. now rewrite E2, E.
Qed.

(** X22.  The rating distribution of [get_stats] gives, for every
    score, the number of ratings of the snapshot with that score, and
    its counts add up to [total_ratings]. *)
Theorem stats_rating_distribution (ratings_cache : list Rating)
    (movies_cache : list Movie) (s : Q) :
  let stats := get_stats ratings_cache movies_cache in
  dist_get (rating_dist stats) s
    = length (filter (fun r => Qeq_bool (score r) s) ratings_cache)
  /\ dist_total (rating_dist stats) = total_ratings stats.
Proof.
  cbv zeta. unfold get_stats, rating_distribution.
  cbn [rating_dist total_ratings].
  destruct (rating_distribution_fold ratings_cache [] s) as [Ht Hg].
  cbv zeta in Ht, Hg. now rewrite Ht, Hg.
Qed.

(** X23.  [unique_users] of [get_stats] is the number of rows of the
    user-item matrix built from the same snapshot, and is at most
    [total_ratings]. *)
Theorem stats_unique_users (ratings_cache : list Rating)
    (movies_cache : list Movie) :
  let stats := get_stats ratings_cache movies_cache in
  unique_users stats = length (index (pivot_table ratings_cache))
  /\ (unique_users stats <= total_ratings stats)%nat.
Proof.
  cbv zeta. unfold get_stats. cbn [unique_users total_ratings].
  split.
  - apply Permutation_length, NoDup_Permutation.
    + apply NoDup_nodup.
    + apply strictly_ascending_NoDup, sort_uniq_ascending.
    + intros u. cbn [pivot_table index].
      now rewrite nodup_In, sort_uniq_In.
  - rewrite <- (length_map userId ratings_cache).
    apply NoDup_incl_length; [apply NoDup_nodup |].
    intros u Hu. now apply nodup_In in Hu.
Qed.

(* ================================================================== *)
(** * The endpoints and the cache *)
(* ================================================================== *)

(** X24.  [post_recommendations] answers every request with status
    500: when the recommender returns, the response model is built
    from keywords that name none of its three required fields, the
    construction raises, and the handler turns that into status 500
    like any other exception.  [get_recommendations] answers a limit
    outside [1 .. 50] with status 422 and leaves the engine alone; for
    a limit within, it answers with the recommender's result whenever
    the recommender returns, and with status 500 when it raises. *)
Theorem post_recommendations_always_fails `{NumLib}
    (ratings_cache : list Rating) (movies_cache : list Movie)
    (user_id : string) (limit : Z) (type : string) (self : Engine) :
  let get :=
    get_recommendations ratings_cache movies_cache user_id limit type self in
  let run := recommend ratings_cache movies_cache type user_id limit self in
  fst (post_recommendations ratings_cache movies_cache user_id limit type
         self) = HTTP_500
  /\ (limit < 1 \/ 50 < limit -> get = (HTTP_422, self))
  /\ (1 <= limit <= 50 ->
      (forall r self', run = (Ok r, self') ->
                       get = (HTTP_200 (mkBody r user_id type), self'))
      /\ (forall e self', run = (Raise e, self') -> get = (HTTP_500, self'))).
Proof.
  cbv zeta. split; [| split].
  - unfold post_recommendations.
    destruct (recommend _ _ _ _ _ _) as [[r | e] self']; reflexivity.
  - intros Hout. unfold get_recommendations, limit_in_range.
    destruct (Z.leb_spec 1 limit), (Z.leb_spec limit 50);
      cbn [andb]; try reflexivity; lia.
  - intros Hin. unfold get_recommendations, limit_in_range.
    destruct (Z.leb_spec 1 limit), (Z.leb_spec limit 50); try lia.
    cbn [andb]. split; intros ? self' E; now rewrite E.
Qed.

Lemma post_recommendations_always_fails_witness :
  fst (get_recommendations Sample.keen_ratings Sample.seven_movies "u1" 0
         "hybrid" new_engine) = HTTP_422
  /\ fst (get_recommendations Sample.keen_ratings Sample.seven_movies "u1"
            10 "hybrid" new_engine)
     = HTTP_200
         (mkBody (returned (hybrid_recommendations Sample.keen_ratings
                              Sample.seven_movies "u1" 10 new_engine))
                 "u1" "hybrid").
Proof.
  split.
  - pose proof (post_recommendations_always_fails Sample.keen_ratings
                  Sample.seven_movies "u1" 0 "hybrid" new_engine)
      as [_ [Hout _]].
    cbv zeta in Hout. rewrite Hout; [reflexivity | lia].
  - pose proof (post_recommendations_always_fails Sample.keen_ratings
                  Sample.seven_movies "u1" 10 "hybrid" new_engine)
      as [_ [_ Hin]].
    cbv zeta in Hin. destruct Hin as [Hok _]; [lia |].
    rewrite (Hok (returned (hybrid_recommendations Sample.keen_ratings
                              Sample.seven_movies "u1" 10 new_engine))
                 (snd (hybrid_recommendations Sample.keen_ratings
                         Sample.seven_movies "u1" 10 new_engine)));
      [reflexivity | vm_compute; reflexivity].
Defined.

(** X25.  [load_data] tests the age of the cache on the [seconds] field
    of the time difference, which leaves out whole days: the cache
    counts as valid exactly when the age, reduced modulo one day, is
    below 300 seconds.  So a cache that is any number of whole days
    older counts as valid just the same, and within the first day the
    cache is valid exactly for 300 seconds. *)
Theorem cache_validity_ignores_days (t now days : Z) :
  cache_is_valid (Some t) (now + days * 86400000000)
    = cache_is_valid (Some t) now
  /\ (0 <= now - t < 86400000000 ->
      (cache_is_valid (Some t) now = true <-> now - t < 300000000))
  /\ cache_is_valid None now = false.
Proof.
  unfold cache_is_valid, timedelta_seconds, CACHE_DURATION.
  split; [| split; [| reflexivity]].
  - replace (now + days * 86400000000 - t)
      with (now - t + (days * 86400) * 1000000) by ring.
    rewrite Z.div_add by lia. now rewrite Z.mod_add by lia.
  - intros Hage.
    assert (Hq : 0 <= (now - t) / 1000000 < 86400).
    { split; [apply Z.div_pos; lia |].
      apply Z.div_lt_upper_bound; lia. }
    rewrite Z.mod_small by exact Hq. rewrite Z.ltb_lt. split.
    + intros Hlt.
      pose proof (Z.mul_div_le (now - t) 1000000 ltac:(lia)).
      pose proof (Z.mod_pos_bound (now - t) 1000000 ltac:(lia)).
      pose proof (Z.div_mod (now - t) 1000000 ltac:(lia)). lia.
    + intros Hlt. apply Z.div_lt_upper_bound; lia.
Qed.

Lemma cache_validity_ignores_days_witness :
  cache_is_valid (Some 0) 299999999 = true
  <-> 299999999 - 0 < 300000000.
Proof.
  apply (cache_validity_ignores_days 0 299999999 0). lia.
Defined.

(* ================================================================== *)
(** * Results for different limits *)
(* ================================================================== *)

Lemma py_prefix_nonneg {A} (n : Z) (l : list A) :
  0 <= n -> py_prefix n l = firstn (Z.to_nat n) l.
Proof.
  intros Hn. unfold py_prefix. now destruct (Z.ltb_spec n 0); [lia |].
Qed.

Lemma top_items_prefix (l1 l2 : Z) (d : dict num) :
  0 <= l1 <= l2 ->
  top_items l1 d = firstn (Z.to_nat l1) (top_items l2 d).
Proof.
  intros Hl. unfold top_items.
  rewrite !py_prefix_nonneg by lia.
  rewrite <- !firstn_map. rewrite firstn_firstn.
  f_equal. lia.
Qed.

(** X26.  A smaller limit gives a prefix of what a larger limit gives:
    on the same engine and snapshot, the collaborative (and likewise
    the content) result for a limit [l1] is the first [l1] entries of
    the result for any limit [l2 >= l1]. *)
Theorem smaller_limit_gives_prefix `{NumLib}
    (ratings_cache : list Rating) (movies_cache : list Movie)
    (user_id : string) (l1 l2 : Z) (self self' : Engine)
    (r2 : list RecommendationItem) :
  0 <= l1 <= l2 ->
  (collaborative_filtering_recommendations ratings_cache user_id l2 self
     = (Ok r2, self') ->
   collaborative_filtering_recommendations ratings_cache user_id l1 self
     = (Ok (firstn (Z.to_nat l1) r2), self'))
  /\ (content_based_recommendations ratings_cache movies_cache user_id l2
        self = (Ok r2, self') ->
      content_based_recommendations ratings_cache movies_cache user_id l1
        self = (Ok (firstn (Z.to_nat l1) r2), self')).
Proof.
  intros Hl. split.
  - rewrite !collaborative_run. intros [= Hr <-]. f_equal.
    unfold cf_result in *.
    destruct (matrix_in_use ratings_cache self) as [m |]; [| discriminate].
    injection Hr as <-. f_equal.
    destruct (negb (str_in user_id (index m)));
      [now rewrite firstn_nil | now apply top_items_prefix].
  - rewrite !content_run.
    destruct (sim_in_use movies_cache self) as [sim |]; [| discriminate].
    intros [= Hr <-]. f_equal. unfold content_result in *.
    destruct (is_empty (ratings_of _ _));
      [injection Hr as <-; now rewrite firstn_nil |].
    destruct (is_empty (liked_movies_of _ _));
      [injection Hr as <-; now rewrite firstn_nil |].
    destruct (content_collect _ _ _ _); [| discriminate].
    injection Hr as <-. f_equal. now apply top_items_prefix.
Qed.

Lemma smaller_limit_gives_prefix_witness :
  collaborative_filtering_recommendations Sample.keen_ratings "u1" 1
    new_engine
  = (Ok (firstn (Z.to_nat 1)
           (returned (collaborative_filtering_recommendations
                        Sample.keen_ratings "u1" 2 new_engine))),
     snd (collaborative_filtering_recommendations Sample.keen_ratings
            "u1" 2 new_engine)).
Proof.
  apply (smaller_limit_gives_prefix Sample.keen_ratings Sample.seven_movies
           "u1" 1 2 new_engine).
  - lia.
  - vm_compute. reflexivity.
Defined.

(** X27.  The same holds for the popularity fallback, although the
    unrated movies are only added for limits above the number of rated
    movies: its result for [l1] is the first [l1] entries of its result
    for any [l2 >= l1]. *)
Theorem popularity_smaller_limit_gives_prefix `{NumLib}
    (ratings_cache : list Rating) (movies_cache : list Movie) (l1 l2 : Z) :
  0 <= l1 <= l2 ->
  get_popular_movies_fallback ratings_cache movies_cache l1
  = firstn (Z.to_nat l1)
      (get_popular_movies_fallback ratings_cache movies_cache l2).
Proof.
  intros Hl. rewrite !get_popular_movies_fallback_eq.
  destruct (is_empty movies_cache); [now rewrite firstn_nil |].
  rewrite !py_prefix_nonneg by lia. rewrite firstn_firstn.
  replace (Nat.min (Z.to_nat l1) (Z.to_nat l2)) with (Z.to_nat l1) by lia.
  unfold popular_filled.
  set (popular := popular_movies ratings_cache).
  destruct (Z.ltb_spec (Z.of_nat (length popular)) l1) as [H1 | H1];
    destruct (Z.ltb_spec (Z.of_nat (length popular)) l2) as [H2 | H2];
    try reflexivity; try lia.
  rewrite firstn_app.
  replace (Z.to_nat l1 - length popular)%nat with 0%nat by lia.
  cbn [firstn]. now rewrite app_nil_r.
Qed.

Lemma popularity_smaller_limit_gives_prefix_witness :
  get_popular_movies_fallback Sample.one_poor_rating Sample.two_movies 1
  = firstn (Z.to_nat 1)
      (get_popular_movies_fallback Sample.one_poor_rating
         Sample.two_movies 2).
Proof.
  apply (popularity_smaller_limit_gives_prefix Sample.one_poor_rating
           Sample.two_movies 1 2). lia.
Defined.
